(** * The Arena protocol translator of the OpenRouter-alternative Python backend

    A shallow embedding of [python-backend/config.py], [python-backend/client.py]
    and the chat-completions endpoint of [python-backend/main.py], followed by
    the properties of the request translator, the stream translator, the token
    estimator and the error mapping.

    Modelling conventions.
    - A Python [str] is a sequence of Unicode code points ([pystr]); [len] is
      the length of that sequence.
    - Values that travel as JSON (request bodies, provider payloads, the dicts
      the client builds) are [json] trees.  A dict is an association list in
      insertion order, which is the order [json.dumps] emits; lookup takes the
      first binding of a key.  Numbers are integers: no claim of the
      specification depends on a fractional number.
    - [uuid.uuid4()], [time.time()] and the provider are the outside world: a
      [World] gives the n-th identifier, the n-th clock reading and the
      provider's answer to a call; a [State] counts what has been drawn and
      logs every outbound call.
    - A function that can raise returns a [result]; an [async] generator is the
      list of what it yields when consumed to its end, together with how it
      ended. *)

From Stdlib Require Import ZArith NArith List String Ascii Bool Lia Arith.
From Stdlib Require Import DecimalString.
Import ListNotations.
Set Warnings "-register-all".
Local Open Scope string_scope.
Local Open Scope list_scope.
Local Open Scope Z_scope.

(** ** Python strings *)

Definition pystr : Type := list N.

Definition py (s : string) : pystr := map N_of_ascii (list_ascii_of_string s).
Coercion py : string >-> pystr.

Definition cat (a b : pystr) : pystr := a ++ b.
Infix "+++" := cat (at level 60, right associativity).

Definition len (s : pystr) : Z := Z.of_nat (List.length s).

Fixpoint str_eqb (a b : pystr) : bool :=
  match a, b with
  | [], [] => true
  | x :: a', y :: b' => N.eqb x y && str_eqb a' b'
  | _, _ => false
  end.

(** [s.startswith(p)] *)
Fixpoint startswith (s p : pystr) : bool :=
  match p, s with
  | [], _ => true
  | x :: p', y :: s' => N.eqb x y && startswith s' p'
  | _ :: _, [] => false
  end.

(** [s.endswith(p)] *)
Definition endswith (s p : pystr) : bool := startswith (rev s) (rev p).

(** [p in s] for two strings: [p] occurs in [s] as a substring. *)
Fixpoint str_contains (s p : pystr) : bool :=
  startswith s p || match s with [] => false | _ :: s' => str_contains s' p end.

(** [s.split(sep, 1)] for a one-character separator that occurs in [s]:
    the text before the first occurrence and the text after it;
    [None] when the separator does not occur. *)
Fixpoint split_once (sep : N) (s : pystr) : option (pystr * pystr) :=
  match s with
  | [] => None
  | c :: s' =>
      if N.eqb c sep then Some ([], s')
      else match split_once sep s' with
           | Some (a, b) => Some (c :: a, b)
           | None => None
           end
  end.

(** [sep.join(parts)] on a list of strings. *)
Fixpoint join (sep : pystr) (parts : list pystr) : pystr :=
  match parts with
  | [] => []
  | [p] => p
  | p :: rest => p +++ sep +++ join sep rest
  end.

(** [s.lower()] on the ASCII letters, which is all an identifier printed by
    [str(uuid.uuid4())] can contain. *)
Definition lower_char (c : N) : N :=
  if (N.leb 65 c && N.leb c 90)%bool then (c + 32)%N else c.
Definition lower (s : pystr) : pystr := map lower_char s.

Definition chr_quote : N := 34.
Definition chr_backslash : N := 92.
Definition chr_colon : N := 58.
Definition chr_newline : N := 10.

(** [str(n)] for an [int]. *)
Definition str_of_int (z : Z) : pystr := py (NilZero.string_of_int (Z.to_int z)).

(** ** JSON values, which are also the Python values the code handles *)

Inductive json : Type :=
| JNull
| JBool (b : bool)
| JInt (z : Z)
| JStr (s : pystr)
| JArr (items : list json)
| JObj (fields : list (pystr * json)).

(** A dict with string keys: association list in insertion order. *)
Definition dict (V : Type) : Type := list (pystr * V).

Fixpoint dict_get {V : Type} (d : dict V) (k : pystr) : option V :=
  match d with
  | [] => None
  | (k', v) :: d' => if str_eqb k' k then Some v else dict_get d' k
  end.

(** [d[k] = v]: overwrites in place, or appends a new key at the end. *)
Fixpoint dict_set {V : Type} (d : dict V) (k : pystr) (v : V) : dict V :=
  match d with
  | [] => [(k, v)]
  | (k', v') :: d' =>
      if str_eqb k' k then (k', v) :: d' else (k', v') :: dict_set d' k v
  end.

(** ** Exceptions and results *)

Inductive exn : Type :=
| KeyError (key : pystr)
| IndexError (msg : pystr)
| TypeError (msg : pystr)
| AttributeError (msg : pystr)
| ValueError (msg : pystr)
| HTTPException (status_code : Z) (detail : json)
| TransportError (msg : pystr).

(** [str(e)].  A [KeyError] prints the repr of its key, which for the plain
    ASCII keys the code uses is the key between single quotes; an
    [HTTPException] prints as its status and detail, which the code never
    does, so only the status is kept.  [TransportError] stands for whatever
    [httpx] raises (refused connection, timeout, non-2xx status through
    [raise_for_status]) and carries its text. *)
Definition exn_str (e : exn) : pystr :=
  match e with
  | KeyError k => "'" +++ k +++ "'"
  | IndexError m | TypeError m | AttributeError m | ValueError m
  | TransportError m => m
  | HTTPException c _ => str_of_int c
  end.

Inductive result (A : Type) : Type :=
| Ok (a : A)
| Raise (e : exn).
Arguments Ok {A} a.
Arguments Raise {A} e.

(** ** Dynamic operations of Python on these values
    (message texts of the interpreter's own errors as CPython 3.12 prints
    them) *)

Definition type_name (v : json) : pystr :=
  match v with
  | JNull => "NoneType"
  | JBool _ => "bool"
  | JInt _ => "int"
  | JStr _ => "str"
  | JArr _ => "list"
  | JObj _ => "dict"
  end.

(** [v == s] against a string literal [s]. *)
Definition eq_str (v : json) (s : pystr) : bool :=
  match v with
  | JStr s' => str_eqb s' s
  | _ => false
  end.

(** [bool(v)] *)
Definition truthy (v : json) : bool :=
  match v with
  | JNull => false
  | JBool b => b
  | JInt z => negb (z =? 0)
  | JStr s => negb (str_eqb s [])
  | JArr l => match l with [] => false | _ => true end
  | JObj d => match d with [] => false | _ => true end
  end.

(** [v[k]] with a string key [k]. *)
Definition getitem (v : json) (k : pystr) : result json :=
  match v with
  | JObj d => match dict_get d k with Some x => Ok x | None => Raise (KeyError k) end
  | JArr _ => Raise (TypeError "list indices must be integers or slices, not str")
  | JStr _ => Raise (TypeError "string indices must be integers, not 'str'")
  | _ => Raise (TypeError ("'" +++ type_name v +++ "' object is not subscriptable"))
  end.

(** [v.get(k, default)] *)
Definition get (v : json) (k : pystr) (default : json) : result json :=
  match v with
  | JObj d => Ok (match dict_get d k with Some x => x | None => default end)
  | _ => Raise (AttributeError ("'" +++ type_name v +++ "' object has no attribute 'get'"))
  end.

(** [k in v] for a string [k]. *)
Definition contains (v : json) (k : pystr) : result bool :=
  match v with
  | JObj d => Ok (match dict_get d k with Some _ => true | None => false end)
  | JArr l => Ok (existsb (fun x => eq_str x k) l)
  | JStr s => Ok (str_contains s k)
  | _ => Raise (TypeError ("argument of type '" +++ type_name v +++ "' is not iterable"))
  end.

(** The items a [for] loop over [v] visits. *)
Definition iterate (v : json) : result (list json) :=
  match v with
  | JArr l => Ok l
  | JObj d => Ok (map (fun kv => JStr (fst kv)) d)
  | JStr s => Ok (map (fun c => JStr [c]) s)
  | _ => Raise (TypeError ("'" +++ type_name v +++ "' object is not iterable"))
  end.

(** [len(v)] *)
Definition py_len (v : json) : result Z :=
  match v with
  | JStr s => Ok (len s)
  | JArr l => Ok (Z.of_nat (List.length l))
  | JObj d => Ok (Z.of_nat (List.length d))
  | _ => Raise (TypeError ("object of type '" +++ type_name v +++ "' has no len()"))
  end.

(** [str(v)] for the values that can be a dict key; a container is printed
    by [repr], which is left to the world (see [World]). *)
Definition str_of_atom (v : json) : option pystr :=
  match v with
  | JNull => Some (py "None")
  | JBool true => Some (py "True")
  | JBool false => Some (py "False")
  | JInt z => Some (str_of_int z)
  | JStr s => Some s
  | _ => None
  end.

(** [sep.join(items)]: every item must be a [str]. *)
Fixpoint join_items (i : nat) (items : list json) : result (list pystr) :=
  match items with
  | [] => Ok []
  | JStr s :: rest =>
      match join_items (S i) rest with
      | Ok l => Ok (s :: l)
      | Raise e => Raise e
      end
  | v :: _ =>
      Raise (TypeError ("sequence item " +++ str_of_int (Z.of_nat i)
                        +++ ": expected str instance, " +++ type_name v +++ " found"))
  end.

Definition py_join (sep : pystr) (items : list json) : result pystr :=
  match join_items 0 items with
  | Ok l => Ok (join sep l)
  | Raise e => Raise e
  end.

(** ** [json.loads] on a string literal and [json.dumps]

    [_process_arena_sse_data] calls [json.loads] only on a text that starts
    and ends with a double quote, so the only document it can accept is one
    JSON string literal.  The scanner is the strict one of the [json] module:
    raw control characters are refused, the escapes are the nine short ones
    and [\uXXXX], and an escaped high surrogate directly followed by an
    escaped low surrogate makes one code point. *)

Definition hex_val (c : N) : option N :=
  if (N.leb 48 c && N.leb c 57)%bool then Some (c - 48)%N
  else if (N.leb 97 c && N.leb c 102)%bool then Some (c - 87)%N
  else if (N.leb 65 c && N.leb c 70)%bool then Some (c - 55)%N
  else None.

Definition hex4 (a b c d : N) : option N :=
  match hex_val a, hex_val b, hex_val c, hex_val d with
  | Some x, Some y, Some z, Some w => Some (((x * 16 + y) * 16 + z) * 16 + w)%N
  | _, _, _, _ => None
  end.

(** The [BACKSLASH] table of [json.decoder]. *)
Definition simple_escape (c : N) : option N :=
  if N.eqb c 34 then Some 34%N            (* quote *)
  else if N.eqb c 92 then Some 92%N       (* backslash *)
  else if N.eqb c 47 then Some 47%N       (* slash *)
  else if N.eqb c 98 then Some 8%N        (* b *)
  else if N.eqb c 102 then Some 12%N      (* f *)
  else if N.eqb c 110 then Some 10%N      (* n *)
  else if N.eqb c 114 then Some 13%N      (* r *)
  else if N.eqb c 116 then Some 9%N       (* t *)
  else None.

(** One decoded item: a character taken as written, or the value of a
    [\uXXXX] escape. *)
Inductive scanned : Type :=
| Plain (c : N)
| Escaped (c : N).

(** Scans the text after the opening quote: the items up to the closing quote
    and the text that follows it; [None] is a [JSONDecodeError]. *)
Fixpoint scanstring (s : pystr) : option (list scanned * pystr) :=
  match s with
  | [] => None
  | c :: s1 =>
      if N.eqb c chr_quote then Some ([], s1)
      else if N.eqb c chr_backslash then
        match s1 with
        | [] => None
        | e :: s2 =>
            if N.eqb e 117 then
              match s2 with
              | h1 :: h2 :: h3 :: h4 :: s3 =>
                  match hex4 h1 h2 h3 h4 with
                  | Some u =>
                      match scanstring s3 with
                      | Some (items, rest) => Some (Escaped u :: items, rest)
                      | None => None
                      end
                  | None => None
                  end
              | _ => None
              end
            else
              match simple_escape e with
              | Some d =>
                  match scanstring s2 with
                  | Some (items, rest) => Some (Plain d :: items, rest)
                  | None => None
                  end
              | None => None
              end
        end
      else if N.ltb c 32 then None
      else
        match scanstring s1 with
        | Some (items, rest) => Some (Plain c :: items, rest)
        | None => None
        end
  end.

Definition is_high_surrogate (u : N) : bool := (N.leb 55296 u && N.leb u 56319)%bool.
Definition is_low_surrogate (u : N) : bool := (N.leb 56320 u && N.leb u 57343)%bool.

Fixpoint pair_surrogates (items : list scanned) : pystr :=
  match items with
  | [] => []
  | Plain c :: rest => c :: pair_surrogates rest
  | Escaped u :: rest =>
      match rest with
      | Escaped u2 :: rest2 =>
          if (is_high_surrogate u && is_low_surrogate u2)%bool
          then (65536 + ((u - 55296) * 1024 + (u2 - 56320)))%N :: pair_surrogates rest2
          else u :: pair_surrogates rest
      | _ => u :: pair_surrogates rest
      end
  end.

(** [json.loads(text)] for a [text] that starts with a double quote. *)
Definition json_loads_string (text : pystr) : option pystr :=
  match text with
  | c :: body =>
      if N.eqb c chr_quote then
        match scanstring body with
        | Some (items, []) => Some (pair_surrogates items)
        | _ => None
        end
      else None
  | [] => None
  end.

Definition hex_digit (n : N) : N := if N.ltb n 10 then (48 + n)%N else (87 + n)%N.

(** [backslash-u] followed by four lower-case hexadecimal digits. *)
Definition u_escape (n : N) : pystr :=
  [chr_backslash; 117%N;
   hex_digit (N.land (N.shiftr n 12) 15); hex_digit (N.land (N.shiftr n 8) 15);
   hex_digit (N.land (N.shiftr n 4) 15); hex_digit (N.land n 15)].

(** [json.encoder.ESCAPE_DCT] under [ensure_ascii]: everything outside
    space..tilde, the quote and the backslash are escaped. *)
Definition escape_char (c : N) : pystr :=
  if N.eqb c chr_quote then [chr_backslash; chr_quote]
  else if N.eqb c chr_backslash then [chr_backslash; chr_backslash]
  else if N.eqb c 10 then [chr_backslash; 110%N]
  else if N.eqb c 13 then [chr_backslash; 114%N]
  else if N.eqb c 9 then [chr_backslash; 116%N]
  else if N.eqb c 8 then [chr_backslash; 98%N]
  else if N.eqb c 12 then [chr_backslash; 102%N]
  else if (N.leb 32 c && N.leb c 126)%bool then [c]
  else if N.ltb c 65536 then u_escape c
  else
    let n := (c - 65536)%N in
    u_escape (N.lor 55296 (N.land (N.shiftr n 10) 1023))
    +++ u_escape (N.lor 56320 (N.land n 1023)).

Definition encode_basestring_ascii (s : pystr) : pystr :=
  [chr_quote] +++ flat_map escape_char s +++ [chr_quote].

(** [json.dumps(v)] with the default separators. *)
Fixpoint json_dumps (v : json) : pystr :=
  match v with
  | JNull => "null"
  | JBool true => "true"
  | JBool false => "false"
  | JInt z => str_of_int z
  | JStr s => encode_basestring_ascii s
  | JArr items => "[" +++ join ", " (map json_dumps items) +++ "]"
  | JObj fields =>
      "{" +++ join ", " (map (fun kv => match kv with
                                      | (k, x) => encode_basestring_ascii k +++ ": " +++ json_dumps x
                                      end) fields) +++ "}"
  end.

(** ** The outside world and the state of a request *)

(** One call of [self.session.post] or [self.session.stream]. *)
Record OutboundCall : Type := {
  call_streamed : bool;
  call_url : pystr;
  call_headers : dict pystr;
  call_json : json
}.

(** What a streamed call gives: it fails before a line is read (connection
    error, or [raise_for_status] on a non-2xx answer), or [aiter_lines] hands
    over [lines] and then ends, normally or with an error. *)
Inductive StreamOutcome : Type :=
| StreamRefused (e : exn)
| StreamLines (lines : list pystr) (failure : option exn).

Record World : Type := {
  uuid4 : nat -> pystr;              (* [str(uuid.uuid4())], by draw number *)
  time_time : nat -> Z;              (* [int(time.time())], by reading number *)
  repr : json -> pystr;              (* [str] of a list or dict *)
  arena_post : nat -> OutboundCall -> result json;
  arena_stream : nat -> OutboundCall -> StreamOutcome
}.

Record State : Type := {
  uuids_drawn : nat;
  clock_reads : nat;
  outbound : list OutboundCall
}.

Definition M (A : Type) : Type := State -> result A * State.

Definition ret {A : Type} (a : A) : M A := fun st => (Ok a, st).

Definition bind {A B : Type} (m : M A) (k : A -> M B) : M B :=
  fun st =>
    match m st with
    | (Ok a, st') => k a st'
    | (Raise e, st') => (Raise e, st')
    end.

Definition lift {A : Type} (r : result A) : M A := fun st => (r, st).

Definition raise {A : Type} (e : exn) : M A := fun st => (Raise e, st).

Notation "x <- m ;; k" := (bind m (fun x => k))
  (at level 61, m at next level, right associativity).

(** ** [config.py] *)

Record Config : Type := {
  arena_base_url : pystr;
  user_agent : pystr;
  default_la_cookie : option pystr;
  default_cf_clearance : option pystr;
  supported_models : list pystr;
  model_mapping : dict pystr
}.

Definition default_supported_models : list pystr :=
  [ py "gpt-4o-latest"; py "gpt-4.1-2025-04-14"; py "gpt-4.1-mini-2025-04-14";
    py "claude-3-5-haiku-20241022"; py "claude-3-5-sonnet-20241022";
    py "claude-3-7-sonnet-20250219"; py "claude-opus-4-20250514";
    py "claude-sonnet-4-20250514"; py "gemini-2.0-flash-001";
    py "gemini-2.5-flash-preview-04-17"; py "gemini-2.5-pro-preview-05-06";
    py "llama-3.3-70b-instruct"; py "llama-4-maverick-03-26-experimental";
    py "deepseek-v3-0324"; py "grok-3-mini-beta"; py "grok-3-preview-02-24";
    py "o3-2025-04-16"; py "o3-mini"; py "o4-mini-2025-04-16";
    py "qwen-max-2025-01-25"; py "dall-e-3"; py "gpt-image-1";
    py "gemini-2.0-flash-preview-image-generation"; py "imagen-3.0-generate-002";
    py "flux-1.1-pro"; py "ideogram-v2"; py "photon"; py "recraft-v3" ].

Definition default_model_mapping : dict pystr :=
  [ (py "gpt-4", py "gpt-4o-latest");
    (py "gpt-4-turbo", py "gpt-4.1-2025-04-14");
    (py "gpt-3.5-turbo", py "gpt-4.1-mini-2025-04-14");
    (py "claude-3-sonnet", py "claude-3-5-sonnet-20241022");
    (py "claude-3-haiku", py "claude-3-5-haiku-20241022");
    (py "gemini-pro", py "gemini-2.0-flash-001");
    (py "llama-3", py "llama-3.3-70b-instruct") ].

(** [Config()] with no environment variable set. *)
Definition default_config : Config := {|
  arena_base_url := "https://beta.lmarena.ai";
  user_agent := "OpenRouter-Alternative-Backend/1.0";
  default_la_cookie := None;
  default_cf_clearance := None;
  supported_models := default_supported_models;
  model_mapping := default_model_mapping
|}.

(** [Config.get_model_id]: [self.model_mapping.get(model_name, model_name)].
    The key is hashed before the table is searched, so a list or a dict
    raises; the table has string keys only, so any other value maps to
    itself. *)
Definition get_model_id (cfg : Config) (model_name : json) : result json :=
  match model_name with
  | JStr s =>
      Ok (match dict_get (model_mapping cfg) s with
          | Some mapped => JStr mapped
          | None => model_name
          end)
  | JArr _ | JObj _ =>
      Raise (TypeError ("unhashable type: '" +++ type_name model_name +++ "'"))
  | _ => Ok model_name
  end.

(** [Config.is_model_supported] *)
Definition is_model_supported (cfg : Config) (model_name : json) : result bool :=
  match get_model_id cfg model_name with
  | Ok actual_model => Ok (existsb (eq_str actual_model) (supported_models cfg))
  | Raise e => Raise e
  end.

(** [bool(x)] for an optional string. *)
Definition truthy_opt (x : option pystr) : bool :=
  match x with
  | Some s => negb (str_eqb s [])
  | None => false
  end.

Definition opt_str (x : option pystr) : pystr :=
  match x with
  | Some s => s
  | None => "None"
  end.

Definition get_or (d : dict pystr) (k : pystr) (default : option pystr) : option pystr :=
  match dict_get d k with
  | Some v => Some v
  | None => default
  end.

(** [Config.get_request_headers] *)
Definition get_request_headers (cfg : Config) (auth_context : dict pystr) : dict pystr :=
  let headers :=
    [ (py "User-Agent", opt_str (get_or auth_context "user_agent" (Some (user_agent cfg))));
      (py "Content-Type", py "application/json");
      (py "Accept", py "application/json") ] in
  let la_cookie := get_or auth_context "la_cookie" (default_la_cookie cfg) in
  let cf_clearance := get_or auth_context "cf_clearance" (default_cf_clearance cfg) in
  if (truthy_opt la_cookie && truthy_opt cf_clearance)%bool
  then dict_set headers "Cookie"
         ("LA_COOKIE=" +++ opt_str la_cookie +++ "; CF_CLEARANCE=" +++ opt_str cf_clearance)
  else headers.

(** ** [client.py]: [ArenaClient] *)

(** What a generator yields: [f"data: {json.dumps(chunk)}\n\n"] for a chunk,
    or the literal terminator.  [render] is the yielded text. *)
Inductive sse_event : Type :=
| SseData (chunk : json)
| SseDone.

Definition done_literal : pystr := "data: [DONE]" +++ [chr_newline; chr_newline].

Definition render (e : sse_event) : pystr :=
  match e with
  | SseData chunk => "data: " +++ json_dumps chunk +++ [chr_newline; chr_newline]
  | SseDone => done_literal
  end.

(** [ArenaClient._estimate_tokens]: [max(1, len(text) // 4)] *)
Definition _estimate_tokens (text : json) : result Z :=
  match py_len text with
  | Ok n => Ok (Z.max 1 (n / 4))
  | Raise e => Raise e
  end.

(** The text parts collected by the inner loop of [_convert_to_arena_format]
    (lines 156-159). *)
Definition collect_text_parts (content : list json) : list json :=
  fold_left
    (fun text_parts part =>
       match part with
       | JObj d =>
           if eq_str (match dict_get d "type" with Some t => t | None => JNull end) "text"
           then text_parts ++ [match dict_get d "text" with Some t => t | None => JStr "" end]
           else text_parts
       | _ => text_parts
       end)
    content [].

(** Lines 153-160: a list content is replaced by its text parts joined by
    newlines, any other content is kept. *)
Definition flatten_content (content : json) : result json :=
  match content with
  | JArr parts =>
      match py_join [chr_newline] (collect_text_parts parts) with
      | Ok text => Ok (JStr text)
      | Raise e => Raise e
      end
  | _ => Ok content
  end.

Section Client.

Variable cfg : Config.
Variable W : World.

(** [str(uuid.uuid4()).lower()] *)
Definition fresh_uuid : M pystr :=
  fun st =>
    (Ok (lower (uuid4 W (uuids_drawn st))),
     {| uuids_drawn := S (uuids_drawn st);
        clock_reads := clock_reads st;
        outbound := outbound st |}).

(** [int(time.time())] *)
Definition read_clock (st : State) : Z * State :=
  (time_time W (clock_reads st),
   {| uuids_drawn := uuids_drawn st;
      clock_reads := S (clock_reads st);
      outbound := outbound st |}).

Definition now : M Z :=
  fun st => let (t, st') := read_clock st in (Ok t, st').

(** [str(v)] *)
Definition py_str (v : json) : pystr :=
  match str_of_atom v with
  | Some s => s
  | None => repr W v
  end.

(** The body of the [for i, msg in enumerate(...)] loop of
    [_convert_to_arena_format] (lines 148-184), run over the messages that
    remain, with the lists built so far. *)
Fixpoint convert_messages (model_id : json) (evaluation_id : pystr) (i : nat)
    (msgs : list json) (arena_messages : list json) (message_ids : list pystr)
    {struct msgs} : M (list json * list pystr) :=
  match msgs with
  | [] => ret (arena_messages, message_ids)
  | msg :: rest =>
      message_id <- fresh_uuid ;;
      let message_ids := message_ids ++ [message_id] in
      content <- lift (getitem msg "content") ;;
      content <- lift (flatten_content content) ;;
      parent_ids <- lift (if (0 <? i)%nat
                          then match nth_error message_ids (i - 1) with
                               | Some p => Ok [JStr p]
                               | None => Raise (IndexError "list index out of range")
                               end
                          else Ok []) ;;
      msg_role <- lift (getitem msg "role") ;;
      let msg_model_id := if eq_str msg_role "assistant" then model_id else JNull in
      let role := if eq_str msg_role "system" then JStr "user" else msg_role in
      let arena_message :=
        JObj [ (py "id", JStr message_id);
               (py "role", role);
               (py "content", content);
               (py "experimental_attachments", JArr []);
               (py "parentMessageIds", JArr parent_ids);
               (py "participantPosition", JStr "a");
               (py "modelId", msg_model_id);
               (py "evaluationSessionId", JStr evaluation_id);
               (py "status", JStr "pending");
               (py "failureReason", JNull) ] in
      convert_messages model_id evaluation_id (S i) rest
        (arena_messages ++ [arena_message]) message_ids
  end.

(** [ArenaClient._convert_to_arena_format] *)
Definition _convert_to_arena_format (openai_request : json) (modality : pystr) : M json :=
  evaluation_id <- fresh_uuid ;;
  model_name <- lift (getitem openai_request "model") ;;
  model_id <- lift (get_model_id cfg model_name) ;;
  messages <- lift (get openai_request "messages" (JArr [])) ;;
  msgs <- lift (iterate messages) ;;
  built <- convert_messages model_id evaluation_id 0 msgs [] [] ;;
  let arena_messages := fst built in
  let message_ids := snd built in
  assistant_message_id <- fresh_uuid ;;
  let arena_messages :=
    arena_messages ++
    [ JObj [ (py "id", JStr assistant_message_id);
             (py "role", JStr "assistant");
             (py "content", JStr "");
             (py "experimental_attachments", JArr []);
             (py "parentMessageIds",
                JArr (match message_ids with
                      | [] => []
                      | _ => [JStr (last message_ids [])]
                      end));
             (py "participantPosition", JStr "a");
             (py "modelId", model_id);
             (py "evaluationSessionId", JStr evaluation_id);
             (py "status", JStr "pending");
             (py "failureReason", JNull) ] ] in
  ret (JObj [ (py "id", JStr evaluation_id);
              (py "mode", JStr "direct");
              (py "modelAId", model_id);
              (py "userMessageId",
                 JStr (match message_ids with
                       | [] => assistant_message_id
                       | _ => last message_ids []
                       end));
              (py "modelAMessageId", JStr assistant_message_id);
              (py "messages", JArr arena_messages);
              (py "modality", JStr modality) ]).

Definition record_call (c : OutboundCall) : M nat :=
  fun st =>
    (Ok (List.length (outbound st)),
     {| uuids_drawn := uuids_drawn st;
        clock_reads := clock_reads st;
        outbound := outbound st ++ [c] |}).

(** [ArenaClient._make_arena_request]: the call is issued, and its answer
    (status check and body decoding included) is the world's. *)
Definition _make_arena_request (arena_request : json) (auth_context : dict pystr) : M json :=
  let headers := get_request_headers cfg auth_context in
  let url := arena_base_url cfg +++ "/api/create-evaluation" in
  let call := {| call_streamed := false; call_url := url;
                 call_headers := headers; call_json := arena_request |} in
  n <- record_call call ;;
  lift (arena_post W n call).

(** [ArenaClient._convert_to_openai_format] *)
Definition _convert_to_openai_format (arena_response original_request : json) : M json :=
  content <- lift (get arena_response "content" (JStr "")) ;;
  t_id <- now ;;
  t_created <- now ;;
  model <- lift (get original_request "model" (JStr "unknown")) ;;
  messages <- lift (get original_request "messages" (JArr [])) ;;
  prompt_tokens <- lift (_estimate_tokens (JStr (py_str messages))) ;;
  completion_tokens <- lift (_estimate_tokens content) ;;
  ret (JObj [ (py "id", JStr ("chatcmpl-" +++ str_of_int t_id));
              (py "object", JStr "chat.completion");
              (py "created", JInt t_created);
              (py "model", model);
              (py "choices",
                 JArr [ JObj [ (py "index", JInt 0);
                               (py "message", JObj [ (py "role", JStr "assistant");
                                                     (py "content", content) ]);
                               (py "finish_reason", JStr "stop") ] ]);
              (py "usage",
                 JObj [ (py "prompt_tokens", JInt prompt_tokens);
                        (py "completion_tokens", JInt completion_tokens);
                        (py "total_tokens", JInt (prompt_tokens + completion_tokens)) ]) ]).

(** [ArenaClient.chat_completion] *)
Definition chat_completion (request_body : json) (auth_context : dict pystr) : M json :=
  model <- lift (get request_body "model" JNull) ;;
  supported <- lift (is_model_supported cfg model) ;;
  if negb supported
  then raise (ValueError ("Unsupported model: " +++ py_str model))
  else
    arena_request <- _convert_to_arena_format request_body "chat" ;;
    response_data <- _make_arena_request arena_request auth_context ;;
    _convert_to_openai_format response_data request_body.

(** [ArenaClient._create_error_chunk] *)
Definition _create_error_chunk (error_message : pystr) (st : State) : json * State :=
  let (t_id, st1) := read_clock st in
  let (t_created, st2) := read_clock st1 in
  (JObj [ (py "id", JStr ("chatcmpl-" +++ str_of_int t_id));
          (py "object", JStr "chat.completion.chunk");
          (py "created", JInt t_created);
          (py "model", JStr "unknown");
          (py "choices",
             JArr [ JObj [ (py "index", JInt 0);
                           (py "delta", JObj [ (py "content", JStr ("Error: " +++ error_message));
                                               (py "role", JStr "assistant") ]);
                           (py "finish_reason", JStr "stop") ] ]) ],
   st2).

(** [ArenaClient._process_arena_sse_data]: [None] when no chunk is made.  The
    only statement that can raise is [json.loads], and the [except] clause
    turns that into [None] too. *)
Definition _process_arena_sse_data (data response_id : pystr) (model : json) (st : State)
  : option json * State :=
  match split_once chr_colon data with
  | None => (None, st)
  | Some (prefix, content) =>
      if str_eqb prefix "a0" then
        let decoded :=
          if (startswith content [chr_quote] && endswith content [chr_quote])%bool
          then json_loads_string content
          else Some content in
        match decoded with
        | None => (None, st)
        | Some content =>
            let (t_created, st1) := read_clock st in
            (Some (JObj [ (py "id", JStr response_id);
                          (py "object", JStr "chat.completion.chunk");
                          (py "created", JInt t_created);
                          (py "model", model);
                          (py "choices",
                             JArr [ JObj [ (py "index", JInt 0);
                                           (py "delta", JObj [ (py "content", JStr content);
                                                               (py "role", JStr "assistant") ]);
                                           (py "finish_reason", JNull) ] ]) ]),
             st1)
        end
      else if (str_eqb prefix "ae" || str_eqb prefix "ad")%bool then
        let (t_created, st1) := read_clock st in
        (Some (JObj [ (py "id", JStr response_id);
                      (py "object", JStr "chat.completion.chunk");
                      (py "created", JInt t_created);
                      (py "model", model);
                      (py "choices",
                         JArr [ JObj [ (py "index", JInt 0);
                                       (py "delta", JObj []);
                                       (py "finish_reason", JStr "stop") ] ]) ]),
         st1)
      else (None, st)
  end.

(** A generator run to its end: what it yielded, and whether it returned or
    raised. *)
Definition Gen : Type := State -> list sse_event * result unit * State.

(** The [async for line in response.aiter_lines()] loop of
    [_stream_arena_request] (lines 254-265); [failure] is how the line
    source ends once [lines] are used up. *)
Fixpoint translate_lines (response_id : pystr) (model : json) (lines : list pystr)
    (failure : option exn) (st : State) {struct lines}
  : list sse_event * result unit * State :=
  match lines with
  | [] =>
      ([], match failure with None => Ok tt | Some e => Raise e end, st)
  | line :: rest =>
      if startswith line "data: " then
        let data := skipn 6 line in
        if str_eqb data "[DONE]" then ([SseDone], Ok tt, st)
        else
          match _process_arena_sse_data data response_id model st with
          | (Some chunk, st1) =>
              if truthy chunk then
                match translate_lines response_id model rest failure st1 with
                | (evs, r, st2) => (SseData chunk :: evs, r, st2)
                end
              else translate_lines response_id model rest failure st1
          | (None, st1) => translate_lines response_id model rest failure st1
          end
      else translate_lines response_id model rest failure st
  end.

(** [ArenaClient._stream_arena_request] *)
Definition _stream_arena_request (arena_request : json) (auth_context : dict pystr) : Gen :=
  fun st =>
    let headers := dict_set (get_request_headers cfg auth_context) "Accept" "text/event-stream" in
    let url := arena_base_url cfg +++ "/api/create-evaluation" in
    let call := {| call_streamed := true; call_url := url;
                   call_headers := headers; call_json := arena_request |} in
    match record_call call st with
    | (Raise e, st1) => ([], Raise e, st1)
    | (Ok n, st1) =>
        match arena_stream W n call with
        | StreamRefused e => ([], Raise e, st1)
        | StreamLines lines failure =>
            let (t, st2) := read_clock st1 in
            let response_id := "chatcmpl-" +++ str_of_int t in
            match get arena_request "modelAId" (JStr "unknown") with
            | Raise e => ([], Raise e, st2)
            | Ok model => translate_lines response_id model lines failure st2
            end
        end
    end.

(** The [try] block of [stream_chat_completion] (lines 81-91). *)
Definition stream_chat_completion_try (request_body : json) (auth_context : dict pystr) : Gen :=
  fun st =>
    let validated : M json :=
      model <- lift (get request_body "model" JNull) ;;
      supported <- lift (is_model_supported cfg model) ;;
      if negb supported
      then raise (ValueError ("Unsupported model: " +++ py_str model))
      else _convert_to_arena_format request_body "chat" in
    match validated st with
    | (Raise e, st1) => ([], Raise e, st1)
    | (Ok arena_request, st1) => _stream_arena_request arena_request auth_context st1
    end.

(** [ArenaClient.stream_chat_completion]: the generator never raises. *)
Definition stream_chat_completion (request_body : json) (auth_context : dict pystr)
    (st : State) : list sse_event * State :=
  match stream_chat_completion_try request_body auth_context st with
  | (evs, Ok _, st1) => (evs, st1)
  | (evs, Raise e, st1) =>
      let (error_chunk, st2) := _create_error_chunk (exn_str e) st1 in
      (evs ++ [SseData error_chunk; SseDone], st2)
  end.

(** ** [main.py]: the chat-completions endpoint *)

Record Request : Type := {
  req_headers : list (pystr * pystr);
  req_body : option json        (* [None]: [request.json()] raises *)
}.

Inductive Response : Type :=
| JSONResponse (status_code : Z) (content : json)
| StreamingResponse (status_code : Z) (media_type : pystr) (body : list sse_event).

(** [request.headers.get(name)]: header names compare without case. *)
Definition headers_get (headers : list (pystr * pystr)) (name : pystr) : option pystr :=
  match find (fun h => str_eqb (lower (fst h)) (lower name)) headers with
  | Some h => Some (snd h)
  | None => None
  end.

(** [a or b] *)
Definition or_else (a b : option pystr) : option pystr :=
  if truthy_opt a then a else b.

Definition error_envelope (message type code : pystr) : json :=
  JObj [ (py "error", JObj [ (py "message", JStr message);
                             (py "type", JStr type);
                             (py "code", JStr code) ]) ].

(** [get_auth_context] *)
Definition get_auth_context (request : Request) : result (dict pystr) :=
  let la_cookie := or_else (headers_get (req_headers request) "X-LA-Cookie")
                           (headers_get (req_headers request) "LA-Cookie") in
  let cf_clearance := or_else (headers_get (req_headers request) "X-CF-Clearance")
                              (headers_get (req_headers request) "CF-Clearance") in
  if (negb (truthy_opt la_cookie) || negb (truthy_opt cf_clearance))%bool
  then Raise (HTTPException 401
                (error_envelope "Missing authentication cookies"
                                "authentication_error" "missing_cookies"))
  else Ok [ (py "la_cookie", opt_str la_cookie);
            (py "cf_clearance", opt_str cf_clearance);
            (py "user_agent",
               match headers_get (req_headers request) "User-Agent" with
               | Some ua => ua
               | None => py "OpenRouter-Alternative/1.0"
               end) ].

Definition is_list (v : json) : bool :=
  match v with
  | JArr _ => true
  | _ => false
  end.

(** The [try] block of [chat_completions] (lines 147-190). *)
Definition chat_completions_try (request : Request) (auth_context : dict pystr) : M Response :=
  body <- lift (match req_body request with
                | Some b => Ok b
                | None => Raise (ValueError "Expecting value")
                end) ;;
  has_model <- lift (contains body "model") ;;
  if negb has_model
  then raise (HTTPException 400
                (error_envelope "Missing required field: model"
                                "invalid_request_error" "missing_model"))
  else
    has_messages <- lift (contains body "messages") ;;
    bad_messages <- (if negb has_messages then ret true
                     else messages <- lift (getitem body "messages") ;;
                          ret (negb (is_list messages))) ;;
    if (bad_messages : bool)
    then raise (HTTPException 400
                  (error_envelope "Missing or invalid required field: messages"
                                  "invalid_request_error" "invalid_messages"))
    else
      is_streaming <- lift (get body "stream" (JBool false)) ;;
      if truthy is_streaming
      then (fun st =>
              let (evs, st1) := stream_chat_completion body auth_context st in
              (Ok (StreamingResponse 200 "text/event-stream" evs), st1))
      else
        response <- chat_completion body auth_context ;;
        ret (JSONResponse 200 response).

(** [chat_completions] with its dependency [get_auth_context], its [except]
    clauses and [http_exception_handler]: the response the client gets. *)
Definition chat_completions (request : Request) (st : State) : Response * State :=
  match get_auth_context request with
  | Raise (HTTPException code detail) => (JSONResponse code detail, st)
  | Raise _ =>
      (JSONResponse 500 (error_envelope "Internal server error" "server_error" "internal_error"), st)
  | Ok auth_context =>
      match chat_completions_try request auth_context st with
      | (Ok response, st1) => (response, st1)
      | (Raise (HTTPException code detail), st1) => (JSONResponse code detail, st1)
      | (Raise _, st1) =>
          (JSONResponse 500
             (error_envelope "Internal server error" "server_error" "internal_error"), st1)
      end
  end.

End Client.

(** ** Reading the results *)

(** [v[k]] when [v] is a dict that has the key. *)
Definition field (k : pystr) (v : json) : option json :=
  match v with
  | JObj d => dict_get d k
  | _ => None
  end.

(** The turns of an evaluation session. *)
Definition turns (session : json) : list json :=
  match field "messages" session with
  | Some (JArr l) => l
  | _ => []
  end.

(** [chunk["choices"][0]] *)
Definition first_choice (chunk : json) : option json :=
  match field "choices" chunk with
  | Some (JArr (c :: _)) => Some c
  | _ => None
  end.

Definition delta (chunk : json) : option json :=
  match first_choice chunk with
  | Some c => field "delta" c
  | None => None
  end.

Definition finish_reason (chunk : json) : option json :=
  match first_choice chunk with
  | Some c => field "finish_reason" c
  | None => None
  end.

Definition delta_content (chunk : json) : option json :=
  match delta chunk with
  | Some d => field "content" d
  | None => None
  end.

Definition delta_role (chunk : json) : option json :=
  match delta chunk with
  | Some d => field "role" d
  | None => None
  end.

(** The shape of the synthetic error chunk: a text delta that also carries
    the finish reason [stop]. *)
Definition error_shaped (chunk : json) : bool :=
  match delta_content chunk, finish_reason chunk with
  | Some _, Some r => eq_str r "stop"
  | _, _ => false
  end.

Definition is_error_event (e : sse_event) : bool :=
  match e with
  | SseData chunk => error_shaped chunk
  | SseDone => false
  end.

Definition is_done (e : sse_event) : bool :=
  match e with
  | SseDone => true
  | SseData _ => false
  end.


(** An error envelope [{error: {message, type, code}}] of three strings. *)
Definition is_error_envelope (v : json) : bool :=
  match field "error" v with
  | Some e =>
      match field "message" e, field "type" e, field "code" e with
      | Some (JStr _), Some (JStr _), Some (JStr _) => true
      | _, _, _ => false
      end
  | None => false
  end.

(** ** Well-formed input of the request translator

    Section 4.2 of the specification takes a message to be a role and a
    content that is a plain string or an array of typed parts.  A text part
    is a dict tagged [type: "text"]; its [text] is a string, or is absent and
    then counts as the empty string. *)

(** The text item a part contributes, [None] for a part that is not tagged
    as text. *)
Definition text_of_part (part : json) : option json :=
  match part with
  | JObj d =>
      if eq_str (match dict_get d "type" with Some t => t | None => JNull end) "text"
      then Some (match dict_get d "text" with Some t => t | None => JStr "" end)
      else None
  | _ => None
  end.

Definition is_text_part (part : json) : bool :=
  match text_of_part part with
  | Some _ => true
  | None => false
  end.

Definition typed_part (part : json) : bool :=
  match text_of_part part with
  | Some (JStr _) => true
  | Some _ => false
  | None => true
  end.

Definition content_ok (content : json) : bool :=
  match content with
  | JArr parts => forallb typed_part parts
  | _ => true
  end.

Definition message_ok (msg : json) : bool :=
  match field "role" msg, field "content" msg with
  | Some _, Some content => content_ok content
  | _, _ => false
  end.

(** A model name that can be looked up in the alias table. *)
Definition hashable (v : json) : bool :=
  match v with
  | JArr _ | JObj _ => false
  | _ => true
  end.

(** ** The translation in the words of the specification (section 4.2) *)

(** "only parts tagged as text contribute": their texts, in order. *)
Definition spec_texts (parts : list json) : list pystr :=
  flat_map (fun part => match text_of_part part with
                        | Some (JStr s) => [s]
                        | _ => []
                        end) parts.

(** "content is the flattened text" *)
Definition spec_content (content : json) : json :=
  match content with
  | JArr parts => JStr (join [chr_newline] (spec_texts parts))
  | _ => content
  end.

(** "role is copied except system -> user" *)
Definition spec_role (role : json) : json :=
  if eq_str role "system" then JStr "user" else role.

Definition or_null (x : option json) : json :=
  match x with
  | Some v => v
  | None => JNull
  end.

(** Step 3: the turn made of one input message. *)
Definition spec_turn (model_id : json) (evaluation_id : pystr) (parent : list json)
    (id : pystr) (msg : json) : json :=
  JObj [ (py "id", JStr id);
         (py "role", spec_role (or_null (field "role" msg)));
         (py "content", spec_content (or_null (field "content" msg)));
         (py "experimental_attachments", JArr []);
         (py "parentMessageIds", JArr parent);
         (py "participantPosition", JStr "a");
         (py "modelId",
            if eq_str (or_null (field "role" msg)) "assistant" then model_id else JNull);
         (py "evaluationSessionId", JStr evaluation_id);
         (py "status", JStr "pending");
         (py "failureReason", JNull) ].

(** One turn per input message, in order, each pointing at the one before
    it; [ids] are the identifiers the turns receive. *)
Fixpoint spec_turns (model_id : json) (evaluation_id : pystr) (parent : list json)
    (msgs : list json) (ids : list pystr) : list json :=
  match msgs, ids with
  | msg :: msgs', id :: ids' =>
      spec_turn model_id evaluation_id parent id msg
      :: spec_turns model_id evaluation_id [JStr id] msgs' ids'
  | _, _ => []
  end.

(** Step 4: the assistant turn that awaits the answer. *)
Definition spec_assistant_turn (model_id : json) (evaluation_id : pystr) (parent : list json)
    (id : pystr) : json :=
  JObj [ (py "id", JStr id);
         (py "role", JStr "assistant");
         (py "content", JStr "");
         (py "experimental_attachments", JArr []);
         (py "parentMessageIds", JArr parent);
         (py "participantPosition", JStr "a");
         (py "modelId", model_id);
         (py "evaluationSessionId", JStr evaluation_id);
         (py "status", JStr "pending");
         (py "failureReason", JNull) ].

(** [[ids[-1]]] for a list that is not empty, [[]] otherwise. *)
Definition last_parent (ids : list pystr) : list json :=
  match ids with
  | [] => []
  | _ => [JStr (last ids [])]
  end.

(** Step 5: the evaluation session. *)
Definition spec_session (model_id : json) (evaluation_id : pystr) (msgs : list json)
    (ids : list pystr) (assistant_id modality : pystr) : json :=
  JObj [ (py "id", JStr evaluation_id);
         (py "mode", JStr "direct");
         (py "modelAId", model_id);
         (py "userMessageId",
            JStr (match ids with
                  | [] => assistant_id
                  | _ => last ids []
                  end));
         (py "modelAMessageId", JStr assistant_id);
         (py "messages",
            JArr (spec_turns model_id evaluation_id [] msgs ids
                  ++ [spec_assistant_turn model_id evaluation_id (last_parent ids) assistant_id]));
         (py "modality", JStr modality) ].

(** The state after [n] more identifiers were drawn. *)
Definition after_draws (n : nat) (st : State) : State :=
  {| uuids_drawn := uuids_drawn st + n;
     clock_reads := clock_reads st;
     outbound := outbound st |}.

(** The identifiers drawn from draw number [n] on. *)
Definition fresh_ids (W : World) (n count : nat) : list pystr :=
  map (fun k => lower (uuid4 W k)) (seq n count).

(** ** Sessions up to their identifiers *)

Definition blank : json := JStr "".

Definition erase_turn_field (kv : pystr * json) : pystr * json :=
  let (k, v) := kv in
  if (str_eqb k "id" || str_eqb k "evaluationSessionId")%bool then (k, blank)
  else if str_eqb k "parentMessageIds"
       then (k, match v with JArr l => JArr (map (fun _ => blank) l) | _ => v end)
       else (k, v).

Definition erase_turn (turn : json) : json :=
  match turn with
  | JObj d => JObj (map erase_turn_field d)
  | _ => turn
  end.

Definition erase_session_field (kv : pystr * json) : pystr * json :=
  let (k, v) := kv in
  if (str_eqb k "id" || str_eqb k "userMessageId" || str_eqb k "modelAMessageId")%bool
  then (k, blank)
  else if str_eqb k "messages"
       then (k, match v with JArr l => JArr (map erase_turn l) | _ => v end)
       else (k, v).

(** The session with every generated identifier blanked: its own id, the two
    anchors, and in each turn the id, the session id and each parent
    pointer.  Everything else, and the number of parent pointers, is kept. *)
Definition erase_ids (session : json) : json :=
  match session with
  | JObj d => JObj (map erase_session_field d)
  | _ => session
  end.

Definition erase_result (r : result json) : result json :=
  match r with
  | Ok session => Ok (erase_ids session)
  | Raise e => Raise e
  end.

(** What two runs of the message loop have in common: the same error, or
    turns that are equal once their identifiers are blanked, and as many
    identifiers. *)
Definition same_outcome (r1 r2 : result (list json * list pystr)) : Prop :=
  match r1, r2 with
  | Ok (turns1, ids1), Ok (turns2, ids2) =>
      map erase_turn turns1 = map erase_turn turns2 /\
      List.length ids1 = List.length ids2
  | Raise e1, Raise e2 => e1 = e2
  | _, _ => False
  end.

(** ** Lines of the provider stream *)

Definition payload (line : pystr) : pystr := skipn 6 line.




(** ** The token estimate in the words of the specification *)

Definition ceil_div (a b : Z) : Z := (a + b - 1) / b.

Definition spec_estimate (text : pystr) : Z := Z.max 1 (ceil_div (len text) 4).

(** ** A sample world, used to run the model on concrete inputs *)

Definition quoted (s : pystr) : pystr := [chr_quote] +++ s +++ [chr_quote].

Definition sample_lines : list pystr :=
  [ "data: a0:" +++ quoted "Hi"; py "data: ae:"; py "data: [DONE]" ].

Definition sample_world : World := {|
  uuid4 := fun n => "00000000-0000-4000-8000-" +++ str_of_int (Z.of_nat n);
  time_time := fun n => 1700000000 + Z.of_nat n;
  repr := fun _ => "[]";
  arena_post := fun _ _ => Ok (JObj [ (py "content", JStr "hello") ]);
  arena_stream := fun _ _ => StreamLines sample_lines None
|}.

(** A provider that refuses every call. *)
Definition refusing_world : World := {|
  uuid4 := uuid4 sample_world;
  time_time := time_time sample_world;
  repr := repr sample_world;
  arena_post := fun _ _ => Raise (TransportError "connection refused");
  arena_stream := fun _ _ => StreamRefused (TransportError "connection refused")
|}.

Definition initial_state : State :=
  {| uuids_drawn := 0; clock_reads := 0; outbound := [] |}.

Definition sample_auth : dict pystr :=
  [ (py "la_cookie", py "la"); (py "cf_clearance", py "cf"); (py "user_agent", py "curl/8") ].

Definition sample_headers : list (pystr * pystr) :=
  [ (py "x-la-cookie", py "la"); (py "x-cf-clearance", py "cf") ].

Definition text_message (role content : pystr) : json :=
  JObj [ (py "role", JStr role); (py "content", JStr content) ].

Definition chat_body (model : pystr) (msgs : list json) (stream : bool) : json :=
  JObj [ (py "model", JStr model); (py "messages", JArr msgs); (py "stream", JBool stream) ].

Definition sample_parts : list json :=
  [ JObj [ (py "type", JStr "text"); (py "text", JStr "look") ];
    JObj [ (py "type", JStr "image_url"); (py "image_url", JStr "http://x/y.png") ];
    JObj [ (py "type", JStr "text"); (py "text", JStr "here") ] ].

Definition sample_messages : list json :=
  [ text_message "system" "be brief";
    JObj [ (py "role", JStr "user"); (py "content", JArr sample_parts) ] ].

(** ** The rest of [client.py] and [main.py]: models and images *)

Section Endpoints.

Variable cfg : Config.
Variable W : World.

(** [ArenaClient.get_models]: the configured list, on both branches of its
    [try]. *)
Definition get_models (auth_context : dict pystr) : M (list pystr) :=
  ret (supported_models cfg).

(** One entry of the list built by [list_models] (lines 105-112); the
    configured models are strings, so the branch for dict entries is never
    taken. *)
Definition format_model (model : pystr) : json :=
  JObj [ (py "id", JStr model);
         (py "object", JStr "model");
         (py "created", JInt 1677610602);
         (py "owned_by", JStr "openrouter-alternative") ].

(** [list_models] with its dependency [get_auth_context] and the exception
    handler. *)
Definition list_models (request : Request) (st : State) : Response * State :=
  match get_auth_context request with
  | Raise (HTTPException code detail) => (JSONResponse code detail, st)
  | Raise _ =>
      (JSONResponse 500 (error_envelope "Internal server error" "server_error" "internal_error"), st)
  | Ok auth_context =>
      match get_models auth_context st with
      | (Ok models, st1) =>
          (JSONResponse 200 (JObj [ (py "object", JStr "list");
                                    (py "data", JArr (map format_model models)) ]), st1)
      | (Raise _, st1) =>
          (JSONResponse 500
             (error_envelope "Failed to retrieve models" "server_error" "models_error"), st1)
      end
  end.

(** [ArenaClient._extract_image_urls]: the empty list, whatever the answer. *)
Definition _extract_image_urls (arena_response : json) : list pystr := [].

(** [ArenaClient.image_generation] *)
Definition image_generation (request_body : json) (auth_context : dict pystr) : M json :=
  model <- lift (get request_body "model" (JStr "dall-e-3")) ;;
  prompt <- lift (getitem request_body "prompt") ;;
  let chat_request :=
    JObj [ (py "model", model);
           (py "messages", JArr [ JObj [ (py "role", JStr "user");
                                         (py "content", prompt) ] ]);
           (py "stream", JBool false) ] in
  arena_request <- _convert_to_arena_format cfg W chat_request "image" ;;
  response_data <- _make_arena_request cfg W arena_request auth_context ;;
  let image_urls := _extract_image_urls response_data in
  created <- now W ;;
  ret (JObj [ (py "created", JInt created);
              (py "data",
                 JArr (map (fun url => JObj [ (py "url", JStr url);
                                              (py "revised_prompt", prompt) ])
                           image_urls)) ]).

(** The [try] block of [image_generations] (lines 215-232). *)
Definition image_generations_try (request : Request) (auth_context : dict pystr) : M Response :=
  body <- lift (match req_body request with
                | Some b => Ok b
                | None => Raise (ValueError "Expecting value")
                end) ;;
  has_prompt <- lift (contains body "prompt") ;;
  if negb has_prompt
  then raise (HTTPException 400
                (error_envelope "Missing required field: prompt"
                                "invalid_request_error" "missing_prompt"))
  else
    response <- image_generation body auth_context ;;
    ret (JSONResponse 200 response).

(** [image_generations] with its dependency, its [except] clauses and the
    exception handler. *)
Definition image_generations (request : Request) (st : State) : Response * State :=
  match get_auth_context request with
  | Raise (HTTPException code detail) => (JSONResponse code detail, st)
  | Raise _ =>
      (JSONResponse 500 (error_envelope "Internal server error" "server_error" "internal_error"), st)
  | Ok auth_context =>
      match image_generations_try request auth_context st with
      | (Ok response, st1) => (response, st1)
      | (Raise (HTTPException code detail), st1) => (JSONResponse code detail, st1)
      | (Raise _, st1) =>
          (JSONResponse 500
             (error_envelope "Internal server error" "server_error" "internal_error"), st1)
      end
  end.

End Endpoints.

(** ** [config.py]: validation at start-up *)

(** The fields of [Config] that [_validate_config] reads. *)
Record Settings : Type := {
  port : Z;
  arena_api_timeout : Z;
  max_request_size : Z;
  require_auth : bool;
  settings_la_cookie : option pystr;
  settings_cf_clearance : option pystr
}.

(** [Config._validate_config]: raises, or returns the warnings it logs. *)
Definition _validate_config (c : Settings) : result (list pystr) :=
  if ((port c <? 1) || (port c >? 65535))%bool
  then Raise (ValueError ("Invalid port number: " +++ str_of_int (port c)))
  else if arena_api_timeout c <=? 0
  then Raise (ValueError ("Invalid API timeout: " +++ str_of_int (arena_api_timeout c)))
  else if max_request_size c <=? 0
  then Raise (ValueError ("Invalid max request size: " +++ str_of_int (max_request_size c)))
  else if (require_auth c
           && negb (truthy_opt (settings_la_cookie c) && truthy_opt (settings_cf_clearance c)))%bool
  then Ok [py "Authentication required but no default cookies provided"]
  else Ok [].

(** ** Vocabulary of the further properties *)

(** A terminator line: [data: [DONE]]. *)
Definition is_done_line (line : pystr) : bool :=
  (startswith line "data: " && str_eqb (payload line) "[DONE]")%bool.

(** The chunks among the events. *)
Definition data_chunks (evs : list sse_event) : list json :=
  flat_map (fun ev => match ev with SseData c => [c] | SseDone => [] end) evs.

(** A Unicode scalar value: a code point that is not a surrogate. *)
Definition scalar_value (c : N) : bool :=
  (N.ltb c 55296 || (N.ltb 57343 c && N.ltb c 1114112))%bool.



(** A provider that answers every unary call with [answer]. *)
Definition answering_world (answer : result json) : World := {|
  uuid4 := uuid4 sample_world;
  time_time := time_time sample_world;
  repr := repr sample_world;
  arena_post := fun _ _ => answer;
  arena_stream := fun _ _ => StreamLines [] None
|}.

(** * Properties *)

(** ** Strings and dicts *)

Lemma str_eqb_eq (a b : pystr) : str_eqb a b = true <-> a = b.
Proof.
  revert b; induction a as [|x a IH]; intros [|y b]; simpl; split;
    try congruence; try reflexivity.
  - intros H. apply andb_true_iff in H as [Hx Hab].
    apply N.eqb_eq in Hx. apply IH in Hab. congruence.
  - intros H. injection H as -> ->. rewrite N.eqb_refl. simpl. now apply IH.
Qed.

Lemma str_eqb_refl (a : pystr) : str_eqb a a = true.
Proof. now apply str_eqb_eq. Qed.

Lemma eq_str_true (v : json) (s : pystr) : eq_str v s = true <-> v = JStr s.
Proof.
  destruct v; simpl; split; try congruence.
  - intros H. apply str_eqb_eq in H. now subst.
  - intros H. injection H as ->. apply str_eqb_refl.
Qed.

(** ** The text parts of a content array *)

Lemma collect_text_parts_acc (parts acc : list json) :
  fold_left
    (fun text_parts part =>
       match part with
       | JObj d =>
           if eq_str (match dict_get d "type" with Some t => t | None => JNull end) "text"
           then text_parts ++ [match dict_get d "text" with Some t => t | None => JStr "" end]
           else text_parts
       | _ => text_parts
       end) parts acc
  = acc ++ flat_map (fun part => match text_of_part part with
                                 | Some t => [t]
                                 | None => []
                                 end) parts.
Proof.
  revert acc; induction parts as [|part parts IH]; intros acc; simpl.
  - now rewrite app_nil_r.
  - rewrite IH. destruct part as [| | | | |d]; simpl; try reflexivity.
    destruct (eq_str _ _); simpl; [now rewrite <- app_assoc | reflexivity].
Qed.

Lemma join_items_typed (parts : list json) (i : nat) :
  forallb typed_part parts = true ->
  join_items i (flat_map (fun part => match text_of_part part with
                                      | Some t => [t]
                                      | None => []
                                      end) parts)
  = Ok (spec_texts parts).
Proof.
  revert i; induction parts as [|part parts IH]; intros i H; simpl in *.
  - reflexivity.
  - apply andb_true_iff in H as [Hp Hrest]. unfold typed_part in Hp.
    unfold spec_texts; simpl. fold (spec_texts parts).
    destruct (text_of_part part) as [[| | |s| |]|]; simpl; try discriminate.
    + now rewrite (IH (S i) Hrest).
    + now apply IH.
Qed.

(** On a well-typed content the flattening of the code is the one of the
    specification. *)
Lemma flatten_content_spec (content : json) :
  content_ok content = true -> flatten_content content = Ok (spec_content content).
Proof.
  destruct content as [| | | |parts|]; simpl; try reflexivity.
  intros H. unfold py_join, collect_text_parts.
  rewrite collect_text_parts_acc. simpl.
  now rewrite (join_items_typed parts 0 H).
Qed.

(** The flattening raises exactly on a content that is not well typed. *)
Lemma flatten_content_raises (content : json) :
  content_ok content = false -> exists e, flatten_content content = Raise e.
Proof.
  destruct content as [| | | |parts|]; simpl; try discriminate.
  intros H. unfold py_join, collect_text_parts. rewrite collect_text_parts_acc. simpl.
  assert (G : forall i, exists e,
             join_items i (flat_map (fun part => match text_of_part part with
                                                 | Some t => [t]
                                                 | None => []
                                                 end) parts) = Raise e).
  { induction parts as [|part parts IH]; intros i; simpl in H; [discriminate|].
    apply andb_false_iff in H. simpl. unfold typed_part in H.
    destruct (text_of_part part) as [[| | |s| |]|] eqn:E; simpl; try (eexists; reflexivity).
    - destruct H as [H|H]; [discriminate|].
      destruct (IH H (S i)) as [e He]. rewrite He. eauto.
    - destruct H as [H|H]; [discriminate|]. now apply IH. }
  destruct (G 0%nat) as [e He]. rewrite He. eauto.
Qed.

(** ** The request translator on well-formed input *)

Lemma nth_error_snoc_last (ids : list pystr) (id : pystr) (i : nat) :
  List.length ids = S i -> nth_error (ids ++ [id]) i = Some (last ids []).
Proof.
  revert i; induction ids as [|x ids IH]; intros i H; simpl in H; [discriminate|].
  destruct ids as [|y ids].
  - simpl in H. injection H as <-. reflexivity.
  - destruct i as [|i]; [simpl in H; discriminate|].
    change (nth_error (y :: ids ++ [id]) i = Some (last (y :: ids) [])).
    apply (IH i). simpl in *. lia.
Qed.

Lemma last_snoc (ids : list pystr) (id : pystr) : last (ids ++ [id]) [] = id.
Proof. apply last_last. Qed.

Lemma last_parent_snoc (ids : list pystr) (id : pystr) :
  last_parent (ids ++ [id]) = [JStr id].
Proof.
  unfold last_parent. rewrite last_snoc. destruct ids; reflexivity.
Qed.

Lemma fresh_ids_S (W : World) (n count : nat) :
  fresh_ids W n (S count) = lower (uuid4 W n) :: fresh_ids W (S n) count.
Proof. reflexivity. Qed.

Lemma fresh_ids_length (W : World) (n count : nat) :
  List.length (fresh_ids W n count) = count.
Proof. unfold fresh_ids. now rewrite length_map, length_seq. Qed.

Lemma message_ok_inv (msg : json) :
  message_ok msg = true ->
  exists d role content,
    msg = JObj d /\ dict_get d "role" = Some role /\
    dict_get d "content" = Some content /\ content_ok content = true.
Proof.
  unfold message_ok. destruct msg as [| | | | |d]; simpl; try discriminate.
  destruct (dict_get d "role") as [role|] eqn:Hrole; [|discriminate].
  destruct (dict_get d "content") as [content|] eqn:Hcontent; [|discriminate].
  intros H. now exists d, role, content.
Qed.

(** The loop over well-formed messages builds the turns of the
    specification, consuming one identifier per message. *)
Lemma convert_messages_ok (W : World) (model_id : json) (evaluation_id : pystr)
    (msgs : list json) :
  forallb message_ok msgs = true ->
  forall (i : nat) (arena_messages : list json) (message_ids : list pystr) (st : State),
    List.length message_ids = i ->
    convert_messages W model_id evaluation_id i msgs arena_messages message_ids st
    = (Ok (arena_messages
           ++ spec_turns model_id evaluation_id (last_parent message_ids) msgs
                (fresh_ids W (uuids_drawn st) (List.length msgs)),
           message_ids ++ fresh_ids W (uuids_drawn st) (List.length msgs)),
       after_draws (List.length msgs) st).
Proof.
  induction msgs as [|msg msgs IH]; intros Hok i am mids st Hlen.
  - simpl. unfold ret, after_draws. rewrite !app_nil_r, Nat.add_0_r.
    destruct st; reflexivity.
  - simpl in Hok. apply andb_true_iff in Hok as [Hmsg Hrest].
    destruct (message_ok_inv msg Hmsg) as (d & role & content & -> & Hrole & Hcontent & Hc).
    cbn [convert_messages]. unfold bind at 1. unfold fresh_uuid at 1.
    unfold bind at 1. unfold lift at 1. cbn [getitem]. rewrite Hcontent.
    unfold bind at 1. unfold lift at 1. rewrite (flatten_content_spec content Hc).
    unfold bind at 1. unfold lift at 1.
    assert (Hparent :
              (if (0 <? i)%nat
               then match nth_error (mids ++ [lower (uuid4 W (uuids_drawn st))]) (i - 1) with
                    | Some p => Ok [JStr p]
                    | None => Raise (IndexError "list index out of range")
                    end
               else Ok []) = Ok (last_parent mids)).
    { destruct i as [|i].
      - destruct mids; [reflexivity | discriminate].
      - simpl Nat.ltb. cbv iota. replace (S i - 1)%nat with i by lia.
        rewrite (nth_error_snoc_last mids _ i Hlen).
        destruct mids; [discriminate | reflexivity]. }
    rewrite Hparent.
    unfold bind at 1. unfold lift at 1. rewrite Hrole.
    rewrite IH; [|assumption|rewrite length_app; simpl; lia].
    cbn [uuids_drawn clock_reads outbound].
    rewrite last_parent_snoc. cbn [List.length]. rewrite fresh_ids_S.
    cbn [spec_turns]. unfold spec_turn. cbn [field]. rewrite Hrole, Hcontent.
    cbn [or_null]. unfold spec_role.
    rewrite <- !app_assoc. cbn [app].
    unfold after_draws. cbn [uuids_drawn clock_reads outbound].
    replace (S (uuids_drawn st) + List.length msgs)%nat
      with (uuids_drawn st + S (List.length msgs))%nat by lia.
    reflexivity.
Qed.

Lemma hashable_model_id (cfg : Config) (m : json) :
  hashable m = true -> exists model_id, get_model_id cfg m = Ok model_id.
Proof.
  destruct m; simpl; try discriminate; eauto.
Qed.

(** On a request with a model name that can be looked up and a list of
    well-formed messages, the translator returns the session of the
    specification, built on the identifiers it draws: the session id first,
    one per message, the assistant turn's last. *)
Lemma convert_ok (cfg : Config) (W : World) (d : dict json) (m model_id : json)
    (msgs : list json) (modality : pystr) (st : State) :
  dict_get d "model" = Some m ->
  get_model_id cfg m = Ok model_id ->
  dict_get d "messages" = Some (JArr msgs) ->
  forallb message_ok msgs = true ->
  _convert_to_arena_format cfg W (JObj d) modality st
  = (Ok (spec_session model_id (lower (uuid4 W (uuids_drawn st))) msgs
           (fresh_ids W (S (uuids_drawn st)) (List.length msgs))
           (lower (uuid4 W (S (uuids_drawn st) + List.length msgs))) modality),
     after_draws (List.length msgs + 2) st).
Proof.
  intros Hm Hid Hmsgs Hok.
  unfold _convert_to_arena_format.
  unfold bind at 1. unfold fresh_uuid at 1.
  unfold bind at 1. unfold lift at 1. cbn [getitem]. rewrite Hm.
  unfold bind at 1. unfold lift at 1. rewrite Hid.
  unfold bind at 1. unfold lift at 1. cbn [get]. rewrite Hmsgs.
  unfold bind at 1. unfold lift at 1. cbn [iterate].
  unfold bind at 1.
  rewrite (convert_messages_ok W model_id _ msgs Hok 0%nat [] []) by reflexivity.
  cbn [uuids_drawn clock_reads outbound fst snd app last_parent].
  unfold bind at 1. unfold fresh_uuid at 1. unfold ret, after_draws.
  cbn [uuids_drawn clock_reads outbound].
  unfold spec_session, spec_assistant_turn, last_parent.
  replace (S (S (uuids_drawn st) + List.length msgs))%nat
    with (uuids_drawn st + (List.length msgs + 2))%nat by lia.
  reflexivity.
Qed.

Lemma spec_turns_length (model_id : json) (evaluation_id : pystr) (msgs : list json) :
  forall (parent : list json) (ids : list pystr),
    List.length ids = List.length msgs ->
    List.length (spec_turns model_id evaluation_id parent msgs ids) = List.length msgs.
Proof.
  induction msgs as [|msg msgs IH]; intros parent [|id ids] H; simpl in *;
    try reflexivity; try discriminate.
  f_equal. apply IH. lia.
Qed.

(** The k-th turn is made of the k-th message and the k-th identifier, and
    points at the identifier before it. *)
Lemma spec_turns_nth (model_id : json) (evaluation_id : pystr) (msgs : list json) :
  forall (parent : list json) (ids : list pystr) (k : nat) (msg : json),
    List.length ids = List.length msgs ->
    nth_error msgs k = Some msg ->
    exists id,
      nth_error ids k = Some id /\
      nth_error (spec_turns model_id evaluation_id parent msgs ids) k
      = Some (spec_turn model_id evaluation_id
                (match k with
                 | O => parent
                 | S k' => [JStr (nth k' ids [])]
                 end) id msg).
Proof.
  induction msgs as [|msg0 msgs IH]; intros parent [|id0 ids] k msg Hlen Hk;
    simpl in Hlen; try discriminate.
  - destruct k; discriminate.
  - destruct k as [|k]; simpl in Hk.
    + injection Hk as ->. exists id0. split; reflexivity.
    + destruct (IH [JStr id0] ids k msg ltac:(lia) Hk) as (id & Hid & Hturn).
      exists id. split; [exact Hid|]. simpl. rewrite Hturn.
      destruct k; reflexivity.
Qed.

Lemma nth_error_last (ids : list pystr) :
  ids <> [] -> nth_error ids (List.length ids - 1) = Some (last ids []).
Proof.
  induction ids as [|x ids IH]; intros H; [congruence|].
  destruct ids as [|y ids]; [reflexivity|].
  replace (List.length (x :: y :: ids) - 1)%nat with (S (List.length (y :: ids) - 1))
    by (simpl; lia).
  change (nth_error (y :: ids) (List.length (y :: ids) - 1) = Some (last (y :: ids) [])).
  apply IH. discriminate.
Qed.

Lemma flatten_content_ok_only_if (content flat : json) :
  flatten_content content = Ok flat -> content_ok content = true.
Proof.
  intros H. destruct (content_ok content) eqn:E; [reflexivity|].
  destruct (flatten_content_raises content E) as [e He]. congruence.
Qed.

Lemma getitem_ok_inv (v x : json) (k : pystr) :
  getitem v k = Ok x -> field k v = Some x.
Proof.
  destruct v as [| | | | |d]; simpl; try discriminate.
  destruct (dict_get d k); [|discriminate]. now intros [= ->].
Qed.

(** Well-formedness is exactly what the loop needs: on any other message
    list it raises. *)
Lemma convert_messages_ok_only_if (W : World) (model_id : json) (msgs : list json) :
  forall (evaluation_id : pystr) (i : nat) (arena_messages : list json)
         (message_ids : list pystr) (st st' : State) (built : list json * list pystr),
    convert_messages W model_id evaluation_id i msgs arena_messages message_ids st
    = (Ok built, st') ->
    forallb message_ok msgs = true.
Proof.
  induction msgs as [|msg msgs IH]; intros eid i am ids st st' built H; [reflexivity|].
  cbn [convert_messages] in H. unfold bind, lift, fresh_uuid in H. cbn beta iota in H.
  destruct (getitem msg "content") as [content|e] eqn:Hc; [|discriminate].
  destruct (flatten_content content) as [flat|e] eqn:Hf; [|discriminate].
  destruct (if (0 <? i)%nat then _ else _) as [parent|e]; [|discriminate].
  destruct (getitem msg "role") as [role|e] eqn:Hr; [|discriminate].
  simpl. rewrite (IH _ _ _ _ _ _ _ H), andb_true_r.
  unfold message_ok. rewrite (getitem_ok_inv _ _ _ Hr), (getitem_ok_inv _ _ _ Hc).
  exact (flatten_content_ok_only_if _ _ Hf).
Qed.

Lemma spec_turns_In (model_id : json) (evaluation_id : pystr) (msgs : list json) :
  forall (parent : list json) (ids : list pystr) (turn : json),
    In turn (spec_turns model_id evaluation_id parent msgs ids) ->
    exists parent' id msg,
      In msg msgs /\ turn = spec_turn model_id evaluation_id parent' id msg.
Proof.
  induction msgs as [|msg0 msgs IH]; intros parent [|id0 ids] turn H; simpl in H;
    try contradiction.
  destruct H as [<-|H].
  - exists parent, id0, msg0. split; [now left | reflexivity].
  - destruct (IH _ _ _ H) as (p & i & msg & Hin & ->).
    exists p, i, msg. split; [now right | reflexivity].
Qed.

Lemma spec_role_not_system (role : json) : spec_role role <> JStr "system".
Proof.
  unfold spec_role. destruct (eq_str role "system") eqn:E.
  - discriminate.
  - intros ->. simpl in E. discriminate.
Qed.

(** The texts of the specification are those of the text parts, one for
    one and in order. *)
Lemma spec_texts_filter (parts : list json) :
  forallb typed_part parts = true ->
  Forall2 (fun part s => text_of_part part = Some (JStr s))
          (filter is_text_part parts) (spec_texts parts).
Proof.
  induction parts as [|part parts IH]; intros H; simpl in *.
  - constructor.
  - apply andb_true_iff in H as [Hp Hrest].
    unfold spec_texts; simpl; fold (spec_texts parts).
    unfold typed_part in Hp. unfold is_text_part.
    destruct (text_of_part part) as [[| | |s| |]|] eqn:E; try discriminate; simpl.
    + constructor; [exact E | now apply IH].
    + now apply IH.
Qed.

Lemma spec_texts_no_text_part (parts : list json) :
  existsb is_text_part parts = false -> spec_texts parts = [].
Proof.
  induction parts as [|part parts IH]; intros H; simpl in *; [reflexivity|].
  apply orb_false_iff in H as [Hp Hrest].
  unfold spec_texts; simpl; fold (spec_texts parts).
  unfold is_text_part in Hp. destruct (text_of_part part); [discriminate|].
  now apply IH.
Qed.

Lemma message_ok_content (msgs : list json) (k : nat) (msg content : json) :
  forallb message_ok msgs = true ->
  nth_error msgs k = Some msg ->
  field "content" msg = Some content ->
  content_ok content = true.
Proof.
  intros Hok Hk Hc. rewrite forallb_forall in Hok.
  specialize (Hok msg (nth_error_In _ _ Hk)). unfold message_ok in Hok.
  rewrite Hc in Hok. now destruct (field "role" msg).
Qed.

(** ** The claims on the request translator *)

(** C2. For every request whose model name can be looked up and whose
    message list has N >= 1 well-formed messages (a role, and a content that
    is a string or an array of typed parts), the request translator returns
    a session of exactly N+1 turns; turn N+1 has role [assistant], the empty
    string as content, and the parent list [[id of turn N]]. *)
Theorem translator_appends_assistant_turn (cfg : Config) (W : World) (d : dict json)
    (m : json) (msgs : list json) (modality : pystr) (st : State) :
  dict_get d "model" = Some m ->
  hashable m = true ->
  dict_get d "messages" = Some (JArr msgs) ->
  (1 <= List.length msgs)%nat ->
  forallb message_ok msgs = true ->
  exists session st' turn_n last_turn id_n,
    _convert_to_arena_format cfg W (JObj d) modality st = (Ok session, st') /\
    List.length (turns session) = S (List.length msgs) /\
    nth_error (turns session) (List.length msgs - 1) = Some turn_n /\
    field "id" turn_n = Some (JStr id_n) /\
    nth_error (turns session) (List.length msgs) = Some last_turn /\
    field "role" last_turn = Some (JStr "assistant") /\
    field "content" last_turn = Some (JStr "") /\
    field "parentMessageIds" last_turn = Some (JArr [JStr id_n]).
Proof.
  intros Hm Hh Hmsgs Hn Hok.
  destruct (hashable_model_id cfg m Hh) as [model_id Hid].
  set (eid := lower (uuid4 W (uuids_drawn st))).
  set (ids := fresh_ids W (S (uuids_drawn st)) (List.length msgs)).
  set (aid := lower (uuid4 W (S (uuids_drawn st) + List.length msgs))).
  assert (Hlen : List.length ids = List.length msgs) by apply fresh_ids_length.
  assert (Hne : ids <> []) by (intros E; rewrite E in Hlen; simpl in Hlen; lia).
  destruct (nth_error msgs (List.length msgs - 1)) as [msg|] eqn:Hmsg;
    [|apply nth_error_None in Hmsg; lia].
  destruct (spec_turns_nth model_id eid msgs [] ids _ msg Hlen Hmsg) as (id & Hidk & Hturn).
  rewrite <- Hlen in Hidk. rewrite (nth_error_last ids Hne) in Hidk. injection Hidk as <-.
  exists (spec_session model_id eid msgs ids aid modality), (after_draws (List.length msgs + 2) st).
  eexists. exists (spec_assistant_turn model_id eid (last_parent ids) aid), (last ids []).
  split; [exact (convert_ok cfg W d m model_id msgs modality st Hm Hid Hmsgs Hok)|].
  change (turns (spec_session model_id eid msgs ids aid modality))
    with (spec_turns model_id eid [] msgs ids
          ++ [spec_assistant_turn model_id eid (last_parent ids) aid]).
  split; [rewrite length_app, spec_turns_length by exact Hlen; simpl; lia|].
  split; [rewrite nth_error_app1 by (rewrite spec_turns_length by exact Hlen; lia);
          exact Hturn|].
  split; [reflexivity|].
  split; [rewrite nth_error_app2 by (rewrite spec_turns_length by exact Hlen; lia);
          rewrite spec_turns_length by exact Hlen; now rewrite Nat.sub_diag|].
  split; [reflexivity|]. split; [reflexivity|].
  unfold last_parent. destruct ids; [congruence | reflexivity].
Qed.

Lemma translator_appends_assistant_turn_witness :
  exists session st' turn_n last_turn id_n,
    _convert_to_arena_format default_config sample_world
      (chat_body "gpt-4" sample_messages false) "chat" initial_state = (Ok session, st') /\
    List.length (turns session) = 3%nat /\
    nth_error (turns session) 1 = Some turn_n /\
    field "id" turn_n = Some (JStr id_n) /\
    nth_error (turns session) 2 = Some last_turn /\
    field "role" last_turn = Some (JStr "assistant") /\
    field "content" last_turn = Some (JStr "") /\
    field "parentMessageIds" last_turn = Some (JArr [JStr id_n]).
Proof.
  apply (translator_appends_assistant_turn default_config sample_world
           [ (py "model", JStr "gpt-4"); (py "messages", JArr sample_messages);
             (py "stream", JBool false) ]
           (JStr "gpt-4") sample_messages "chat" initial_state);
    try reflexivity.
  simpl; lia.
Defined.

(** C6. On the same requests, a message of role [system] gives a turn of
    role [user], a message of any other role gives a turn of that role, and
    no turn of the returned session has the role [system]. *)
Theorem system_role_becomes_user (cfg : Config) (W : World) (d : dict json)
    (m : json) (msgs : list json) (modality : pystr) (st : State) :
  dict_get d "model" = Some m ->
  hashable m = true ->
  dict_get d "messages" = Some (JArr msgs) ->
  forallb message_ok msgs = true ->
  exists session st',
    _convert_to_arena_format cfg W (JObj d) modality st = (Ok session, st') /\
    (forall k msg role,
        nth_error msgs k = Some msg ->
        field "role" msg = Some role ->
        exists turn,
          nth_error (turns session) k = Some turn /\
          field "role" turn = Some (if eq_str role "system" then JStr "user" else role)) /\
    (forall turn, In turn (turns session) -> field "role" turn <> Some (JStr "system")).
Proof.
  intros Hm Hh Hmsgs Hok.
  destruct (hashable_model_id cfg m Hh) as [model_id Hid].
  set (eid := lower (uuid4 W (uuids_drawn st))).
  set (ids := fresh_ids W (S (uuids_drawn st)) (List.length msgs)).
  set (aid := lower (uuid4 W (S (uuids_drawn st) + List.length msgs))).
  assert (Hlen : List.length ids = List.length msgs) by apply fresh_ids_length.
  exists (spec_session model_id eid msgs ids aid modality), (after_draws (List.length msgs + 2) st).
  split; [exact (convert_ok cfg W d m model_id msgs modality st Hm Hid Hmsgs Hok)|].
  change (turns (spec_session model_id eid msgs ids aid modality))
    with (spec_turns model_id eid [] msgs ids
          ++ [spec_assistant_turn model_id eid (last_parent ids) aid]).
  split.
  - intros k msg role Hk Hrole.
    destruct (spec_turns_nth model_id eid msgs [] ids k msg Hlen Hk) as (id & _ & Hturn).
    eexists. split.
    + rewrite nth_error_app1; [exact Hturn|].
      rewrite spec_turns_length by exact Hlen. apply nth_error_Some. congruence.
    + change (Some (spec_role (or_null (field "role" msg)))
              = Some (if eq_str role "system" then JStr "user" else role)).
      rewrite Hrole. reflexivity.
  - intros turn Hin. apply in_app_or in Hin as [Hin|[<-|[]]].
    + destruct (spec_turns_In _ _ _ _ _ _ Hin) as (p & i & msg & _ & ->).
      change (Some (spec_role (or_null (field "role" msg))) <> Some (JStr "system")).
      intros E. injection E as E. exact (spec_role_not_system _ E).
    + discriminate.
Qed.

Lemma system_role_becomes_user_witness :
  exists session st',
    _convert_to_arena_format default_config sample_world
      (chat_body "gpt-4" sample_messages false) "chat" initial_state = (Ok session, st') /\
    (forall k msg role,
        nth_error sample_messages k = Some msg ->
        field "role" msg = Some role ->
        exists turn,
          nth_error (turns session) k = Some turn /\
          field "role" turn = Some (if eq_str role "system" then JStr "user" else role)) /\
    (forall turn, In turn (turns session) -> field "role" turn <> Some (JStr "system")).
Proof.
  apply (system_role_becomes_user default_config sample_world
           [ (py "model", JStr "gpt-4"); (py "messages", JArr sample_messages);
             (py "stream", JBool false) ]
           (JStr "gpt-4") sample_messages "chat" initial_state);
    reflexivity.
Defined.

(** C7. On the same requests, a message whose content is an array of typed
    parts gives a turn whose content is the texts of the parts tagged as
    text, in order, joined by newlines; the other parts add nothing; an array
    without a text part gives the empty string. *)
Theorem content_parts_joined_by_newline (cfg : Config) (W : World) (d : dict json)
    (m : json) (msgs : list json) (modality : pystr) (st : State) :
  dict_get d "model" = Some m ->
  hashable m = true ->
  dict_get d "messages" = Some (JArr msgs) ->
  forallb message_ok msgs = true ->
  exists session st',
    _convert_to_arena_format cfg W (JObj d) modality st = (Ok session, st') /\
    forall k msg parts,
      nth_error msgs k = Some msg ->
      field "content" msg = Some (JArr parts) ->
      exists turn texts,
        nth_error (turns session) k = Some turn /\
        Forall2 (fun part s => text_of_part part = Some (JStr s))
                (filter is_text_part parts) texts /\
        field "content" turn = Some (JStr (join [chr_newline] texts)) /\
        (existsb is_text_part parts = false -> field "content" turn = Some (JStr "")).
Proof.
  intros Hm Hh Hmsgs Hok.
  destruct (hashable_model_id cfg m Hh) as [model_id Hid].
  set (eid := lower (uuid4 W (uuids_drawn st))).
  set (ids := fresh_ids W (S (uuids_drawn st)) (List.length msgs)).
  set (aid := lower (uuid4 W (S (uuids_drawn st) + List.length msgs))).
  assert (Hlen : List.length ids = List.length msgs) by apply fresh_ids_length.
  exists (spec_session model_id eid msgs ids aid modality), (after_draws (List.length msgs + 2) st).
  split; [exact (convert_ok cfg W d m model_id msgs modality st Hm Hid Hmsgs Hok)|].
  change (turns (spec_session model_id eid msgs ids aid modality))
    with (spec_turns model_id eid [] msgs ids
          ++ [spec_assistant_turn model_id eid (last_parent ids) aid]).
  intros k msg parts Hk Hcontent.
  destruct (spec_turns_nth model_id eid msgs [] ids k msg Hlen Hk) as (id & _ & Hturn).
  pose proof (message_ok_content msgs k msg _ Hok Hk Hcontent) as Htyped. simpl in Htyped.
  eexists. exists (spec_texts parts). split; [|split; [|split]].
  - rewrite nth_error_app1; [exact Hturn|].
    rewrite spec_turns_length by exact Hlen. apply nth_error_Some. congruence.
  - now apply spec_texts_filter.
  - change (Some (spec_content (or_null (field "content" msg)))
            = Some (JStr (join [chr_newline] (spec_texts parts)))).
    rewrite Hcontent. reflexivity.
  - intros Hnone.
    change (Some (spec_content (or_null (field "content" msg))) = Some (JStr "")).
    rewrite Hcontent. simpl. now rewrite (spec_texts_no_text_part parts Hnone).
Qed.

Lemma content_parts_joined_by_newline_witness :
  exists session st',
    _convert_to_arena_format default_config sample_world
      (chat_body "gpt-4" sample_messages false) "chat" initial_state = (Ok session, st') /\
    forall k msg parts,
      nth_error sample_messages k = Some msg ->
      field "content" msg = Some (JArr parts) ->
      exists turn texts,
        nth_error (turns session) k = Some turn /\
        Forall2 (fun part s => text_of_part part = Some (JStr s))
                (filter is_text_part parts) texts /\
        field "content" turn = Some (JStr (join [chr_newline] texts)) /\
        (existsb is_text_part parts = false -> field "content" turn = Some (JStr "")).
Proof.
  apply (content_parts_joined_by_newline default_config sample_world
           [ (py "model", JStr "gpt-4"); (py "messages", JArr sample_messages);
             (py "stream", JBool false) ]
           (JStr "gpt-4") sample_messages "chat" initial_state);
    reflexivity.
Defined.

(** C10. For a request whose message list is empty, the session has exactly
    one turn, the appended assistant turn with empty content and no parent,
    and its [userMessageId] is that assistant turn's own id, as is its
    [modelAMessageId]. *)
Theorem empty_messages_anchor_on_assistant (cfg : Config) (W : World) (d : dict json)
    (m : json) (modality : pystr) (st : State) :
  dict_get d "model" = Some m ->
  hashable m = true ->
  dict_get d "messages" = Some (JArr []) ->
  exists session st' turn assistant_id,
    _convert_to_arena_format cfg W (JObj d) modality st = (Ok session, st') /\
    turns session = [turn] /\
    field "id" turn = Some (JStr assistant_id) /\
    field "role" turn = Some (JStr "assistant") /\
    field "content" turn = Some (JStr "") /\
    field "parentMessageIds" turn = Some (JArr []) /\
    field "userMessageId" session = Some (JStr assistant_id) /\
    field "modelAMessageId" session = Some (JStr assistant_id).
Proof.
  intros Hm Hh Hmsgs.
  destruct (hashable_model_id cfg m Hh) as [model_id Hid].
  pose proof (convert_ok cfg W d m model_id [] modality st Hm Hid Hmsgs eq_refl) as H.
  do 4 eexists. split; [exact H|].
  repeat split; reflexivity.
Qed.

Lemma empty_messages_anchor_on_assistant_witness :
  exists session st' turn assistant_id,
    _convert_to_arena_format default_config sample_world
      (chat_body "gpt-4" [] false) "chat" initial_state = (Ok session, st') /\
    turns session = [turn] /\
    field "id" turn = Some (JStr assistant_id) /\
    field "role" turn = Some (JStr "assistant") /\
    field "content" turn = Some (JStr "") /\
    field "parentMessageIds" turn = Some (JArr []) /\
    field "userMessageId" session = Some (JStr assistant_id) /\
    field "modelAMessageId" session = Some (JStr assistant_id).
Proof.
  apply (empty_messages_anchor_on_assistant default_config sample_world
           [ (py "model", JStr "gpt-4"); (py "messages", JArr []);
             (py "stream", JBool false) ]
           (JStr "gpt-4") "chat" initial_state);
    reflexivity.
Defined.

(** ** Two runs of the request translator *)

Lemma nth_error_same_length (ids1 ids2 : list pystr) (k : nat) :
  List.length ids1 = List.length ids2 ->
  match nth_error ids1 k, nth_error ids2 k with
  | Some _, Some _ | None, None => True
  | _, _ => False
  end.
Proof.
  intros H.
  destruct (nth_error ids1 k) eqn:E1, (nth_error ids2 k) eqn:E2; try exact I.
  - apply nth_error_None in E2. assert (k < List.length ids1)%nat; [|lia].
    apply nth_error_Some. congruence.
  - apply nth_error_None in E1. assert (k < List.length ids2)%nat; [|lia].
    apply nth_error_Some. congruence.
Qed.

Lemma blank_all_same_length (p1 p2 : list json) :
  List.length p1 = List.length p2 ->
  map (fun _ : json => blank) p1 = map (fun _ : json => blank) p2.
Proof.
  revert p2; induction p1 as [|x p1 IH]; intros [|y p2] H; simpl in *;
    try discriminate; [reflexivity|].
  f_equal. apply IH. lia.
Qed.

Lemma convert_messages_same_outcome (W1 W2 : World) (model_id : json) (msgs : list json) :
  forall (eid1 eid2 : pystr) (i : nat) (am1 am2 : list json) (ids1 ids2 : list pystr)
         (st1 st2 : State),
    map erase_turn am1 = map erase_turn am2 ->
    List.length ids1 = List.length ids2 ->
    same_outcome (fst (convert_messages W1 model_id eid1 i msgs am1 ids1 st1))
                 (fst (convert_messages W2 model_id eid2 i msgs am2 ids2 st2)).
Proof.
  induction msgs as [|msg msgs IH]; intros eid1 eid2 i am1 am2 ids1 ids2 st1 st2 Ham Hids.
  - simpl. now split.
  - cbn [convert_messages]. unfold bind, lift, fresh_uuid. cbn beta iota.
    destruct (getitem msg "content") as [content|e]; [|exact eq_refl].
    destruct (flatten_content content) as [flat|e]; [|exact eq_refl].
    assert (Hstep : forall p1 p2 : list json,
               List.length p1 = List.length p2 ->
               same_outcome
                 (fst (let (r, st') := (getitem msg "role",
                                        {| uuids_drawn := S (uuids_drawn st1);
                                           clock_reads := clock_reads st1;
                                           outbound := outbound st1 |}) in
                       match r with
                       | Ok a =>
                           convert_messages W1 model_id eid1 (S i) msgs
                             (am1 ++ [JObj [ (py "id", JStr (lower (uuid4 W1 (uuids_drawn st1))));
                                             (py "role", if eq_str a "system" then JStr "user" else a);
                                             (py "content", flat);
                                             (py "experimental_attachments", JArr []);
                                             (py "parentMessageIds", JArr p1);
                                             (py "participantPosition", JStr "a");
                                             (py "modelId", if eq_str a "assistant" then model_id else JNull);
                                             (py "evaluationSessionId", JStr eid1);
                                             (py "status", JStr "pending");
                                             (py "failureReason", JNull) ]])
                             (ids1 ++ [lower (uuid4 W1 (uuids_drawn st1))]) st'
                       | Raise e => (Raise e, st')
                       end))
                 (fst (let (r, st') := (getitem msg "role",
                                        {| uuids_drawn := S (uuids_drawn st2);
                                           clock_reads := clock_reads st2;
                                           outbound := outbound st2 |}) in
                       match r with
                       | Ok a =>
                           convert_messages W2 model_id eid2 (S i) msgs
                             (am2 ++ [JObj [ (py "id", JStr (lower (uuid4 W2 (uuids_drawn st2))));
                                             (py "role", if eq_str a "system" then JStr "user" else a);
                                             (py "content", flat);
                                             (py "experimental_attachments", JArr []);
                                             (py "parentMessageIds", JArr p2);
                                             (py "participantPosition", JStr "a");
                                             (py "modelId", if eq_str a "assistant" then model_id else JNull);
                                             (py "evaluationSessionId", JStr eid2);
                                             (py "status", JStr "pending");
                                             (py "failureReason", JNull) ]])
                             (ids2 ++ [lower (uuid4 W2 (uuids_drawn st2))]) st'
                       | Raise e => (Raise e, st')
                       end))).
    { intros p1 p2 Hp. cbn beta iota.
      destruct (getitem msg "role") as [role|e]; [|exact eq_refl].
      apply IH.
      - rewrite !map_app, Ham. cbn. now rewrite (blank_all_same_length p1 p2 Hp).
      - rewrite !length_app. simpl. lia. }
    destruct (0 <? i)%nat.
    + pose proof (nth_error_same_length
                    (ids1 ++ [lower (uuid4 W1 (uuids_drawn st1))])
                    (ids2 ++ [lower (uuid4 W2 (uuids_drawn st2))]) (i - 1)) as Hnth.
      rewrite !length_app in Hnth. simpl in Hnth. specialize (Hnth ltac:(lia)).
      destruct (nth_error (ids1 ++ _) (i - 1)), (nth_error (ids2 ++ _) (i - 1));
        try contradiction; [|exact eq_refl].
      now apply Hstep.
    + now apply Hstep.
Qed.

(** C9. Translating the same request twice, whatever identifiers the two
    runs draw, fails with the same error or gives two sessions that are
    equal once the generated identifiers (session id, turn ids, parent
    pointers, the two anchors) are blanked. *)
Theorem translation_equal_up_to_identifiers (cfg : Config) (W1 W2 : World)
    (openai_request : json) (modality : pystr) (st1 st2 : State) :
  erase_result (fst (_convert_to_arena_format cfg W1 openai_request modality st1))
  = erase_result (fst (_convert_to_arena_format cfg W2 openai_request modality st2)).
Proof.
  unfold _convert_to_arena_format, bind, lift, fresh_uuid, ret. cbn beta iota.
  destruct (getitem openai_request "model") as [model_name|e]; [|reflexivity].
  destruct (get_model_id cfg model_name) as [model_id|e]; [|reflexivity].
  destruct (get openai_request "messages" (JArr [])) as [messages|e]; [|reflexivity].
  destruct (iterate messages) as [msgs|e]; [|reflexivity].
  match goal with
  | |- context [convert_messages W1 ?mid ?e1 ?i ?ms ?am ?ids ?s1] =>
      match goal with
      | |- context [convert_messages W2 mid ?e2 i ms am ids ?s2] =>
          pose proof (convert_messages_same_outcome W1 W2 mid ms e1 e2 i am am ids ids
                        s1 s2 eq_refl eq_refl) as H;
          destruct (convert_messages W1 mid e1 i ms am ids s1) as [[[am1 ids1]|e1'] s1'];
          destruct (convert_messages W2 mid e2 i ms am ids s2) as [[[am2 ids2]|e2'] s2']
      end
  end; simpl in H; try contradiction.
  - destruct H as [Ham Hlen].
    cbn [fst snd erase_result]. f_equal.
    cbn -[erase_turn]. rewrite !map_app, Ham.
    destruct ids1, ids2; try discriminate; reflexivity.
  - cbn. now subst.
Qed.

(** Blanking the identifiers touches nothing else: every other field of a
    turn and of a session is kept, and the turns stay in place. *)
Lemma erase_turn_keeps (k : pystr) (turn : json) :
  str_eqb k "id" = false ->
  str_eqb k "evaluationSessionId" = false ->
  str_eqb k "parentMessageIds" = false ->
  field k (erase_turn turn) = field k turn.
Proof.
  intros H1 H2 H3. destruct turn as [| | | | |d]; try reflexivity. simpl.
  induction d as [|[k' v] d IH]; [reflexivity|].
  cbn [map erase_turn_field dict_get].
  destruct (str_eqb k' k) eqn:E.
  - apply str_eqb_eq in E. subst k'. rewrite H1, H2, H3. simpl. now rewrite str_eqb_refl.
  - destruct (str_eqb k' "id" || str_eqb k' "evaluationSessionId")%bool;
      [|destruct (str_eqb k' "parentMessageIds")]; simpl; rewrite E; exact IH.
Qed.

Lemma erase_ids_keeps (k : pystr) (session : json) :
  str_eqb k "id" = false ->
  str_eqb k "userMessageId" = false ->
  str_eqb k "modelAMessageId" = false ->
  str_eqb k "messages" = false ->
  field k (erase_ids session) = field k session.
Proof.
  intros H1 H2 H3 H4. destruct session as [| | | | |d]; try reflexivity. simpl.
  induction d as [|[k' v] d IH]; [reflexivity|].
  cbn [map erase_session_field dict_get].
  destruct (str_eqb k' k) eqn:E.
  - apply str_eqb_eq in E. subst k'. rewrite H1, H2, H3, H4. simpl. now rewrite str_eqb_refl.
  - destruct (str_eqb k' "id" || str_eqb k' "userMessageId" || str_eqb k' "modelAMessageId")%bool;
      [|destruct (str_eqb k' "messages")]; simpl; rewrite E; exact IH.
Qed.

Lemma erase_ids_turns (session : json) :
  turns (erase_ids session) = map erase_turn (turns session).
Proof.
  destruct session as [| | | | |d]; try reflexivity. unfold turns. simpl.
  induction d as [|[k' v] d IH]; [reflexivity|].
  cbn [map erase_session_field dict_get].
  destruct (str_eqb k' "id" || str_eqb k' "userMessageId" || str_eqb k' "modelAMessageId")%bool
    eqn:Eid.
  - simpl. destruct (str_eqb k' "messages") eqn:E; [|exact IH].
    apply str_eqb_eq in E. subst k'. discriminate.
  - destruct (str_eqb k' "messages") eqn:E; simpl; rewrite E; [|exact IH].
    destruct v; reflexivity.
Qed.

(** ** The token estimate *)

(** C4, as amended. For every text, the token estimator returns
    [max(1, q)] where [q] is the length divided by four and rounded down;
    for the empty text it returns 1. *)
Theorem estimate_tokens_rounds_down (text : pystr) :
  (exists q, 4 * q <= len text < 4 * q + 4 /\ _estimate_tokens (JStr text) = Ok (Z.max 1 q)) /\
  (len text = 0 -> _estimate_tokens (JStr text) = Ok 1).
Proof.
  split.
  - exists (len text / 4). split; [|reflexivity].
    pose proof (Z.div_mod (len text) 4 ltac:(lia)) as Hdiv.
    pose proof (Z.mod_pos_bound (len text) 4 ltac:(lia)) as Hmod. lia.
  - intros H. unfold _estimate_tokens, py_len. now rewrite H.
Qed.

(** C4, as stated, fails: a text of five characters is estimated at one
    token, and [max(1, ceil(5/4))] is two. *)
Lemma estimate_tokens_is_not_ceiling :
  _estimate_tokens (JStr "hello") = Ok 1 /\
  spec_estimate "hello" = 2 /\
  _estimate_tokens (JStr "hello") <> Ok (spec_estimate "hello").
Proof.
  repeat split. discriminate.
Qed.

(** ** The stream translator *)






(** C3. The lines [data: a0:"Hi"], [data: ae:], [data: [DONE]] are
    translated, in this order, to one chunk with [delta.content] "Hi",
    [delta.role] assistant and a null finish reason, one chunk with an empty
    delta and finish reason "stop", and the literal terminator; whatever
    follows the terminator line is not read, so nothing is yielded after
    it. *)
Theorem hi_stop_done (W : World) (response_id : pystr) (model : json)
    (after : list pystr) (failure : option exn) (st : State) :
  exists c1 c2 st',
    translate_lines W response_id model (sample_lines ++ after) failure st
    = ([SseData c1; SseData c2; SseDone], Ok tt, st') /\
    delta_content c1 = Some (JStr "Hi") /\
    delta_role c1 = Some (JStr "assistant") /\
    finish_reason c1 = Some JNull /\
    delta c2 = Some (JObj []) /\
    finish_reason c2 = Some (JStr "stop") /\
    render SseDone = "data: [DONE]" +++ [chr_newline; chr_newline].
Proof.
  do 3 eexists. split; [reflexivity|]. repeat split.
Qed.

(** A chunk translated from a provider line never has the shape of the
    synthetic error chunk. *)
Lemma process_chunk_not_error_shaped (W : World) (data response_id : pystr) (model : json)
    (st st1 : State) (chunk : json) :
  _process_arena_sse_data W data response_id model st = (Some chunk, st1) ->
  error_shaped chunk = false.
Proof.
  unfold _process_arena_sse_data, read_clock.
  destruct (split_once chr_colon data) as [[prefix content]|]; [|discriminate].
  destruct (str_eqb prefix "a0").
  - destruct (if (startswith content [chr_quote] && endswith content [chr_quote])%bool
              then json_loads_string content else Some content); [|discriminate].
    intros H. injection H as <- _. reflexivity.
  - destruct (str_eqb prefix "ae" || str_eqb prefix "ad")%bool; [|discriminate].
    intros H. injection H as <- _. reflexivity.
Qed.

(** What the loop yields: no chunk of the error shape; and a loop that ends
    by raising has not yielded the terminator. *)
Lemma translate_lines_events (W : World) (response_id : pystr) (model : json)
    (failure : option exn) (lines : list pystr) :
  forall (st st' : State) (evs : list sse_event) (r : result unit),
    translate_lines W response_id model lines failure st = (evs, r, st') ->
    Forall (fun ev => is_error_event ev = false) evs /\
    (forall e, r = Raise e -> Forall (fun ev => is_done ev = false) evs).
Proof.
  induction lines as [|line lines IH]; intros st st' evs r H; cbn [translate_lines] in H.
  - injection H as <- <- <-. split; [constructor | intros; constructor].
  - destruct (startswith line "data: "); [|exact (IH _ _ _ _ H)].
    destruct (str_eqb (skipn 6 line) "[DONE]").
    { injection H as <- <- <-. split.
      - repeat constructor.
      - intros e He. discriminate. }
    destruct (_process_arena_sse_data W (skipn 6 line) response_id model st)
      as [[chunk|] st1] eqn:Hp; [|exact (IH _ _ _ _ H)].
    destruct (truthy chunk); [|exact (IH _ _ _ _ H)].
    destruct (translate_lines W response_id model lines failure st1)
      as [[evs1 r1] st2] eqn:Hrest.
    injection H as <- <- <-.
    destruct (IH _ _ _ _ Hrest) as [Herr Hdone]. split.
    + constructor; [|exact Herr]. simpl.
      exact (process_chunk_not_error_shaped W _ _ _ _ _ _ Hp).
    + intros e He. constructor; [reflexivity | exact (Hdone e He)].
Qed.

Lemma stream_arena_request_events (cfg : Config) (W : World) (arena_request : json)
    (auth_context : dict pystr) (st st' : State) (evs : list sse_event) (e : exn) :
  _stream_arena_request cfg W arena_request auth_context st = (evs, Raise e, st') ->
  Forall (fun ev => is_error_event ev = false) evs /\
  Forall (fun ev => is_done ev = false) evs.
Proof.
  unfold _stream_arena_request, record_call. cbn beta iota.
  destruct (arena_stream W _ _) as [e0|lines failure].
  - intros H. injection H as <- _ _. split; constructor.
  - unfold read_clock. cbn beta iota.
    destruct (get arena_request "modelAId" (JStr "unknown")) as [model|e0].
    + intros H. destruct (translate_lines_events _ _ _ _ _ _ _ _ _ H) as [H1 H2].
      split; [exact H1 | exact (H2 e eq_refl)].
    + intros H. injection H as <- _ _. split; constructor.
Qed.

(** ** The error mapping of the streaming path *)

(** C5. Whenever the body of a streaming chat completion raises (the model
    check, the construction of the session, the transport call, or the line
    source while it is read), the generator yields, after what it had
    already yielded, exactly one synthetic error chunk, with [delta.content]
    "Error: <message>" and finish reason "stop", then the literal
    terminator, and ends; nothing yielded before is an error chunk or the
    terminator. *)
Theorem stream_failure_ends_with_error_chunk (cfg : Config) (W : World)
    (request_body : json) (auth_context : dict pystr) (st st1 : State)
    (evs : list sse_event) (e : exn) :
  stream_chat_completion_try cfg W request_body auth_context st = (evs, Raise e, st1) ->
  exists error_chunk st2,
    stream_chat_completion cfg W request_body auth_context st
    = (evs ++ [SseData error_chunk; SseDone], st2) /\
    delta_content error_chunk = Some (JStr ("Error: " +++ exn_str e)) /\
    finish_reason error_chunk = Some (JStr "stop") /\
    error_shaped error_chunk = true /\
    render SseDone = "data: [DONE]" +++ [chr_newline; chr_newline] /\
    Forall (fun ev => is_error_event ev = false /\ is_done ev = false) evs.
Proof.
  intros H. unfold stream_chat_completion. rewrite H.
  unfold _create_error_chunk, read_clock. cbn beta iota.
  do 2 eexists. split; [reflexivity|].
  repeat (split; [reflexivity|]).
  unfold stream_chat_completion_try in H.
  match type of H with
  | (match ?v with _ => _ end) = _ => destruct v as [[arena_request|e0] st0]
  end.
  - destruct (stream_arena_request_events _ _ _ _ _ _ _ _ H) as [H1 H2].
    rewrite Forall_forall in *. intros ev Hin. split; auto.
  - injection H as <- _ _. constructor.
Qed.

Lemma stream_failure_ends_with_error_chunk_witness :
  exists error_chunk st2,
    stream_chat_completion default_config refusing_world
      (chat_body "gpt-4" sample_messages true) sample_auth initial_state
    = ([] ++ [SseData error_chunk; SseDone], st2) /\
    delta_content error_chunk
    = Some (JStr ("Error: " +++ exn_str (TransportError "connection refused"))) /\
    finish_reason error_chunk = Some (JStr "stop") /\
    error_shaped error_chunk = true /\
    render SseDone = "data: [DONE]" +++ [chr_newline; chr_newline] /\
    Forall (fun ev => is_error_event ev = false /\ is_done ev = false) [].
Proof.
  eapply (stream_failure_ends_with_error_chunk default_config refusing_world
            (chat_body "gpt-4" sample_messages true) sample_auth initial_state).
  reflexivity.
Defined.

(** ** The chat-completions endpoint on an unsupported model *)






(** The same model name on a request that does not stream: status 500 with
    the generic envelope. *)
Lemma unsupported_model_unary_is_500 :
  let request := {| req_headers := sample_headers;
                    req_body := Some (chat_body "no-such-model" sample_messages false) |} in
  fst (chat_completions default_config sample_world request initial_state)
  = JSONResponse 500
      (error_envelope "Internal server error" "server_error" "internal_error").
Proof. reflexivity. Qed.

(** ** The generator on a whole request *)

(** A failure before the first line (the model check, the construction of
    the session, or a refused call): the stream is the error chunk and the
    terminator, nothing else. *)
Lemma stream_refused_is_error_and_done (cfg : Config) (W : World) (request_body : json)
    (auth_context : dict pystr) (st : State) (refusal : exn) :
  (forall n call, arena_stream W n call = StreamRefused refusal) ->
  exists e error_chunk st',
    stream_chat_completion cfg W request_body auth_context st
    = ([SseData error_chunk; SseDone], st') /\
    delta_content error_chunk = Some (JStr ("Error: " +++ exn_str e)) /\
    finish_reason error_chunk = Some (JStr "stop").
Proof.
  intros Hworld. unfold stream_chat_completion, stream_chat_completion_try.
  match goal with
  | |- context [match ?v st with _ => _ end] => destruct (v st) as [[arena_request|e] st1]
  end.
  - unfold _stream_arena_request, record_call. cbn beta iota. rewrite Hworld.
    unfold _create_error_chunk, read_clock. cbn beta iota.
    exists refusal. do 2 eexists. repeat split.
  - unfold _create_error_chunk, read_clock. cbn beta iota.
    exists e. do 2 eexists. repeat split.
Qed.

(** The sample lines through [_stream_arena_request]: one call to the
    provider, and the three events of the line loop. *)
Lemma stream_arena_request_sample (cfg : Config) (W : World) (d : dict json)
    (auth_context : dict pystr) (st : State) (after : list pystr) (failure : option exn) :
  (forall n call, arena_stream W n call = StreamLines (sample_lines ++ after) failure) ->
  exists c1 c2 st',
    _stream_arena_request cfg W (JObj d) auth_context st
    = ([SseData c1; SseData c2; SseDone], Ok tt, st') /\
    List.length (outbound st') = S (List.length (outbound st)) /\
    field "id" c1 = field "id" c2 /\
    field "model" c1 = Some (match dict_get d "modelAId" with
                             | Some model => model
                             | None => JStr "unknown"
                             end) /\
    delta_content c1 = Some (JStr "Hi") /\
    finish_reason c2 = Some (JStr "stop").
Proof.
  intros Hworld. unfold _stream_arena_request, record_call. cbn beta iota.
  rewrite Hworld. unfold read_clock. cbn beta iota. cbn [get].
  do 3 eexists. split; [reflexivity|].
  cbn [outbound]. rewrite length_app. simpl. repeat split. lia.
Qed.

(** * Further properties of the code *)

(** ** The line loop of the stream translator *)

Lemma startswith_inv (s p : pystr) :
  startswith s p = true -> s = p ++ skipn (List.length p) s.
Proof.
  revert s; induction p as [|x p IH]; intros s H; [reflexivity|].
  destruct s as [|y s]; [discriminate|]. simpl in H.
  apply andb_true_iff in H as [Hx Hs]. apply N.eqb_eq in Hx. subst y.
  simpl. f_equal. now apply IH.
Qed.

(** The only terminator line is the text [data: [DONE]] itself. *)
Lemma is_done_line_literal (line : pystr) :
  is_done_line line = true <-> line = py "data: [DONE]".
Proof.
  unfold is_done_line, payload. split.
  - intros H. apply andb_true_iff in H as [Hs Hp]. apply str_eqb_eq in Hp.
    apply startswith_inv in Hs. change (List.length (py "data: ")) with 6%nat in Hs.
    rewrite Hp in Hs. exact Hs.
  - intros ->. reflexivity.
Qed.

(** One line that is not the terminator: what it yields comes first, the
    rest of the lines follow from the state it leaves. *)
Lemma translate_lines_cons (W : World) (response_id : pystr) (model : json)
    (line : pystr) (rest : list pystr) (failure : option exn) (st : State) :
  is_done_line line = false ->
  translate_lines W response_id model (line :: rest) failure st
  = (let '(evs1, _, st1) := translate_lines W response_id model [line] None st in
     let '(evs2, r, st2) := translate_lines W response_id model rest failure st1 in
     (evs1 ++ evs2, r, st2)).
Proof.
  unfold is_done_line, payload. intros H. cbn [translate_lines].
  destruct (startswith line "data: ").
  - cbn [andb] in H. rewrite H.
    destruct (_process_arena_sse_data W (skipn 6 line) response_id model st)
      as [[chunk|] st1].
    + destruct (truthy chunk).
      * cbn. now destruct (translate_lines W response_id model rest failure st1) as [[? ?] ?].
      * cbn. now destruct (translate_lines W response_id model rest failure st1) as [[? ?] ?].
    + cbn. now destruct (translate_lines W response_id model rest failure st1) as [[? ?] ?].
  - cbn. now destruct (translate_lines W response_id model rest failure st) as [[? ?] ?].
Qed.

(** Translating a stream in two pieces: when the first piece holds no
    terminator line, the events of the whole are the events of the first
    piece followed by those of the second, translated from the state the
    first piece leaves. *)
Theorem translate_lines_app (W : World) (response_id : pystr) (model : json)
    (first second : list pystr) (failure : option exn) (st : State) :
  forallb (fun line => negb (is_done_line line)) first = true ->
  translate_lines W response_id model (first ++ second) failure st
  = (let '(evs1, _, st1) := translate_lines W response_id model first None st in
     let '(evs2, r, st2) := translate_lines W response_id model second failure st1 in
     (evs1 ++ evs2, r, st2)).
Proof.
  revert st. induction first as [|line first IH]; intros st H.
  - cbn. now destruct (translate_lines W response_id model second failure st) as [[? ?] ?].
  - simpl in H. apply andb_true_iff in H as [Hline Hrest]. apply negb_true_iff in Hline.
    cbn [app]. rewrite (translate_lines_cons W _ _ line (first ++ second) _ _ Hline).
    rewrite (translate_lines_cons W _ _ line first None _ Hline).
    destruct (translate_lines W response_id model [line] None st) as [[evs0 r0] st0].
    rewrite (IH st0 Hrest).
    destruct (translate_lines W response_id model first None st0) as [[evs1 r1] st1].
    destruct (translate_lines W response_id model second failure st1) as [[evs2 r2] st2].
    now rewrite app_assoc.
Qed.

Lemma translate_lines_app_witness :
  translate_lines sample_world "chatcmpl-0" (JStr "m")
    ([py "data: a0:one"; py ": keep-alive"] ++ [py "data: ae:"; py "data: [DONE]"])
    None initial_state
  = (let '(evs1, _, st1) :=
       translate_lines sample_world "chatcmpl-0" (JStr "m")
         [py "data: a0:one"; py ": keep-alive"] None initial_state in
     let '(evs2, r, st2) :=
       translate_lines sample_world "chatcmpl-0" (JStr "m")
         [py "data: ae:"; py "data: [DONE]"] None st1 in
     (evs1 ++ evs2, r, st2)).
Proof.
  apply (translate_lines_app sample_world "chatcmpl-0" (JStr "m")
           [py "data: a0:one"; py ": keep-alive"] [py "data: ae:"; py "data: [DONE]"]
           None initial_state).
  reflexivity.
Defined.

(** The terminator line ends the reading: the lines after it, and the way
    the line source ends, change nothing. *)
Theorem nothing_read_after_done (W : World) (response_id : pystr) (model : json)
    (before after : list pystr) (failure : option exn) (st : State) :
  translate_lines W response_id model (before ++ py "data: [DONE]" :: after) failure st
  = translate_lines W response_id model (before ++ [py "data: [DONE]"]) None st.
Proof.
  revert st. induction before as [|line before IH]; intros st.
  - reflexivity.
  - cbn [app translate_lines].
    destruct (startswith line "data: "); [|apply IH].
    destruct (str_eqb (skipn 6 line) "[DONE]"); [reflexivity|].
    destruct (_process_arena_sse_data W (skipn 6 line) response_id model st) as [[chunk|] st1].
    + destruct (truthy chunk); [|apply IH]. now rewrite IH.
    + apply IH.
Qed.

Lemma translate_lines_no_done (W : World) (response_id : pystr) (model : json)
    (lines : list pystr) (failure : option exn) (st : State) :
  forallb (fun line => negb (is_done_line line)) lines = true ->
  Forall (fun ev => is_done ev = false)
         (fst (fst (translate_lines W response_id model lines failure st))) /\
  snd (fst (translate_lines W response_id model lines failure st))
  = match failure with
    | None => Ok tt
    | Some e => Raise e
    end.
Proof.
  revert st. induction lines as [|line lines IH]; intros st H.
  - split; [constructor | reflexivity].
  - simpl in H. apply andb_true_iff in H as [Hline Hrest]. apply negb_true_iff in Hline.
    unfold is_done_line, payload in Hline. cbn [translate_lines].
    destruct (startswith line "data: "); [|apply IH, Hrest].
    cbn [andb] in Hline. rewrite Hline.
    destruct (_process_arena_sse_data W (skipn 6 line) response_id model st) as [[chunk|] st1].
    + destruct (truthy chunk); [|apply IH, Hrest].
      destruct (IH st1 Hrest) as [Hev Hr].
      destruct (translate_lines W response_id model lines failure st1) as [[evs r] st2].
      split; [constructor; [reflexivity | exact Hev] | exact Hr].
    + apply IH, Hrest.
Qed.

(** A stream without a terminator line yields no terminator: the loop ends
    as the line source ends, having yielded chunks only. *)
Theorem no_done_line_no_terminator (W : World) (response_id : pystr) (model : json)
    (lines : list pystr) (failure : option exn) (st : State) :
  forallb (fun line => negb (is_done_line line)) lines = true ->
  Forall (fun ev => is_done ev = false)
         (fst (fst (translate_lines W response_id model lines failure st))) /\
  snd (fst (translate_lines W response_id model lines failure st))
  = match failure with
    | None => Ok tt
    | Some e => Raise e
    end.
Proof. exact (translate_lines_no_done W response_id model lines failure st). Qed.

Lemma no_done_line_no_terminator_witness :
  Forall (fun ev => is_done ev = false)
         (fst (fst (translate_lines sample_world "chatcmpl-0" (JStr "m")
                      [py "data: a0:one"; py "data: ae:"] None initial_state))) /\
  snd (fst (translate_lines sample_world "chatcmpl-0" (JStr "m")
              [py "data: a0:one"; py "data: ae:"] None initial_state))
  = Ok tt.
Proof.
  apply (no_done_line_no_terminator sample_world "chatcmpl-0" (JStr "m")
           [py "data: a0:one"; py "data: ae:"] None initial_state).
  reflexivity.
Defined.

(** The terminator is yielded at most once, as the last event, and then the
    loop has ended without an error. *)
Theorem terminator_only_last (W : World) (response_id : pystr) (model : json)
    (lines : list pystr) (failure : option exn) (st : State) :
  let '(evs, r, _) := translate_lines W response_id model lines failure st in
  Forall (fun ev => is_done ev = false) evs \/
  exists chunks_before,
    evs = chunks_before ++ [SseDone] /\
    Forall (fun ev => is_done ev = false) chunks_before /\
    r = Ok tt.
Proof.
  revert st. induction lines as [|line lines IH]; intros st.
  - cbn. left. constructor.
  - cbn [translate_lines].
    destruct (startswith line "data: "); [|apply IH].
    destruct (str_eqb (skipn 6 line) "[DONE]").
    { right. exists []. repeat split. constructor. }
    destruct (_process_arena_sse_data W (skipn 6 line) response_id model st) as [[chunk|] st1];
      [|apply IH].
    destruct (truthy chunk); [|apply IH].
    specialize (IH st1).
    destruct (translate_lines W response_id model lines failure st1) as [[evs r] st2].
    destruct IH as [Hnone|(pre & -> & Hpre & ->)].
    + left. constructor; [reflexivity | exact Hnone].
    + right. exists (SseData chunk :: pre). repeat split.
      constructor; [reflexivity | exact Hpre].
Qed.

Lemma process_chunk_facts (W : World) (data response_id : pystr) (model : json)
    (st : State) :
  match _process_arena_sse_data W data response_id model st with
  | (Some chunk, st1) =>
      field "id" chunk = Some (JStr response_id) /\
      field "object" chunk = Some (JStr "chat.completion.chunk") /\
      field "model" chunk = Some model /\
      field "created" chunk = Some (JInt (time_time W (clock_reads st))) /\
      truthy chunk = true /\
      st1 = {| uuids_drawn := uuids_drawn st;
               clock_reads := S (clock_reads st);
               outbound := outbound st |}
  | (None, st1) => st1 = st
  end.
Proof.
  unfold _process_arena_sse_data, read_clock.
  destruct (split_once chr_colon data) as [[prefix content]|]; [|reflexivity].
  destruct (str_eqb prefix "a0").
  - destruct (if (startswith content [chr_quote] && endswith content [chr_quote])%bool
              then json_loads_string content else Some content); [|reflexivity].
    repeat split.
  - destruct (str_eqb prefix "ae" || str_eqb prefix "ad")%bool; [|reflexivity].
    repeat split.
Qed.

Lemma translate_lines_chunk_ids (W : World) (response_id : pystr) (model : json)
    (lines : list pystr) (failure : option exn) (st : State) :
  Forall (fun chunk =>
            field "id" chunk = Some (JStr response_id) /\
            field "model" chunk = Some model /\
            field "object" chunk = Some (JStr "chat.completion.chunk"))
         (data_chunks (fst (fst (translate_lines W response_id model lines failure st)))).
Proof.
  revert st. induction lines as [|line lines IH]; intros st.
  - constructor.
  - cbn [translate_lines].
    destruct (startswith line "data: "); [|apply IH].
    destruct (str_eqb (skipn 6 line) "[DONE]"); [constructor|].
    pose proof (process_chunk_facts W (skipn 6 line) response_id model st) as Hp.
    destruct (_process_arena_sse_data W (skipn 6 line) response_id model st) as [[chunk|] st1];
      [|apply IH].
    destruct Hp as (Hid & Hobj & Hmodel & _ & Htruthy & _). rewrite Htruthy.
    specialize (IH st1).
    destruct (translate_lines W response_id model lines failure st1) as [[evs r] st2].
    cbn. constructor; [auto | exact IH].
Qed.

(** Every chunk of one stream carries the response id and the model fixed
    at its start, and the object tag of a streaming chunk. *)
Theorem stream_chunks_share_id_and_model (W : World) (response_id : pystr) (model : json)
    (lines : list pystr) (failure : option exn) (st : State) :
  Forall (fun chunk =>
            field "id" chunk = Some (JStr response_id) /\
            field "model" chunk = Some model /\
            field "object" chunk = Some (JStr "chat.completion.chunk"))
         (data_chunks (fst (fst (translate_lines W response_id model lines failure st)))).
Proof. exact (translate_lines_chunk_ids W response_id model lines failure st). Qed.

Lemma translate_lines_state (W : World) (response_id : pystr) (model : json)
    (lines : list pystr) (failure : option exn) (st : State) :
  let '(evs, _, st') := translate_lines W response_id model lines failure st in
  clock_reads st' = (clock_reads st + List.length (data_chunks evs))%nat /\
  uuids_drawn st' = uuids_drawn st /\
  outbound st' = outbound st /\
  map (field "created") (data_chunks evs)
  = map (fun k => Some (JInt (time_time W k)))
        (seq (clock_reads st) (List.length (data_chunks evs))).
Proof.
  revert st. induction lines as [|line lines IH]; intros st.
  - cbn. repeat split. lia.
  - cbn [translate_lines].
    destruct (startswith line "data: "); [|apply IH].
    destruct (str_eqb (skipn 6 line) "[DONE]"); [cbn; repeat split; lia|].
    pose proof (process_chunk_facts W (skipn 6 line) response_id model st) as Hp.
    destruct (_process_arena_sse_data W (skipn 6 line) response_id model st) as [[chunk|] st1].
    + destruct Hp as (_ & _ & _ & Hcreated & Htruthy & ->). rewrite Htruthy.
      match goal with
      | |- context [translate_lines W response_id model lines failure ?s] => specialize (IH s)
      end.
      destruct (translate_lines W response_id model lines failure _) as [[evs r] st2].
      cbn in IH |- *. destruct IH as (Hc & Hu & Ho & Hm).
      fold (data_chunks evs). repeat split; try assumption; [lia|].
      rewrite Hm. f_equal. exact Hcreated.
    + subst st1. apply IH.
Qed.

(** The loop reads the clock once per chunk it yields, stamping the chunks
    with successive readings, and does nothing else to the state: it draws no
    identifier and issues no call. *)
Theorem one_clock_reading_per_chunk (W : World) (response_id : pystr) (model : json)
    (lines : list pystr) (failure : option exn) (st : State) :
  let '(evs, _, st') := translate_lines W response_id model lines failure st in
  clock_reads st' = (clock_reads st + List.length (data_chunks evs))%nat /\
  uuids_drawn st' = uuids_drawn st /\
  outbound st' = outbound st /\
  map (field "created") (data_chunks evs)
  = map (fun k => Some (JInt (time_time W k)))
        (seq (clock_reads st) (List.length (data_chunks evs))).
Proof. exact (translate_lines_state W response_id model lines failure st). Qed.

(** ** A JSON string through [json.dumps] and [json.loads] *)

Lemma checked_below (P : N -> bool) (n : nat) :
  forallb P (map N.of_nat (seq 0 n)) = true ->
  forall x, (x < N.of_nat n)%N -> P x = true.
Proof.
  intros H x Hx. rewrite forallb_forall in H. apply H.
  rewrite <- (N2Nat.id x). apply in_map, in_seq. lia.
Qed.

Lemma hex_val_hex_digit (n : N) : (n < 16)%N -> hex_val (hex_digit n) = Some n.
Proof.
  intros H.
  apply (checked_below (fun n => match hex_val (hex_digit n) with
                                 | Some m => N.eqb m n
                                 | None => false
                                 end) 16 eq_refl) in H.
  destruct (hex_val (hex_digit n)); [|discriminate].
  apply N.eqb_eq in H. now subst.
Qed.

Lemma nibble (n : N) (k : N) : (N.land (N.shiftr n k) 15 = (n / 2 ^ k) mod 16)%N.
Proof.
  rewrite N.shiftr_div_pow2. change 15%N with (N.ones 4). now rewrite N.land_ones.
Qed.

Lemma low_nibble (n : N) : (N.land n 15 = n mod 16)%N.
Proof. change 15%N with (N.ones 4). now rewrite N.land_ones. Qed.

Lemma scan_u_escape (c : N) (rest : pystr) :
  (c < 65536)%N ->
  scanstring (u_escape c ++ rest)
  = match scanstring rest with
    | Some (items, r) => Some (Escaped c :: items, r)
    | None => None
    end.
Proof.
  intros H. unfold u_escape. cbn [app scanstring].
  change (N.eqb chr_backslash chr_quote) with false.
  change (N.eqb chr_backslash chr_backslash) with true.
  change (N.eqb 117 117) with true. cbv iota.
  unfold hex4. rewrite !nibble.
  rewrite low_nibble.
  rewrite !hex_val_hex_digit by (apply N.mod_lt; discriminate).
  replace ((((c / 2 ^ 12) mod 16 * 16 + (c / 2 ^ 8) mod 16) * 16 + (c / 2 ^ 4) mod 16) * 16
           + c mod 16)%N with c; [reflexivity|].
  change (2 ^ 12)%N with 4096%N. change (2 ^ 8)%N with 256%N.
  change (2 ^ 4)%N with 16%N.
  zify. Z.to_euclidean_division_equations. lia.
Qed.

Lemma surrogate_halves (x : N) :
  (x < 1024)%N ->
  N.lor 55296 x = (55296 + x)%N /\ N.lor 56320 x = (56320 + x)%N.
Proof.
  intros H.
  apply (checked_below
           (fun x => (N.eqb (N.lor 55296 x) (55296 + x)
                      && N.eqb (N.lor 56320 x) (56320 + x))%bool) 1024 eq_refl) in H.
  apply andb_true_iff in H as [H1 H2]. now apply N.eqb_eq in H1, H2.
Qed.

(** What the scanner reads back from the escape of one character: items
    that the pairing of surrogates turns into that character again. *)
Lemma escape_char_scanned (c : N) :
  scalar_value c = true ->
  exists items,
    (forall rest,
        scanstring (escape_char c ++ rest)
        = match scanstring rest with
          | Some (more, r) => Some (items ++ more, r)
          | None => None
          end) /\
    (forall more, pair_surrogates (items ++ more) = c :: pair_surrogates more).
Proof.
  intros Hc. unfold scalar_value in Hc. unfold escape_char.
  destruct (N.eqb_spec c chr_quote) as [->|Hq].
  { exists [Plain chr_quote]. split; [intros rest; cbn; now destruct (scanstring rest) as [[? ?]|]
                                      | reflexivity]. }
  destruct (N.eqb_spec c chr_backslash) as [->|Hb].
  { exists [Plain chr_backslash].
    split; [intros rest; cbn; now destruct (scanstring rest) as [[? ?]|] | reflexivity]. }
  destruct (N.eqb_spec c 10) as [->|H10].
  { exists [Plain 10%N].
    split; [intros rest; cbn; now destruct (scanstring rest) as [[? ?]|] | reflexivity]. }
  destruct (N.eqb_spec c 13) as [->|H13].
  { exists [Plain 13%N].
    split; [intros rest; cbn; now destruct (scanstring rest) as [[? ?]|] | reflexivity]. }
  destruct (N.eqb_spec c 9) as [->|H9].
  { exists [Plain 9%N].
    split; [intros rest; cbn; now destruct (scanstring rest) as [[? ?]|] | reflexivity]. }
  destruct (N.eqb_spec c 8) as [->|H8].
  { exists [Plain 8%N].
    split; [intros rest; cbn; now destruct (scanstring rest) as [[? ?]|] | reflexivity]. }
  destruct (N.eqb_spec c 12) as [->|H12].
  { exists [Plain 12%N].
    split; [intros rest; cbn; now destruct (scanstring rest) as [[? ?]|] | reflexivity]. }
  destruct (N.leb_spec 32 c) as [Hlo|Hlo]; [destruct (N.leb_spec c 126) as [Hhi|Hhi]|];
    cbn [andb].
  - exists [Plain c]. split; [|reflexivity].
    intros rest. cbn [app scanstring].
    destruct (N.eqb_spec c chr_quote); [contradiction|].
    destruct (N.eqb_spec c chr_backslash); [contradiction|].
    destruct (N.ltb_spec c 32); [lia|]. reflexivity.
  - destruct (N.ltb_spec c 65536) as [Hbmp|Hastral].
    + exists [Escaped c]. split; [intros rest; now apply scan_u_escape|].
      intros more. cbn [app pair_surrogates].
      assert (Hns : is_high_surrogate c = false).
      { unfold is_high_surrogate.
        destruct (N.ltb_spec c 55296), (N.ltb_spec 57343 c); simpl in Hc; try discriminate;
          destruct (N.leb_spec 55296 c), (N.leb_spec c 56319); try reflexivity; lia. }
      rewrite Hns. now destruct more as [|[?|?] ?].
    + assert (Hmax : (c < 1114112)%N).
      { destruct (N.ltb_spec c 55296); [lia|].
        destruct (N.ltb_spec 57343 c), (N.ltb_spec c 1114112); simpl in Hc;
          try discriminate; assumption. }
      set (n := (c - 65536)%N).
      assert (Hhalf1 : (N.land (N.shiftr n 10) 1023 < 1024)%N).
      { change 1023%N with (N.ones 10). rewrite N.land_ones. now apply N.mod_lt. }
      assert (Hhalf2 : (N.land n 1023 < 1024)%N).
      { change 1023%N with (N.ones 10). rewrite N.land_ones. now apply N.mod_lt. }
      destruct (surrogate_halves _ Hhalf1) as [Hh _].
      destruct (surrogate_halves _ Hhalf2) as [_ Hl].
      exists [Escaped (N.lor 55296 (N.land (N.shiftr n 10) 1023));
              Escaped (N.lor 56320 (N.land n 1023))].
      split.
      * intros rest. unfold cat. rewrite <- app_assoc.
        rewrite scan_u_escape by (rewrite Hh; lia).
        rewrite scan_u_escape by (rewrite Hl; lia).
        now destruct (scanstring rest) as [[? ?]|].
      * intros more. cbn [app pair_surrogates]. rewrite Hh, Hl.
        assert (Hhigh : is_high_surrogate (55296 + N.land (N.shiftr n 10) 1023) = true).
        { unfold is_high_surrogate. apply andb_true_iff. split; apply N.leb_le; lia. }
        assert (Hlow : is_low_surrogate (56320 + N.land n 1023) = true).
        { unfold is_low_surrogate. apply andb_true_iff. split; apply N.leb_le; lia. }
        rewrite Hhigh, Hlow. cbn [andb]. f_equal.
        revert Hhalf1 Hhalf2. change 1023%N with (N.ones 10).
        rewrite !N.land_ones, N.shiftr_div_pow2. change (2 ^ 10)%N with 1024%N.
        intros _ _. subst n. zify. Z.to_euclidean_division_equations. lia.
  - destruct (N.ltb_spec c 65536) as [Hbmp|Hastral]; [|lia].
    exists [Escaped c]. split; [intros rest; now apply scan_u_escape|].
    intros more. cbn [app pair_surrogates].
    assert (Hns : is_high_surrogate c = false).
    { unfold is_high_surrogate. destruct (N.leb_spec 55296 c); [lia | reflexivity]. }
    rewrite Hns. now destruct more as [|[?|?] ?].
Qed.

(** [json.loads(json.dumps(text)) == text] for every text made of Unicode
    scalar values. *)
Lemma loads_dumps_string (text : pystr) :
  forallb scalar_value text = true ->
  json_loads_string (encode_basestring_ascii text) = Some text.
Proof.
  intros H.
  assert (G : exists items,
             scanstring (flat_map escape_char text ++ [chr_quote]) = Some (items, [])
             /\ pair_surrogates items = text).
  { induction text as [|c text IH].
    - exists []. split; reflexivity.
    - simpl in H. apply andb_true_iff in H as [Hc Htext].
      destruct (IH Htext) as (items & Hscan & Hpair).
      destruct (escape_char_scanned c Hc) as (first & Hfirst & Hjoin).
      exists (first ++ items). split.
      + cbn [flat_map]. rewrite <- app_assoc, Hfirst, Hscan. reflexivity.
      + now rewrite Hjoin, Hpair. }
  destruct G as (items & Hscan & Hpair).
  unfold json_loads_string, encode_basestring_ascii, cat. cbn [app].
  change (N.eqb chr_quote chr_quote) with true. cbv iota.
  now rewrite Hscan, Hpair.
Qed.

Lemma endswith_snoc (s : pystr) (c : N) : endswith (s ++ [c]) [c] = true.
Proof.
  unfold endswith. rewrite rev_app_distr. simpl. rewrite N.eqb_refl.
  now destruct (rev s).
Qed.

Lemma startswith_head (s : pystr) (c : N) : startswith (c :: s) [c] = true.
Proof. simpl. rewrite N.eqb_refl. now destruct s. Qed.

(** A text delta that the provider sends as a JSON string comes out
    decoded: for every text of Unicode scalar values, the payload [a0:]
    followed by the JSON encoding of the text gives one chunk whose
    [delta.content] is the text itself. *)
Theorem quoted_delta_is_decoded (W : World) (text response_id : pystr) (model : json)
    (st : State) :
  forallb scalar_value text = true ->
  exists chunk st',
    _process_arena_sse_data W ("a0:" +++ json_dumps (JStr text)) response_id model st
    = (Some chunk, st') /\
    delta_content chunk = Some (JStr text) /\
    delta_role chunk = Some (JStr "assistant") /\
    finish_reason chunk = Some JNull.
Proof.
  intros H. unfold _process_arena_sse_data, read_clock.
  change (split_once chr_colon ("a0:" +++ json_dumps (JStr text)))
    with (Some (py "a0", encode_basestring_ascii text)).
  cbn beta iota. change (str_eqb "a0" "a0") with true. cbv iota.
  assert (Hq : (startswith (encode_basestring_ascii text) [chr_quote]
                && endswith (encode_basestring_ascii text) [chr_quote])%bool = true).
  { apply andb_true_iff. split; [apply startswith_head|].
    unfold encode_basestring_ascii, cat. rewrite app_assoc. apply endswith_snoc. }
  rewrite Hq, (loads_dumps_string text H).
  do 2 eexists. repeat split.
Qed.

Lemma quoted_delta_is_decoded_witness :
  exists chunk st',
    _process_arena_sse_data sample_world
      ("a0:" +++ json_dumps (JStr [72; 105; 10; 34; 233; 128512]%N))
      "chatcmpl-0" (JStr "m") initial_state
    = (Some chunk, st') /\
    delta_content chunk = Some (JStr [72; 105; 10; 34; 233; 128512]%N) /\
    delta_role chunk = Some (JStr "assistant") /\
    finish_reason chunk = Some JNull.
Proof.
  apply (quoted_delta_is_decoded sample_world [72; 105; 10; 34; 233; 128512]%N
           "chatcmpl-0" (JStr "m") initial_state).
  reflexivity.
Defined.

(** A text delta that is not wrapped in double quotes is passed on as it
    is, whatever it contains: only the first colon of the payload
    separates. *)
Theorem raw_delta_is_verbatim (W : World) (content response_id : pystr) (model : json)
    (st : State) :
  (startswith content [chr_quote] && endswith content [chr_quote])%bool = false ->
  exists chunk st',
    _process_arena_sse_data W ("a0:" +++ content) response_id model st = (Some chunk, st') /\
    delta_content chunk = Some (JStr content) /\
    delta_role chunk = Some (JStr "assistant") /\
    finish_reason chunk = Some JNull.
Proof.
  intros H. unfold _process_arena_sse_data, read_clock.
  change (split_once chr_colon ("a0:" +++ content)) with (Some (py "a0", content)).
  cbn beta iota. change (str_eqb "a0" "a0") with true. cbv iota. rewrite H.
  do 2 eexists. repeat split.
Qed.

Lemma raw_delta_is_verbatim_witness :
  exists chunk st',
    _process_arena_sse_data sample_world ("a0:" +++ "time: 12:30") "chatcmpl-0" (JStr "m")
      initial_state = (Some chunk, st') /\
    delta_content chunk = Some (JStr "time: 12:30") /\
    delta_role chunk = Some (JStr "assistant") /\
    finish_reason chunk = Some JNull.
Proof.
  apply (raw_delta_is_verbatim sample_world "time: 12:30" "chatcmpl-0" (JStr "m")
           initial_state).
  reflexivity.
Defined.

(** ** What a request does to the state *)

(** The message loop only draws identifiers. *)
Lemma convert_messages_state (W : World) (model_id : json) (msgs : list json) :
  forall (evaluation_id : pystr) (i : nat) (arena_messages : list json)
         (message_ids : list pystr) (st : State),
    clock_reads (snd (convert_messages W model_id evaluation_id i msgs arena_messages
                        message_ids st)) = clock_reads st /\
    outbound (snd (convert_messages W model_id evaluation_id i msgs arena_messages
                     message_ids st)) = outbound st.
Proof.
  induction msgs as [|msg msgs IH]; intros eid i am ids st; [split; reflexivity|].
  cbn [convert_messages]. unfold bind, lift, fresh_uuid. cbn beta iota.
  destruct (getitem msg "content") as [content|e]; [|split; reflexivity].
  destruct (flatten_content content) as [flat|e]; [|split; reflexivity].
  destruct (if (0 <? i)%nat then _ else _) as [parent|e]; [|split; reflexivity].
  destruct (getitem msg "role") as [role|e]; [|split; reflexivity].
  match goal with
  | |- context [convert_messages W model_id eid (S i) msgs ?a ?b ?s] =>
      destruct (IH eid (S i) a b s) as [Hc Ho]
  end.
  split; [rewrite Hc | rewrite Ho]; reflexivity.
Qed.

Lemma convert_state (cfg : Config) (W : World) (openai_request : json)
    (modality : pystr) (st : State) :
  clock_reads (snd (_convert_to_arena_format cfg W openai_request modality st))
  = clock_reads st /\
  outbound (snd (_convert_to_arena_format cfg W openai_request modality st))
  = outbound st.
Proof.
  unfold _convert_to_arena_format, bind, lift, fresh_uuid, ret. cbn beta iota.
  destruct (getitem openai_request "model") as [model_name|e]; [|split; reflexivity].
  destruct (get_model_id cfg model_name) as [model_id|e]; [|split; reflexivity].
  destruct (get openai_request "messages" (JArr [])) as [messages|e]; [|split; reflexivity].
  destruct (iterate messages) as [msgs|e]; [|split; reflexivity].
  match goal with
  | |- context [convert_messages W ?m ?e ?i ?ms ?a ?b ?s] =>
      destruct (convert_messages_state W m ms e i a b s) as [Hc Ho];
      destruct (convert_messages W m e i ms a b s) as [[built|e'] st1]
  end; cbn in Hc, Ho |- *; split; assumption.
Qed.

(** The request translator reads no clock and issues no call, whether it
    returns or raises. *)
Theorem translator_issues_no_call (cfg : Config) (W : World) (openai_request : json)
    (modality : pystr) (st : State) :
  clock_reads (snd (_convert_to_arena_format cfg W openai_request modality st))
  = clock_reads st /\
  outbound (snd (_convert_to_arena_format cfg W openai_request modality st))
  = outbound st.
Proof. exact (convert_state cfg W openai_request modality st). Qed.

Lemma convert_to_openai_format_state (W : World) (arena_response original_request : json)
    (st : State) :
  outbound (snd (_convert_to_openai_format W arena_response original_request st))
  = outbound st.
Proof.
  unfold _convert_to_openai_format, bind, lift, now, read_clock, ret. cbn beta iota.
  destruct (get arena_response "content" (JStr "")) as [content|e]; [|reflexivity].
  destruct (get original_request "model" (JStr "unknown")) as [model|e]; [|reflexivity].
  destruct (get original_request "messages" (JArr [])) as [messages|e]; [|reflexivity].
  destruct (_estimate_tokens (JStr (py_str W messages))) as [p|e]; [|reflexivity].
  destruct (_estimate_tokens content) as [c|e]; reflexivity.
Qed.

(** The provider endpoint of a configuration. *)
Lemma make_arena_request_call (cfg : Config) (W : World) (arena_request : json)
    (auth_context : dict pystr) (st : State) :
  outbound (snd (_make_arena_request cfg W arena_request auth_context st))
  = outbound st ++ [ {| call_streamed := false;
                        call_url := arena_base_url cfg +++ "/api/create-evaluation";
                        call_headers := get_request_headers cfg auth_context;
                        call_json := arena_request |} ].
Proof.
  unfold _make_arena_request, bind, lift, record_call. cbn beta iota.
  now destruct (arena_post W _ _).
Qed.

(** A chat completion issues at most one call to the provider, never a
    second one: when it issues one, it is a plain POST of a JSON body to
    [{base_url}/api/create-evaluation] with the headers of the
    configuration. *)
Theorem chat_completion_at_most_one_call (cfg : Config) (W : World) (request_body : json)
    (auth_context : dict pystr) (st : State) :
  outbound (snd (chat_completion cfg W request_body auth_context st)) = outbound st \/
  exists arena_request,
    outbound (snd (chat_completion cfg W request_body auth_context st))
    = outbound st ++ [ {| call_streamed := false;
                          call_url := arena_base_url cfg +++ "/api/create-evaluation";
                          call_headers := get_request_headers cfg auth_context;
                          call_json := arena_request |} ].
Proof.
  unfold chat_completion, bind, lift, raise. cbn beta iota.
  destruct (get request_body "model" JNull) as [model|e]; [|now left].
  destruct (is_model_supported cfg model) as [[|]|e]; cbn [negb]; [|now left|now left].
  pose proof (convert_state cfg W request_body "chat" st) as [_ Ho].
  destruct (_convert_to_arena_format cfg W request_body "chat" st)
    as [[arena_request|e] st1]; cbn in Ho; [|now left].
  right. exists arena_request.
  pose proof (make_arena_request_call cfg W arena_request auth_context st1) as Hcall.
  destruct (_make_arena_request cfg W arena_request auth_context st1)
    as [[response|e] st2]; cbn [fst snd] in Hcall |- *.
  - rewrite convert_to_openai_format_state, Hcall, Ho. reflexivity.
  - rewrite Hcall, Ho. reflexivity.
Qed.

Lemma translate_lines_outbound (W : World) (response_id : pystr) (model : json)
    (lines : list pystr) (failure : option exn) (st : State) :
  outbound (snd (translate_lines W response_id model lines failure st)) = outbound st.
Proof.
  pose proof (translate_lines_state W response_id model lines failure st) as H.
  destruct (translate_lines W response_id model lines failure st) as [[evs r] st'].
  now destruct H as (_ & _ & H & _).
Qed.

Lemma dict_get_set_same {V : Type} (d : dict V) (k : pystr) (v : V) :
  dict_get (dict_set d k v) k = Some v.
Proof.
  induction d as [|[k' v'] d IH]; simpl.
  - now rewrite str_eqb_refl.
  - destruct (str_eqb k' k) eqn:E; simpl; rewrite E; [reflexivity | exact IH].
Qed.

Lemma dict_get_set_other {V : Type} (d : dict V) (k k0 : pystr) (v : V) :
  str_eqb k k0 = false -> dict_get (dict_set d k v) k0 = dict_get d k0.
Proof.
  intros Hk. induction d as [|[k' v'] d IH]; simpl.
  - now rewrite Hk.
  - destruct (str_eqb k' k) eqn:E; simpl.
    + apply str_eqb_eq in E. subst k'. now rewrite Hk.
    + now rewrite IH.
Qed.

(** A chat completion for a supported model and well-formed messages: the
    session of the specification is posted, and the provider's answer is
    translated. *)
Lemma chat_completion_run (cfg : Config) (W : World) (d : dict json) (m model_id : json)
    (msgs : list json) (auth_context : dict pystr) (st : State) :
  dict_get d "model" = Some m ->
  get_model_id cfg m = Ok model_id ->
  existsb (eq_str model_id) (supported_models cfg) = true ->
  dict_get d "messages" = Some (JArr msgs) ->
  forallb message_ok msgs = true ->
  chat_completion cfg W (JObj d) auth_context st
  = (let call :=
       {| call_streamed := false;
          call_url := arena_base_url cfg +++ "/api/create-evaluation";
          call_headers := get_request_headers cfg auth_context;
          call_json :=
            spec_session model_id (lower (uuid4 W (uuids_drawn st))) msgs
              (fresh_ids W (S (uuids_drawn st)) (List.length msgs))
              (lower (uuid4 W (S (uuids_drawn st) + List.length msgs))) "chat" |} in
     let st1 :=
       {| uuids_drawn := uuids_drawn st + (List.length msgs + 2);
          clock_reads := clock_reads st;
          outbound := outbound st ++ [call] |} in
     match arena_post W (List.length (outbound st)) call with
     | Ok response_data => _convert_to_openai_format W response_data (JObj d) st1
     | Raise e => (Raise e, st1)
     end).
Proof.
  intros Hm Hid Hsup Hmsgs Hok.
  unfold chat_completion, bind, lift, raise. cbn [get]. rewrite Hm.
  unfold is_model_supported. rewrite Hid, Hsup. cbn [negb].
  rewrite (convert_ok cfg W d m model_id msgs "chat" st Hm Hid Hmsgs Hok).
  unfold _make_arena_request, bind, lift, record_call, after_draws.
  cbn [uuids_drawn clock_reads outbound].
  now destruct (arena_post W _ _).
Qed.

(** The same for the body of the streaming generator. *)
Lemma stream_try_run (cfg : Config) (W : World) (d : dict json) (m model_id : json)
    (msgs : list json) (auth_context : dict pystr) (st : State) :
  dict_get d "model" = Some m ->
  get_model_id cfg m = Ok model_id ->
  existsb (eq_str model_id) (supported_models cfg) = true ->
  dict_get d "messages" = Some (JArr msgs) ->
  forallb message_ok msgs = true ->
  stream_chat_completion_try cfg W (JObj d) auth_context st
  = (let call :=
       {| call_streamed := true;
          call_url := arena_base_url cfg +++ "/api/create-evaluation";
          call_headers :=
            dict_set (get_request_headers cfg auth_context) "Accept" "text/event-stream";
          call_json :=
            spec_session model_id (lower (uuid4 W (uuids_drawn st))) msgs
              (fresh_ids W (S (uuids_drawn st)) (List.length msgs))
              (lower (uuid4 W (S (uuids_drawn st) + List.length msgs))) "chat" |} in
     match arena_stream W (List.length (outbound st)) call with
     | StreamRefused e =>
         ([], Raise e,
          {| uuids_drawn := uuids_drawn st + (List.length msgs + 2);
             clock_reads := clock_reads st;
             outbound := outbound st ++ [call] |})
     | StreamLines lines failure =>
         translate_lines W ("chatcmpl-" +++ str_of_int (time_time W (clock_reads st)))
           model_id lines failure
           {| uuids_drawn := uuids_drawn st + (List.length msgs + 2);
              clock_reads := S (clock_reads st);
              outbound := outbound st ++ [call] |}
     end).
Proof.
  intros Hm Hid Hsup Hmsgs Hok.
  unfold stream_chat_completion_try, bind, lift, raise. cbn [get]. rewrite Hm.
  unfold is_model_supported. rewrite Hid, Hsup. cbn [negb].
  rewrite (convert_ok cfg W d m model_id msgs "chat" st Hm Hid Hmsgs Hok).
  unfold _stream_arena_request, record_call, after_draws, read_clock.
  cbn [uuids_drawn clock_reads outbound]. cbn beta iota zeta.
  destruct (arena_stream W _ _); reflexivity.
Qed.

(** ** The non-streaming path from end to end *)

Lemma chat_completions_unary_run (cfg : Config) (W : World) (request : Request)
    (auth_context : dict pystr) (d : dict json) (m : json) (msgs : list json) (st : State) :
  get_auth_context request = Ok auth_context ->
  req_body request = Some (JObj d) ->
  dict_get d "model" = Some m ->
  dict_get d "messages" = Some (JArr msgs) ->
  truthy (match dict_get d "stream" with Some v => v | None => JBool false end) = false ->
  chat_completions cfg W request st
  = match chat_completion cfg W (JObj d) auth_context st with
    | (Ok response, st1) => (JSONResponse 200 response, st1)
    | (Raise (HTTPException code detail), st1) => (JSONResponse code detail, st1)
    | (Raise _, st1) =>
        (JSONResponse 500
           (error_envelope "Internal server error" "server_error" "internal_error"), st1)
    end.
Proof.
  intros Hauth Hbody Hm Hmsgs Hstream.
  unfold chat_completions. rewrite Hauth.
  unfold chat_completions_try, bind, lift, raise, ret. rewrite Hbody.
  cbn [contains getitem get]. rewrite Hm, Hmsgs. cbn [negb is_list]. rewrite Hstream.
  destruct (chat_completion cfg W (JObj d) auth_context st) as [[response|e] st1]; reflexivity.
Qed.



(** Failures after the call on the non-streaming path: when the provider
    call raises a transport error, or the provider answers with a body that
    is not an object, or with a [content] that is null, a boolean or a
    number, the client gets status 500 with the generic envelope, and the one
    call has been issued. *)
Theorem unary_provider_failure_is_500 (cfg : Config) (W : World) (request : Request)
    (auth_context : dict pystr) (d : dict json) (m model_id : json) (msgs : list json)
    (answer : result json) (st : State) :
  get_auth_context request = Ok auth_context ->
  req_body request = Some (JObj d) ->
  dict_get d "model" = Some m ->
  get_model_id cfg m = Ok model_id ->
  existsb (eq_str model_id) (supported_models cfg) = true ->
  dict_get d "messages" = Some (JArr msgs) ->
  forallb message_ok msgs = true ->
  truthy (match dict_get d "stream" with Some v => v | None => JBool false end) = false ->
  (forall n call, arena_post W n call = answer) ->
  ((exists msg, answer = Raise (TransportError msg)) \/
   (exists body, answer = Ok body /\ forall r, body <> JObj r) \/
   (exists r v, answer = Ok (JObj r) /\ dict_get r "content" = Some v /\
                forall s items fields, v <> JStr s /\ v <> JArr items /\ v <> JObj fields)) ->
  exists st' call,
    chat_completions cfg W request st
    = (JSONResponse 500
         (error_envelope "Internal server error" "server_error" "internal_error"), st') /\
    outbound st' = outbound st ++ [call] /\
    call_streamed call = false.
Proof.
  intros Hauth Hbody Hm Hid Hsup Hmsgs Hok Hstream Hworld Hanswer.
  rewrite (chat_completions_unary_run cfg W request auth_context d m msgs st
             Hauth Hbody Hm Hmsgs Hstream).
  rewrite (chat_completion_run cfg W d m model_id msgs auth_context st Hm Hid Hsup Hmsgs Hok).
  cbv zeta. rewrite Hworld.
  destruct Hanswer as [[msg ->]|[(body & -> & Hbodyshape)|(r & v & -> & Hv & Hshape)]].
  - do 2 eexists. repeat split.
  - unfold _convert_to_openai_format, bind, lift.
    destruct body as [| | | | |r]; cbn [get];
      try (do 2 eexists; repeat split; fail).
    now destruct (Hbodyshape r).
  - unfold _convert_to_openai_format, bind, lift, now, read_clock.
    cbn [get]. rewrite Hv, Hm, Hmsgs. cbn beta iota.
    unfold _estimate_tokens at 1. cbn [py_len]. cbn beta iota.
    destruct v as [| | |s|items|fields]; cbn;
      try (do 2 eexists; repeat split; fail).
    + now destruct (Hshape s [] []) as (? & _).
    + now destruct (Hshape [] items []) as (_ & ? & _).
    + now destruct (Hshape [] [] fields) as (_ & _ & ?).
Qed.

Lemma unary_provider_failure_is_500_witness :
  exists st' call,
    chat_completions default_config
      (answering_world (Ok (JObj [ (py "content", JNull) ])))
      {| req_headers := sample_headers;
         req_body := Some (chat_body "gpt-4" sample_messages false) |} initial_state
    = (JSONResponse 500
         (error_envelope "Internal server error" "server_error" "internal_error"), st') /\
    outbound st' = outbound initial_state ++ [call] /\
    call_streamed call = false.
Proof.
  eapply (unary_provider_failure_is_500 default_config
            (answering_world (Ok (JObj [ (py "content", JNull) ])))
            {| req_headers := sample_headers;
               req_body := Some (chat_body "gpt-4" sample_messages false) |}
            _
            [ (py "model", JStr "gpt-4"); (py "messages", JArr sample_messages);
              (py "stream", JBool false) ]
            (JStr "gpt-4") (JStr "gpt-4o-latest") sample_messages
            (Ok (JObj [ (py "content", JNull) ])) initial_state);
    try reflexivity.
  right. right. exists [ (py "content", JNull) ], JNull.
  repeat split; discriminate.
Defined.

(** ** The streaming path from end to end *)

Lemma create_error_chunk_outbound (W : World) (message : pystr) (st : State) :
  outbound (snd (_create_error_chunk W message st)) = outbound st.
Proof. reflexivity. Qed.

(** A streaming chat completion issues at most one call to the provider:
    when it issues one, it is a streamed POST to
    [{base_url}/api/create-evaluation] whose [Accept] header is
    [text/event-stream], the other headers being those of a plain call. *)
Theorem stream_at_most_one_call (cfg : Config) (W : World) (request_body : json)
    (auth_context : dict pystr) (st : State) :
  outbound (snd (stream_chat_completion cfg W request_body auth_context st)) = outbound st \/
  exists call,
    outbound (snd (stream_chat_completion cfg W request_body auth_context st))
    = outbound st ++ [call] /\
    call_streamed call = true /\
    call_url call = arena_base_url cfg +++ "/api/create-evaluation" /\
    dict_get (call_headers call) "Accept" = Some (py "text/event-stream") /\
    forall name, str_eqb "Accept" name = false ->
                 dict_get (call_headers call) name
                 = dict_get (get_request_headers cfg auth_context) name.
Proof.
  assert (Htry :
            outbound (snd (stream_chat_completion_try cfg W request_body auth_context st))
            = outbound st \/
            exists call,
              outbound (snd (stream_chat_completion_try cfg W request_body auth_context st))
              = outbound st ++ [call] /\
              call_streamed call = true /\
              call_url call = arena_base_url cfg +++ "/api/create-evaluation" /\
              dict_get (call_headers call) "Accept" = Some (py "text/event-stream") /\
              forall name, str_eqb "Accept" name = false ->
                           dict_get (call_headers call) name
                           = dict_get (get_request_headers cfg auth_context) name).
  { unfold stream_chat_completion_try, bind, lift, raise. cbn beta iota.
    destruct (get request_body "model" JNull) as [model|e]; [|now left].
    destruct (is_model_supported cfg model) as [[|]|e]; cbn [negb]; [|now left|now left].
    pose proof (convert_state cfg W request_body "chat" st) as [_ Ho].
    destruct (_convert_to_arena_format cfg W request_body "chat" st)
      as [[arena_request|e] st1]; cbn [snd] in Ho; [|now left].
    right. eexists. split; [|split; [|split; [|split]]].
    - unfold _stream_arena_request, record_call, read_clock. cbn beta iota zeta.
      destruct (arena_stream W _ _) as [e|lines failure]; cbn [snd outbound].
      + rewrite Ho. reflexivity.
      + destruct (get arena_request "modelAId" (JStr "unknown")) as [model_id|e];
          cbn [snd outbound]; [|rewrite Ho; reflexivity].
        rewrite translate_lines_outbound. cbn [outbound]. rewrite Ho. reflexivity.
    - reflexivity.
    - reflexivity.
    - cbn [call_headers]. apply dict_get_set_same.
    - intros name Hname. cbn [call_headers]. now apply dict_get_set_other. }
  unfold stream_chat_completion.
  destruct (stream_chat_completion_try cfg W request_body auth_context st)
    as [[evs [u|e]] st1]; cbn [snd] in Htry |- *; exact Htry.
Qed.

Lemma translate_lines_none_ok (W : World) (response_id : pystr) (model : json)
    (lines : list pystr) (st : State) :
  snd (fst (translate_lines W response_id model lines None st)) = Ok tt.
Proof.
  revert st. induction lines as [|line lines IH]; intros st; [reflexivity|].
  cbn [translate_lines].
  destruct (startswith line "data: "); [|apply IH].
  destruct (str_eqb (skipn 6 line) "[DONE]"); [reflexivity|].
  destruct (_process_arena_sse_data W (skipn 6 line) response_id model st) as [[chunk|] st1];
    [|apply IH].
  destruct (truthy chunk); [|apply IH].
  specialize (IH st1).
  now destruct (translate_lines W response_id model lines None st1) as [[evs r] st2].
Qed.

(** A streaming request for a supported model with well-formed messages,
    when the provider streams its lines and closes normally: the events are
    chunks that all carry the identifier the alias resolves to as [model] and
    one response id taken from the clock at the start; no error chunk is
    added; and when no line is the terminator line, no terminator is yielded
    either: the stream ends without [data: [DONE]]. *)
Theorem stream_completion_end_to_end (cfg : Config) (W : World) (d : dict json)
    (m model_id : json) (msgs : list json) (auth_context : dict pystr)
    (lines : list pystr) (st : State) :
  dict_get d "model" = Some m ->
  get_model_id cfg m = Ok model_id ->
  existsb (eq_str model_id) (supported_models cfg) = true ->
  dict_get d "messages" = Some (JArr msgs) ->
  forallb message_ok msgs = true ->
  (forall n call, arena_stream W n call = StreamLines lines None) ->
  exists events st',
    stream_chat_completion cfg W (JObj d) auth_context st = (events, st') /\
    Forall (fun chunk =>
              field "model" chunk = Some model_id /\
              field "id" chunk
              = Some (JStr ("chatcmpl-" +++ str_of_int (time_time W (clock_reads st)))))
           (data_chunks events) /\
    Forall (fun ev => is_error_event ev = false) events /\
    (forallb (fun line => negb (is_done_line line)) lines = true ->
     Forall (fun ev => is_done ev = false) events) /\
    List.length (outbound st') = S (List.length (outbound st)).
Proof.
  intros Hm Hid Hsup Hmsgs Hok Hworld.
  unfold stream_chat_completion.
  rewrite (stream_try_run cfg W d m model_id msgs auth_context st Hm Hid Hsup Hmsgs Hok).
  cbv zeta. rewrite Hworld.
  match goal with
  | |- context [translate_lines W ?rid ?mdl lines None ?s] =>
      pose proof (translate_lines_chunk_ids W rid mdl lines None s) as Hids;
      pose proof (translate_lines_events W rid mdl None lines s) as Hevents;
      pose proof (translate_lines_no_done W rid mdl lines None s) as Hdone;
      pose proof (translate_lines_outbound W rid mdl lines None s) as Hout;
      pose proof (translate_lines_none_ok W rid mdl lines s) as Hok';
      destruct (translate_lines W rid mdl lines None s) as [[evs r] st2]
  end.
  cbn [fst snd outbound] in *.
  subst r.
  exists evs, st2. split; [reflexivity|]. split.
  - eapply Forall_impl; [|exact Hids]. intros c (Hi & Hmo & _). auto.
  - split; [exact (proj1 (Hevents _ _ _ eq_refl))|].
    split; [intros Hnd; exact (proj1 (Hdone Hnd))|].
    rewrite Hout, length_app. simpl. lia.
Qed.

Lemma stream_completion_end_to_end_witness :
  exists events st',
    stream_chat_completion default_config sample_world
      (chat_body "gpt-4" sample_messages true) sample_auth initial_state = (events, st') /\
    Forall (fun chunk =>
              field "model" chunk = Some (JStr "gpt-4o-latest") /\
              field "id" chunk
              = Some (JStr ("chatcmpl-"
                            +++ str_of_int (time_time sample_world (clock_reads initial_state)))))
           (data_chunks events) /\
    Forall (fun ev => is_error_event ev = false) events /\
    (forallb (fun line => negb (is_done_line line)) sample_lines = true ->
     Forall (fun ev => is_done ev = false) events) /\
    List.length (outbound st') = S (List.length (outbound initial_state)).
Proof.
  apply (stream_completion_end_to_end default_config sample_world
           [ (py "model", JStr "gpt-4"); (py "messages", JArr sample_messages);
             (py "stream", JBool true) ]
           (JStr "gpt-4") (JStr "gpt-4o-latest") sample_messages sample_auth sample_lines
           initial_state); reflexivity.
Defined.

(** ** Authentication and the headers sent to the provider *)

(** A request is authenticated exactly when it carries a non-empty LA
    cookie and a non-empty clearance, each under its [X-] header or under
    the plain one; the [X-] header wins when it is not empty; every other
    request is refused with 401 and the code [missing_cookies]. *)
Theorem auth_context_needs_both_cookies (request : Request) :
  let has := fun name => truthy_opt (headers_get (req_headers request) name) in
  let value := fun name => headers_get (req_headers request) name in
  if ((has "X-LA-Cookie" || has "LA-Cookie")
      && (has "X-CF-Clearance" || has "CF-Clearance"))%bool
  then
    exists la cf ua,
      get_auth_context request
      = Ok [ (py "la_cookie", la); (py "cf_clearance", cf); (py "user_agent", ua) ] /\
      la <> [] /\ cf <> [] /\
      Some la = (if has "X-LA-Cookie" then value "X-LA-Cookie" else value "LA-Cookie") /\
      Some cf = (if has "X-CF-Clearance" then value "X-CF-Clearance"
                 else value "CF-Clearance")
  else
    get_auth_context request
    = Raise (HTTPException 401
               (error_envelope "Missing authentication cookies"
                               "authentication_error" "missing_cookies")).
Proof.
  cbv zeta. unfold get_auth_context, or_else.
  set (h := req_headers request).
  assert (T : forall x : option pystr,
             truthy_opt x = true -> exists v, x = Some v /\ v <> []).
  { intros [v|] Hx; [|discriminate]. exists v. split; [reflexivity|].
    intros ->. discriminate. }
  destruct (truthy_opt (headers_get h "X-LA-Cookie")) eqn:Hxla;
    destruct (truthy_opt (headers_get h "X-CF-Clearance")) eqn:Hxcf;
    cbn [orb andb negb]; rewrite ?Hxla, ?Hxcf; cbn [orb andb negb].
  - destruct (T _ Hxla) as (la & Hla & Hla'). destruct (T _ Hxcf) as (cf & Hcf & Hcf').
    rewrite Hla, Hcf. exists la, cf. eexists. repeat split; assumption.
  - destruct (truthy_opt (headers_get h "CF-Clearance")) eqn:Hcf0; cbn [orb andb negb];
      [|reflexivity].
    destruct (T _ Hxla) as (la & Hla & Hla'). destruct (T _ Hcf0) as (cf & Hcf & Hcf').
    rewrite Hla, Hcf. exists la, cf. eexists. repeat split; assumption.
  - destruct (truthy_opt (headers_get h "LA-Cookie")) eqn:Hla0; cbn [orb andb negb];
      [|reflexivity].
    destruct (T _ Hla0) as (la & Hla & Hla'). destruct (T _ Hxcf) as (cf & Hcf & Hcf').
    rewrite Hla, Hcf. exists la, cf. eexists. repeat split; assumption.
  - destruct (truthy_opt (headers_get h "LA-Cookie")) eqn:Hla0; cbn [orb andb negb];
      [|reflexivity].
    destruct (truthy_opt (headers_get h "CF-Clearance")) eqn:Hcf0; cbn [orb andb negb];
      [|reflexivity].
    destruct (T _ Hla0) as (la & Hla & Hla'). destruct (T _ Hcf0) as (cf & Hcf & Hcf').
    rewrite Hla, Hcf. exists la, cf. eexists. repeat split; assumption.
Qed.

(** The cookies of an authenticated request reach the provider: whatever
    the configuration, the headers of the outbound call are the client's
    user agent (or [OpenRouter-Alternative/1.0] when it sent none), the two
    JSON headers, and one [Cookie] header made of the two values under the
    names [LA_COOKIE] and [CF_CLEARANCE]; the user agent and the default
    cookies of the configuration are not used. *)
Theorem endpoint_cookies_reach_provider (cfg : Config) (request : Request)
    (auth_context : dict pystr) :
  get_auth_context request = Ok auth_context ->
  exists la cf,
    dict_get auth_context "la_cookie" = Some la /\
    dict_get auth_context "cf_clearance" = Some cf /\
    get_request_headers cfg auth_context
    = [ (py "User-Agent",
           match headers_get (req_headers request) "User-Agent" with
           | Some ua => ua
           | None => py "OpenRouter-Alternative/1.0"
           end);
        (py "Content-Type", py "application/json");
        (py "Accept", py "application/json");
        (py "Cookie", "LA_COOKIE=" +++ la +++ "; CF_CLEARANCE=" +++ cf) ].
Proof.
  unfold get_auth_context.
  destruct (negb _ || negb _)%bool eqn:Hmissing; [discriminate|].
  apply orb_false_iff in Hmissing as [Hla Hcf].
  apply negb_false_iff in Hla, Hcf.
  intros [= <-].
  destruct (or_else (headers_get (req_headers request) "X-LA-Cookie") _) as [la|];
    [|discriminate].
  destruct (or_else (headers_get (req_headers request) "X-CF-Clearance") _) as [cf|];
    [|discriminate].
  exists la, cf. split; [reflexivity|]. split; [reflexivity|].
  unfold get_request_headers, get_or. cbn [dict_get].
  change (str_eqb "la_cookie" "la_cookie") with true.
  change (str_eqb "la_cookie" "cf_clearance") with false.
  change (str_eqb "cf_clearance" "cf_clearance") with true.
  change (str_eqb "la_cookie" "user_agent") with false.
  change (str_eqb "cf_clearance" "user_agent") with false.
  change (str_eqb "user_agent" "user_agent") with true.
  cbv iota. cbn [opt_str] in *. rewrite Hla, Hcf. reflexivity.
Qed.

Lemma endpoint_cookies_reach_provider_witness :
  exists la cf,
    dict_get sample_auth "la_cookie" = Some la /\
    dict_get sample_auth "cf_clearance" = Some cf /\
    get_request_headers default_config sample_auth
    = [ (py "User-Agent",
           match headers_get (sample_headers ++ [ (py "User-Agent", py "curl/8") ])
                   "User-Agent" with
           | Some ua => ua
           | None => py "OpenRouter-Alternative/1.0"
           end);
        (py "Content-Type", py "application/json");
        (py "Accept", py "application/json");
        (py "Cookie", "LA_COOKIE=" +++ la +++ "; CF_CLEARANCE=" +++ cf) ].
Proof.
  apply (endpoint_cookies_reach_provider default_config
           {| req_headers := sample_headers ++ [ (py "User-Agent", py "curl/8") ];
              req_body := None |} sample_auth).
  reflexivity.
Defined.

(** ** [GET /v1/models] *)

(** Listing the models: without the two cookies the answer is 401 with the
    code [missing_cookies]; with them it is 200 and a list that has one
    entry per configured model, in the configured order, each with the model
    name as [id] and the tag [model]; no identifier is drawn, no clock read
    and no call issued. *)
Theorem list_models_lists_the_configuration (cfg : Config) (request : Request) (st : State) :
  match get_auth_context request with
  | Ok _ =>
      exists data,
        list_models cfg request st
        = (JSONResponse 200 (JObj [ (py "object", JStr "list"); (py "data", JArr data) ]),
           st) /\
        map (field "id") data = map (fun name => Some (JStr name)) (supported_models cfg) /\
        Forall (fun entry => field "object" entry = Some (JStr "model")) data
  | Raise _ =>
      list_models cfg request st
      = (JSONResponse 401
           (error_envelope "Missing authentication cookies"
                           "authentication_error" "missing_cookies"), st)
  end.
Proof.
  unfold list_models.
  destruct (get_auth_context request) as [auth|e] eqn:Hauth.
  - exists (map (format_model) (supported_models cfg)).
    split; [reflexivity|]. split.
    + rewrite map_map. reflexivity.
    + apply Forall_forall. intros entry Hin. apply in_map_iff in Hin as (name & <- & _).
      reflexivity.
  - unfold get_auth_context in Hauth.
    destruct (negb _ || negb _)%bool; [|discriminate].
    injection Hauth as <-. reflexivity.
Qed.

(** ** The status codes of the endpoints *)

(** Nothing in the client raises an [HTTPException] of its own. *)
Lemma getitem_plain (v x : json) (k : pystr) (code : Z) (detail : json) :
  getitem v k <> Raise (HTTPException code detail).
Proof. destruct v as [| | | | |d]; simpl; try discriminate. now destruct (dict_get d k). Qed.

Lemma get_plain (v default : json) (k : pystr) (code : Z) (detail : json) :
  get v k default <> Raise (HTTPException code detail).
Proof. destruct v; simpl; discriminate. Qed.

Lemma contains_plain (v : json) (k : pystr) (code : Z) (detail : json) :
  contains v k <> Raise (HTTPException code detail).
Proof. destruct v; simpl; discriminate. Qed.

Lemma iterate_plain (v : json) (code : Z) (detail : json) :
  iterate v <> Raise (HTTPException code detail).
Proof. destruct v; simpl; discriminate. Qed.

Lemma join_items_plain (items : list json) (i : nat) (code : Z) (detail : json) :
  join_items i items <> Raise (HTTPException code detail).
Proof.
  revert i; induction items as [|v items IH]; intros i; simpl; [discriminate|].
  destruct v; try discriminate.
  specialize (IH (S i)). destruct (join_items (S i) items); [discriminate | congruence].
Qed.

Lemma flatten_content_plain (content : json) (code : Z) (detail : json) :
  flatten_content content <> Raise (HTTPException code detail).
Proof.
  destruct content as [| | | |parts|]; simpl; try discriminate.
  unfold py_join.
  pose proof (join_items_plain (collect_text_parts parts) 0 code detail) as H.
  destruct (join_items 0 (collect_text_parts parts)); [discriminate | congruence].
Qed.

Lemma get_model_id_plain (cfg : Config) (v : json) (code : Z) (detail : json) :
  get_model_id cfg v <> Raise (HTTPException code detail).
Proof. destruct v; simpl; discriminate. Qed.

Lemma is_model_supported_plain (cfg : Config) (v : json) (code : Z) (detail : json) :
  is_model_supported cfg v <> Raise (HTTPException code detail).
Proof.
  unfold is_model_supported. pose proof (get_model_id_plain cfg v code detail).
  destruct (get_model_id cfg v); [discriminate | congruence].
Qed.

Lemma estimate_tokens_plain (v : json) (code : Z) (detail : json) :
  _estimate_tokens v <> Raise (HTTPException code detail).
Proof. destruct v; simpl; discriminate. Qed.

Lemma convert_messages_plain (W : World) (model_id : json) (msgs : list json)
    (code : Z) (detail : json) :
  forall (evaluation_id : pystr) (i : nat) (arena_messages : list json)
         (message_ids : list pystr) (st : State),
    fst (convert_messages W model_id evaluation_id i msgs arena_messages message_ids st)
    <> Raise (HTTPException code detail).
Proof.
  induction msgs as [|msg msgs IH]; intros eid i am ids st; [discriminate|].
  cbn [convert_messages]. unfold bind, lift, fresh_uuid. cbn beta iota.
  pose proof (getitem_plain msg JNull "content" code detail) as H1.
  destruct (getitem msg "content") as [content|e]; [|cbn; congruence].
  pose proof (flatten_content_plain content code detail) as H2.
  destruct (flatten_content content) as [flat|e]; [|cbn; congruence].
  destruct (0 <? i)%nat;
    [destruct (nth_error _ _); [|cbn; discriminate]|];
    (pose proof (getitem_plain msg JNull "role" code detail) as H3;
     destruct (getitem msg "role") as [role|e]; [apply IH | cbn; congruence]).
Qed.

Lemma convert_plain (cfg : Config) (W : World) (openai_request : json) (modality : pystr)
    (st : State) (code : Z) (detail : json) :
  fst (_convert_to_arena_format cfg W openai_request modality st)
  <> Raise (HTTPException code detail).
Proof.
  unfold _convert_to_arena_format, bind, lift, fresh_uuid, ret. cbn beta iota.
  pose proof (getitem_plain openai_request JNull "model" code detail) as H1.
  destruct (getitem openai_request "model") as [model_name|e]; [|cbn; congruence].
  pose proof (get_model_id_plain cfg model_name code detail) as H2.
  destruct (get_model_id cfg model_name) as [model_id|e]; [|cbn; congruence].
  pose proof (get_plain openai_request (JArr []) "messages" code detail) as H3.
  destruct (get openai_request "messages" (JArr [])) as [messages|e]; [|cbn; congruence].
  pose proof (iterate_plain messages code detail) as H4.
  destruct (iterate messages) as [msgs|e]; [|cbn; congruence].
  match goal with
  | |- context [convert_messages W ?m ?e ?i ?ms ?a ?b ?s] =>
      pose proof (convert_messages_plain W m ms code detail e i a b s) as H5;
      destruct (convert_messages W m e i ms a b s) as [[built|e'] st1]
  end; cbn in H5 |- *; [discriminate | congruence].
Qed.

Lemma convert_to_openai_format_plain (W : World) (arena_response original_request : json)
    (st : State) (code : Z) (detail : json) :
  fst (_convert_to_openai_format W arena_response original_request st)
  <> Raise (HTTPException code detail).
Proof.
  unfold _convert_to_openai_format, bind, lift, now, read_clock, ret. cbn beta iota.
  pose proof (get_plain arena_response (JStr "") "content" code detail) as H1.
  destruct (get arena_response "content" (JStr "")) as [content|e]; [|cbn; congruence].
  pose proof (get_plain original_request (JStr "unknown") "model" code detail) as H2.
  destruct (get original_request "model" (JStr "unknown")) as [model|e]; [|cbn; congruence].
  pose proof (get_plain original_request (JArr []) "messages" code detail) as H3.
  destruct (get original_request "messages" (JArr [])) as [messages|e]; [|cbn; congruence].
  pose proof (estimate_tokens_plain (JStr (py_str W messages)) code detail) as H4.
  destruct (_estimate_tokens (JStr (py_str W messages))) as [p|e]; [|cbn; congruence].
  pose proof (estimate_tokens_plain content code detail) as H5.
  destruct (_estimate_tokens content) as [c|e]; cbn; [discriminate | congruence].
Qed.

Lemma chat_completion_plain (cfg : Config) (W : World) (request_body : json)
    (auth_context : dict pystr) (st : State) (code : Z) (detail : json) :
  (forall n call c dt, arena_post W n call <> Raise (HTTPException c dt)) ->
  fst (chat_completion cfg W request_body auth_context st)
  <> Raise (HTTPException code detail).
Proof.
  intros Hworld. unfold chat_completion, bind, lift, raise. cbn beta iota.
  pose proof (get_plain request_body JNull "model" code detail) as H1.
  destruct (get request_body "model" JNull) as [model|e]; [|cbn; congruence].
  pose proof (is_model_supported_plain cfg model code detail) as H2.
  destruct (is_model_supported cfg model) as [[|]|e]; cbn [negb];
    [|cbn; discriminate|cbn; congruence].
  pose proof (convert_plain cfg W request_body "chat" st code detail) as H3.
  destruct (_convert_to_arena_format cfg W request_body "chat" st)
    as [[arena_request|e] st1]; cbn [fst] in H3; [|cbn; congruence].
  unfold _make_arena_request, bind, lift, record_call. cbn beta iota.
  match goal with
  | |- context [arena_post W ?n ?c] =>
      pose proof (Hworld n c code detail) as H4; destruct (arena_post W n c) as [response|e]
  end; [|cbn; congruence].
  apply convert_to_openai_format_plain.
Qed.

(** What the chat-completions endpoint can answer, as long as the
    transport raises errors of its own and no [HTTPException]: a stream
    under status 200, or a JSON body under 200, 400, 401 or 500; under 400
    and 401 the body is an error envelope and the request has drawn no
    identifier, read no clock and issued no call; under 500 the body is the
    generic [internal_error] envelope. *)
Theorem chat_completions_status_codes (cfg : Config) (W : World) (request : Request)
    (st : State) :
  (forall n call c dt, arena_post W n call <> Raise (HTTPException c dt)) ->
  match chat_completions cfg W request st with
  | (StreamingResponse code media _, _) =>
      code = 200 /\ media = py "text/event-stream"
  | (JSONResponse code content, st') =>
      code = 200 \/
      ((code = 400 \/ code = 401) /\ is_error_envelope content = true /\ st' = st) \/
      (code = 500 /\
       content = error_envelope "Internal server error" "server_error" "internal_error")
  end.
Proof.
  intros Hworld. unfold chat_completions, get_auth_context.
  destruct (negb _ || negb _)%bool.
  { right. left. repeat split. now right. }
  unfold chat_completions_try, bind, lift, raise, ret.
  destruct (req_body request) as [body|]; [|right; right; split; reflexivity].
  pose proof (contains_plain body "model") as Hc1.
  destruct (contains body "model") as [[|]|e]; cbn [negb];
    [| right; left; repeat split; now left
     | destruct e; try (right; right; split; reflexivity); now destruct (Hc1 status_code detail)].
  pose proof (contains_plain body "messages") as Hc2.
  destruct (contains body "messages") as [[|]|e]; cbn [negb];
    [| right; left; repeat split; now left
     | destruct e; try (right; right; split; reflexivity); now destruct (Hc2 status_code detail)].
  pose proof (getitem_plain body JNull "messages") as Hc3.
  destruct (getitem body "messages") as [messages|e];
    [| destruct e; try (right; right; split; reflexivity); now destruct (Hc3 status_code detail)].
  destruct (is_list messages); cbn [negb]; [|right; left; repeat split; now left].
  pose proof (get_plain body (JBool false) "stream") as Hc4.
  destruct (get body "stream" (JBool false)) as [is_streaming|e];
    [| destruct e; try (right; right; split; reflexivity); now destruct (Hc4 status_code detail)].
  destruct (truthy is_streaming).
  - destruct (stream_chat_completion cfg W body _ st) as [evs st1]. split; reflexivity.
  - match goal with
    | |- context [chat_completion cfg W body ?a st] =>
        pose proof (fun c dt => chat_completion_plain cfg W body a st c dt Hworld) as Hc5;
        destruct (chat_completion cfg W body a st) as [[response|e] st1]
    end; cbn [fst] in Hc5.
    + now left.
    + destruct e; try (right; right; split; reflexivity).
      now destruct (Hc5 status_code detail).
Qed.

Lemma chat_completions_status_codes_witness :
  match chat_completions default_config refusing_world
          {| req_headers := sample_headers;
             req_body := Some (chat_body "gpt-4" sample_messages false) |} initial_state with
  | (StreamingResponse code media _, _) =>
      code = 200 /\ media = py "text/event-stream"
  | (JSONResponse code content, st') =>
      code = 200 \/
      ((code = 400 \/ code = 401) /\ is_error_envelope content = true /\ st' = initial_state) \/
      (code = 500 /\
       content = error_envelope "Internal server error" "server_error" "internal_error")
  end.
Proof.
  apply (chat_completions_status_codes default_config refusing_world
           {| req_headers := sample_headers;
              req_body := Some (chat_body "gpt-4" sample_messages false) |} initial_state).
  intros n call c dt. discriminate.
Defined.

(** ** Image generation *)

Lemma image_generation_shape (cfg : Config) (W : World) (request_body : json)
    (auth_context : dict pystr) (st : State) :
  match fst (image_generation cfg W request_body auth_context st) with
  | Ok response =>
      exists created,
        response = JObj [ (py "created", JInt created); (py "data", JArr []) ]
  | Raise _ => True
  end.
Proof.
  unfold image_generation, bind, lift, now, read_clock, ret, _extract_image_urls.
  cbn beta iota.
  destruct (get request_body "model" (JStr "dall-e-3")) as [model|e]; [|exact I].
  destruct (getitem request_body "prompt") as [prompt|e]; [|exact I].
  destruct (_convert_to_arena_format cfg W _ "image" st) as [[arena_request|e] st1];
    [|exact I].
  destruct (_make_arena_request cfg W arena_request auth_context st1)
    as [[response|e] st2]; [|exact I].
  cbn. eexists. reflexivity.
Qed.

(** An image generation never returns an image: whenever it succeeds, the
    result is a creation time and an empty [data] list, whatever the provider
    answered. *)
Theorem image_generation_data_is_empty (cfg : Config) (W : World) (request_body : json)
    (auth_context : dict pystr) (st : State) :
  match fst (image_generation cfg W request_body auth_context st) with
  | Ok response =>
      exists created,
        response = JObj [ (py "created", JInt created); (py "data", JArr []) ]
  | Raise _ => True
  end.
Proof. exact (image_generation_shape cfg W request_body auth_context st). Qed.

(** An image generation does not check that the model is supported: for
    every model name that can be looked up (the default being [dall-e-3])
    and every prompt that is a string or an array of typed parts, one call is
    issued, for a session of modality [image] whose model is the resolved
    identifier and whose turns are one user turn holding the prompt and the
    empty assistant turn. *)
Theorem image_generation_skips_model_check (cfg : Config) (W : World) (d : dict json)
    (prompt model_id : json) (auth_context : dict pystr) (st : State) :
  dict_get d "prompt" = Some prompt ->
  content_ok prompt = true ->
  get_model_id cfg (match dict_get d "model" with
                    | Some m => m
                    | None => JStr "dall-e-3"
                    end) = Ok model_id ->
  exists call user_turn assistant_turn,
    outbound (snd (image_generation cfg W (JObj d) auth_context st))
    = outbound st ++ [call] /\
    call_streamed call = false /\
    field "modality" (call_json call) = Some (JStr "image") /\
    field "modelAId" (call_json call) = Some model_id /\
    turns (call_json call) = [user_turn; assistant_turn] /\
    field "role" user_turn = Some (JStr "user") /\
    field "content" user_turn = Some (spec_content prompt) /\
    field "role" assistant_turn = Some (JStr "assistant") /\
    field "content" assistant_turn = Some (JStr "").
Proof.
  intros Hprompt Hok Hid.
  unfold image_generation, bind, lift, now, read_clock, ret. cbn [get getitem].
  rewrite Hprompt. cbn beta iota.
  rewrite (convert_ok cfg W
             [ (py "model", match dict_get d "model" with
                            | Some x => x
                            | None => JStr "dall-e-3"
                            end);
               (py "messages", JArr [ JObj [ (py "role", JStr "user");
                                             (py "content", prompt) ] ]);
               (py "stream", JBool false) ]
             _ model_id
             [ JObj [ (py "role", JStr "user"); (py "content", prompt) ] ]
             "image" st eq_refl Hid eq_refl)
    by (cbn; now rewrite Hok).
  unfold _make_arena_request, bind, lift, record_call, after_draws. cbn beta iota.
  do 3 eexists. split.
  - destruct (arena_post W _ _); cbn [snd outbound]; reflexivity.
  - repeat split.
Qed.

Lemma image_generation_skips_model_check_witness :
  is_model_supported default_config (JStr "no-such-model") = Ok false /\
  exists call user_turn assistant_turn,
    outbound (snd (image_generation default_config sample_world
                     (JObj [ (py "model", JStr "no-such-model");
                             (py "prompt", JStr "a red kite") ])
                     sample_auth initial_state))
    = outbound initial_state ++ [call] /\
    call_streamed call = false /\
    field "modality" (call_json call) = Some (JStr "image") /\
    field "modelAId" (call_json call) = Some (JStr "no-such-model") /\
    turns (call_json call) = [user_turn; assistant_turn] /\
    field "role" user_turn = Some (JStr "user") /\
    field "content" user_turn = Some (spec_content (JStr "a red kite")) /\
    field "role" assistant_turn = Some (JStr "assistant") /\
    field "content" assistant_turn = Some (JStr "").
Proof.
  split; [reflexivity|].
  apply (image_generation_skips_model_check default_config sample_world
           [ (py "model", JStr "no-such-model"); (py "prompt", JStr "a red kite") ]
           (JStr "a red kite") (JStr "no-such-model") sample_auth initial_state);
    reflexivity.
Defined.

Lemma image_generation_plain (cfg : Config) (W : World) (request_body : json)
    (auth_context : dict pystr) (st : State) (code : Z) (detail : json) :
  (forall n call c dt, arena_post W n call <> Raise (HTTPException c dt)) ->
  fst (image_generation cfg W request_body auth_context st)
  <> Raise (HTTPException code detail).
Proof.
  intros Hworld.
  unfold image_generation, bind, lift, now, read_clock, ret. cbn beta iota.
  pose proof (get_plain request_body (JStr "dall-e-3") "model" code detail) as H1.
  destruct (get request_body "model" (JStr "dall-e-3")) as [model|e]; [|cbn; congruence].
  pose proof (getitem_plain request_body JNull "prompt" code detail) as H2.
  destruct (getitem request_body "prompt") as [prompt|e]; [|cbn; congruence].
  match goal with
  | |- context [_convert_to_arena_format cfg W ?r ?mo st] =>
      pose proof (convert_plain cfg W r mo st code detail) as H3;
      destruct (_convert_to_arena_format cfg W r mo st) as [[arena_request|e] st1]
  end; cbn [fst] in H3; [|cbn; congruence].
  unfold _make_arena_request, bind, lift, record_call. cbn beta iota.
  match goal with
  | |- context [arena_post W ?n ?c] =>
      pose proof (Hworld n c code detail) as H4; destruct (arena_post W n c) as [response|e]
  end; cbn; [discriminate | congruence].
Qed.

(** What the image endpoint can answer, as long as the transport raises no
    [HTTPException]: 200 with an empty [data] list; 400 (a body without
    [prompt]) or 401 (cookies missing) with an error envelope and nothing
    done; or 500 with the generic envelope. *)
Theorem image_generations_status_codes (cfg : Config) (W : World) (request : Request)
    (st : State) :
  (forall n call c dt, arena_post W n call <> Raise (HTTPException c dt)) ->
  match image_generations cfg W request st with
  | (StreamingResponse _ _ _, _) => False
  | (JSONResponse code content, st') =>
      (code = 200 /\ field "data" content = Some (JArr [])) \/
      ((code = 400 \/ code = 401) /\ is_error_envelope content = true /\ st' = st) \/
      (code = 500 /\
       content = error_envelope "Internal server error" "server_error" "internal_error")
  end.
Proof.
  intros Hworld. unfold image_generations, get_auth_context.
  destruct (negb _ || negb _)%bool.
  { right. left. repeat split. now right. }
  unfold image_generations_try, bind, lift, raise, ret.
  destruct (req_body request) as [body|]; [|right; right; split; reflexivity].
  pose proof (contains_plain body "prompt") as Hc1.
  destruct (contains body "prompt") as [[|]|e]; cbn [negb];
    [| right; left; repeat split; now left
     | destruct e; try (right; right; split; reflexivity); now destruct (Hc1 status_code detail)].
  match goal with
  | |- context [image_generation cfg W body ?a st] =>
      pose proof (fun c dt => image_generation_plain cfg W body a st c dt Hworld) as Hc2;
      pose proof (image_generation_shape cfg W body a st) as Hshape;
      destruct (image_generation cfg W body a st) as [[response|e] st1]
  end; cbn [fst] in Hc2, Hshape.
  - left. destruct Hshape as [created ->]. split; reflexivity.
  - destruct e; try (right; right; split; reflexivity).
    now destruct (Hc2 status_code detail).
Qed.

Lemma image_generations_status_codes_witness :
  match image_generations default_config sample_world
          {| req_headers := sample_headers;
             req_body := Some (JObj [ (py "prompt", JStr "a red kite") ]) |}
          initial_state with
  | (StreamingResponse _ _ _, _) => False
  | (JSONResponse code content, st') =>
      (code = 200 /\ field "data" content = Some (JArr [])) \/
      ((code = 400 \/ code = 401) /\ is_error_envelope content = true /\ st' = initial_state) \/
      (code = 500 /\
       content = error_envelope "Internal server error" "server_error" "internal_error")
  end.
Proof.
  apply (image_generations_status_codes default_config sample_world
           {| req_headers := sample_headers;
              req_body := Some (JObj [ (py "prompt", JStr "a red kite") ]) |}
           initial_state).
  intros n call c dt. discriminate.
Defined.

(** ** More on the sessions the request translator builds *)

Lemma spec_turn_id (model_id : json) (evaluation_id : pystr) (parent : list json)
    (id : pystr) (msg : json) :
  field "id" (spec_turn model_id evaluation_id parent id msg) = Some (JStr id).
Proof. reflexivity. Qed.

Lemma spec_turns_ids (model_id : json) (evaluation_id : pystr) (msgs : list json) :
  forall (parent : list json) (ids : list pystr),
    List.length ids = List.length msgs ->
    map (field "id") (spec_turns model_id evaluation_id parent msgs ids)
    = map (fun id => Some (JStr id)) ids.
Proof.
  induction msgs as [|msg msgs IH]; intros parent [|id ids] H; simpl in H;
    try discriminate; [reflexivity|].
  cbn [spec_turns map]. rewrite spec_turn_id. f_equal. apply IH. lia.
Qed.

Lemma fresh_ids_snoc (W : World) (n count : nat) :
  fresh_ids W n (S count) = fresh_ids W n count ++ [lower (uuid4 W (n + count))].
Proof. unfold fresh_ids. now rewrite seq_S, map_app. Qed.

Lemma NoDup_ids (ids : list pystr) :
  NoDup ids -> NoDup (map (fun id => Some (JStr id)) ids).
Proof.
  induction 1 as [|id ids Hnotin Hnodup IH]; simpl; constructor; [|exact IH].
  intros Hin. apply in_map_iff in Hin as (id' & E & Hin). injection E as ->. contradiction.
Qed.

(** The identifiers of a session are the identifiers drawn, in the order of
    the draws: the session id first, then one per input message, then the
    assistant turn's; N+2 draws in all.  So they are pairwise distinct
    whenever the draws are. *)
Theorem session_identifiers_are_the_draws (cfg : Config) (W : World) (d : dict json)
    (m : json) (msgs : list json) (modality : pystr) (st : State) :
  dict_get d "model" = Some m ->
  hashable m = true ->
  dict_get d "messages" = Some (JArr msgs) ->
  forallb message_ok msgs = true ->
  exists session st',
    _convert_to_arena_format cfg W (JObj d) modality st = (Ok session, st') /\
    field "id" session :: map (field "id") (turns session)
    = map (fun id => Some (JStr id))
          (fresh_ids W (uuids_drawn st) (List.length msgs + 2)) /\
    uuids_drawn st' = (uuids_drawn st + (List.length msgs + 2))%nat /\
    (NoDup (fresh_ids W (uuids_drawn st) (List.length msgs + 2)) ->
     NoDup (field "id" session :: map (field "id") (turns session))).
Proof.
  intros Hm Hh Hmsgs Hok.
  destruct (hashable_model_id cfg m Hh) as [model_id Hid].
  set (eid := lower (uuid4 W (uuids_drawn st))).
  set (ids := fresh_ids W (S (uuids_drawn st)) (List.length msgs)).
  set (aid := lower (uuid4 W (S (uuids_drawn st) + List.length msgs))).
  assert (Hlen : List.length ids = List.length msgs) by apply fresh_ids_length.
  exists (spec_session model_id eid msgs ids aid modality), (after_draws (List.length msgs + 2) st).
  split; [exact (convert_ok cfg W d m model_id msgs modality st Hm Hid Hmsgs Hok)|].
  assert (Heq : field "id" (spec_session model_id eid msgs ids aid modality)
                :: map (field "id") (turns (spec_session model_id eid msgs ids aid modality))
                = map (fun id => Some (JStr id))
                      (fresh_ids W (uuids_drawn st) (List.length msgs + 2))).
  { change (turns (spec_session model_id eid msgs ids aid modality))
      with (spec_turns model_id eid [] msgs ids
            ++ [spec_assistant_turn model_id eid (last_parent ids) aid]).
    rewrite map_app, (spec_turns_ids model_id eid msgs [] ids Hlen).
    replace (List.length msgs + 2)%nat with (S (S (List.length msgs))) by lia.
    rewrite fresh_ids_S, fresh_ids_snoc. cbn [map]. rewrite map_app.
    reflexivity. }
  split; [exact Heq|]. split; [reflexivity|].
  intros Hnodup. rewrite Heq. now apply NoDup_ids.
Qed.

Lemma session_identifiers_are_the_draws_witness :
  exists session st',
    _convert_to_arena_format default_config sample_world
      (chat_body "gpt-4" sample_messages false) "chat" initial_state = (Ok session, st') /\
    field "id" session :: map (field "id") (turns session)
    = map (fun id => Some (JStr id))
          (fresh_ids sample_world (uuids_drawn initial_state)
             (List.length sample_messages + 2)) /\
    uuids_drawn st' = (uuids_drawn initial_state + (List.length sample_messages + 2))%nat /\
    (NoDup (fresh_ids sample_world (uuids_drawn initial_state)
              (List.length sample_messages + 2)) ->
     NoDup (field "id" session :: map (field "id") (turns session))).
Proof.
  apply (session_identifiers_are_the_draws default_config sample_world
           [ (py "model", JStr "gpt-4"); (py "messages", JArr sample_messages);
             (py "stream", JBool false) ]
           (JStr "gpt-4") sample_messages "chat" initial_state);
    reflexivity.
Defined.

(** The turns form one thread: the first turn has no parent, every later
    turn (the appended assistant turn included) has exactly the turn before
    it as parent; and every turn belongs to the session and is [pending]. *)
Theorem turns_form_one_thread (cfg : Config) (W : World) (d : dict json)
    (m : json) (msgs : list json) (modality : pystr) (st : State) :
  dict_get d "model" = Some m ->
  hashable m = true ->
  dict_get d "messages" = Some (JArr msgs) ->
  forallb message_ok msgs = true ->
  exists session st',
    _convert_to_arena_format cfg W (JObj d) modality st = (Ok session, st') /\
    (forall first, nth_error (turns session) 0 = Some first ->
                   field "parentMessageIds" first = Some (JArr [])) /\
    (forall k prev next,
        nth_error (turns session) k = Some prev ->
        nth_error (turns session) (S k) = Some next ->
        exists id, field "id" prev = Some (JStr id) /\
                   field "parentMessageIds" next = Some (JArr [JStr id])) /\
    (forall turn, In turn (turns session) ->
                  field "evaluationSessionId" turn = field "id" session /\
                  field "status" turn = Some (JStr "pending")).
Proof.
  intros Hm Hh Hmsgs Hok.
  destruct (hashable_model_id cfg m Hh) as [model_id Hid].
  set (eid := lower (uuid4 W (uuids_drawn st))).
  set (ids := fresh_ids W (S (uuids_drawn st)) (List.length msgs)).
  set (aid := lower (uuid4 W (S (uuids_drawn st) + List.length msgs))).
  assert (Hlen : List.length ids = List.length msgs) by apply fresh_ids_length.
  exists (spec_session model_id eid msgs ids aid modality), (after_draws (List.length msgs + 2) st).
  split; [exact (convert_ok cfg W d m model_id msgs modality st Hm Hid Hmsgs Hok)|].
  change (turns (spec_session model_id eid msgs ids aid modality))
    with (spec_turns model_id eid [] msgs ids
          ++ [spec_assistant_turn model_id eid (last_parent ids) aid]).
  assert (Hst : List.length (spec_turns model_id eid [] msgs ids) = List.length msgs)
    by now apply spec_turns_length.
  assert (Hturn : forall k turn,
             nth_error (spec_turns model_id eid [] msgs ids
                        ++ [spec_assistant_turn model_id eid (last_parent ids) aid]) k
             = Some turn ->
             (exists msg id, k < List.length msgs /\ nth_error ids k = Some id /\
                             turn = spec_turn model_id eid
                                      (match k with
                                       | O => []
                                       | S k' => [JStr (nth k' ids [])]
                                       end) id msg)%nat
             \/ (k = List.length msgs /\
                 turn = spec_assistant_turn model_id eid (last_parent ids) aid)).
  { intros k turn Hk.
    destruct (Nat.lt_ge_cases k (List.length msgs)) as [Hlt|Hge].
    - left. rewrite nth_error_app1 in Hk by lia.
      destruct (nth_error msgs k) as [msg|] eqn:Hmsg; [|apply nth_error_None in Hmsg; lia].
      destruct (spec_turns_nth model_id eid msgs [] ids k msg Hlen Hmsg) as (id & Hidk & Ht).
      rewrite Ht in Hk. injection Hk as <-. now exists msg, id.
    - right. rewrite nth_error_app2 in Hk by lia. rewrite Hst in Hk.
      destruct (k - List.length msgs)%nat as [|j] eqn:Hj; [|now destruct j].
      injection Hk as <-. split; [lia | reflexivity]. }
  split; [|split].
  - intros first H0. destruct (Hturn 0%nat first H0) as [(msg & id & _ & _ & ->)|[H0' ->]].
    + reflexivity.
    + assert (E : ids = []) by (destruct ids; [reflexivity | simpl in Hlen; lia]).
      rewrite E. reflexivity.
  - intros k prev next Hp Hn.
    destruct (Hturn k prev Hp) as [(msg & id & Hk & Hidk & ->)|[Hk ->]].
    + exists id. split; [reflexivity|].
      destruct (Hturn (S k) next Hn) as [(msg' & id' & _ & _ & ->)|[Hk' ->]].
      * cbn. now rewrite (nth_error_nth _ _ _ Hidk).
      * assert (Hne : ids <> []) by (intros E; rewrite E in Hidk; now destruct k).
        pose proof (nth_error_last ids Hne) as Hl. rewrite Hlen in Hl.
        replace (List.length msgs - 1)%nat with k in Hl by lia.
        rewrite Hidk in Hl. injection Hl as ->.
        unfold last_parent. destruct ids; [congruence | reflexivity].
    + assert (Hn' : (S k < List.length
                              (spec_turns model_id eid [] msgs ids
                               ++ [spec_assistant_turn model_id eid (last_parent ids) aid]))%nat)
        by (apply nth_error_Some; congruence).
      rewrite length_app, Hst in Hn'. simpl in Hn'. lia.
  - intros turn Hin. apply in_app_or in Hin as [Hin|[<-|[]]].
    + destruct (spec_turns_In _ _ _ _ _ _ Hin) as (p & i & msg & _ & ->). split; reflexivity.
    + split; reflexivity.
Qed.

Lemma turns_form_one_thread_witness :
  exists session st',
    _convert_to_arena_format default_config sample_world
      (chat_body "gpt-4" sample_messages false) "chat" initial_state = (Ok session, st') /\
    (forall first, nth_error (turns session) 0 = Some first ->
                   field "parentMessageIds" first = Some (JArr [])) /\
    (forall k prev next,
        nth_error (turns session) k = Some prev ->
        nth_error (turns session) (S k) = Some next ->
        exists id, field "id" prev = Some (JStr id) /\
                   field "parentMessageIds" next = Some (JArr [JStr id])) /\
    (forall turn, In turn (turns session) ->
                  field "evaluationSessionId" turn = field "id" session /\
                  field "status" turn = Some (JStr "pending")).
Proof.
  apply (turns_form_one_thread default_config sample_world
           [ (py "model", JStr "gpt-4"); (py "messages", JArr sample_messages);
             (py "stream", JBool false) ]
           (JStr "gpt-4") sample_messages "chat" initial_state);
    reflexivity.
Defined.

(** The anchors and the model of a session with N >= 1 messages: the model
    is the identifier the alias table gives; [userMessageId] is the id of the
    turn of the last input message, whatever its role; [modelAMessageId] is
    the id of the appended assistant turn, which carries the model; and a
    turn made of an input message carries the model exactly when the message
    has the role [assistant], and null otherwise. *)
Theorem anchors_and_model_of_session (cfg : Config) (W : World) (d : dict json)
    (m model_id : json) (msgs : list json) (modality : pystr) (st : State) :
  dict_get d "model" = Some m ->
  get_model_id cfg m = Ok model_id ->
  dict_get d "messages" = Some (JArr msgs) ->
  (1 <= List.length msgs)%nat ->
  forallb message_ok msgs = true ->
  exists session st' last_input assistant_turn,
    _convert_to_arena_format cfg W (JObj d) modality st = (Ok session, st') /\
    field "modelAId" session = Some model_id /\
    field "modality" session = Some (JStr modality) /\
    nth_error (turns session) (List.length msgs - 1) = Some last_input /\
    field "userMessageId" session = field "id" last_input /\
    nth_error (turns session) (List.length msgs) = Some assistant_turn /\
    field "modelAMessageId" session = field "id" assistant_turn /\
    field "modelId" assistant_turn = Some model_id /\
    (forall k msg role,
        nth_error msgs k = Some msg ->
        field "role" msg = Some role ->
        exists turn,
          nth_error (turns session) k = Some turn /\
          field "modelId" turn
          = Some (if eq_str role "assistant" then model_id else JNull)).
Proof.
  intros Hm Hid Hmsgs Hn Hok.
  set (eid := lower (uuid4 W (uuids_drawn st))).
  set (ids := fresh_ids W (S (uuids_drawn st)) (List.length msgs)).
  set (aid := lower (uuid4 W (S (uuids_drawn st) + List.length msgs))).
  assert (Hlen : List.length ids = List.length msgs) by apply fresh_ids_length.
  assert (Hst : List.length (spec_turns model_id eid [] msgs ids) = List.length msgs)
    by now apply spec_turns_length.
  assert (Hne : ids <> []) by (intros E; rewrite E in Hlen; simpl in Hlen; lia).
  destruct (nth_error msgs (List.length msgs - 1)) as [msg|] eqn:Hmsg;
    [|apply nth_error_None in Hmsg; lia].
  destruct (spec_turns_nth model_id eid msgs [] ids _ msg Hlen Hmsg) as (id & Hidk & Hturn).
  rewrite <- Hlen in Hidk. rewrite (nth_error_last ids Hne) in Hidk. injection Hidk as <-.
  exists (spec_session model_id eid msgs ids aid modality), (after_draws (List.length msgs + 2) st).
  eexists. exists (spec_assistant_turn model_id eid (last_parent ids) aid).
  split; [exact (convert_ok cfg W d m model_id msgs modality st Hm Hid Hmsgs Hok)|].
  change (turns (spec_session model_id eid msgs ids aid modality))
    with (spec_turns model_id eid [] msgs ids
          ++ [spec_assistant_turn model_id eid (last_parent ids) aid]).
  split; [reflexivity|]. split; [reflexivity|].
  split; [rewrite nth_error_app1 by lia; exact Hturn|].
  split; [cbn; destruct ids; [congruence | reflexivity]|].
  split; [rewrite nth_error_app2 by lia; rewrite Hst; now rewrite Nat.sub_diag|].
  split; [reflexivity|]. split; [reflexivity|].
  intros k msg' role Hk Hrole.
  destruct (spec_turns_nth model_id eid msgs [] ids k msg' Hlen Hk) as (id' & _ & Hturn').
  eexists. split.
  - rewrite nth_error_app1; [exact Hturn'|]. rewrite Hst. apply nth_error_Some. congruence.
  - change (Some (if eq_str (or_null (field "role" msg')) "assistant"
                  then model_id else JNull)
            = Some (if eq_str role "assistant" then model_id else JNull)).
    rewrite Hrole. reflexivity.
Qed.

Lemma anchors_and_model_of_session_witness :
  exists session st' last_input assistant_turn,
    _convert_to_arena_format default_config sample_world
      (chat_body "gpt-4" sample_messages false) "chat" initial_state = (Ok session, st') /\
    field "modelAId" session = Some (JStr "gpt-4o-latest") /\
    field "modality" session = Some (JStr "chat") /\
    nth_error (turns session) (List.length sample_messages - 1) = Some last_input /\
    field "userMessageId" session = field "id" last_input /\
    nth_error (turns session) (List.length sample_messages) = Some assistant_turn /\
    field "modelAMessageId" session = field "id" assistant_turn /\
    field "modelId" assistant_turn = Some (JStr "gpt-4o-latest") /\
    (forall k msg role,
        nth_error sample_messages k = Some msg ->
        field "role" msg = Some role ->
        exists turn,
          nth_error (turns session) k = Some turn /\
          field "modelId" turn
          = Some (if eq_str role "assistant" then JStr "gpt-4o-latest" else JNull)).
Proof.
  apply (anchors_and_model_of_session default_config sample_world
           [ (py "model", JStr "gpt-4"); (py "messages", JArr sample_messages);
             (py "stream", JBool false) ]
           (JStr "gpt-4") (JStr "gpt-4o-latest") sample_messages "chat" initial_state);
    try reflexivity.
  simpl; lia.
Defined.

(** The message loop stops at the first message it cannot translate, with
    the error of that message. *)
Lemma convert_messages_first_failure (W : World) (model_id : json) (evaluation_id : pystr)
    (good : list json) (bad : json) (rest : list json) (e : exn) :
  forallb message_ok good = true ->
  match getitem bad "content" with
  | Raise e' => e' = e
  | Ok content =>
      match flatten_content content with
      | Raise e' => e' = e
      | Ok _ => getitem bad "role" = Raise e
      end
  end ->
  forall (i : nat) (arena_messages : list json) (message_ids : list pystr) (st : State),
    List.length message_ids = i ->
    convert_messages W model_id evaluation_id i (good ++ bad :: rest) arena_messages
      message_ids st
    = (Raise e, after_draws (S (List.length good)) st).
Proof.
  intros Hgood Hbad.
  induction good as [|msg good IH]; intros i am ids st Hlen.
  - cbn [app convert_messages]. unfold bind, lift, fresh_uuid, after_draws. cbn beta iota.
    replace (uuids_drawn st + S (List.length (@nil json)))%nat with (S (uuids_drawn st))
      by (simpl; lia).
    destruct (getitem bad "content") as [content|e']; [|now subst].
    destruct (flatten_content content) as [flat|e']; [|now subst].
    assert (Hparent : exists p,
               (if (0 <? i)%nat
                then match nth_error (ids ++ [lower (uuid4 W (uuids_drawn st))]) (i - 1) with
                     | Some p => Ok [JStr p]
                     | None => Raise (IndexError "list index out of range")
                     end
                else Ok []) = Ok p).
    { destruct i as [|i]; [now exists []|].
      simpl Nat.ltb. cbv iota. replace (S i - 1)%nat with i by lia.
      rewrite (nth_error_snoc_last ids _ i Hlen). eexists. reflexivity. }
    destruct Hparent as [p ->]. now rewrite Hbad.
  - simpl in Hgood. apply andb_true_iff in Hgood as [Hmsg Hrest].
    destruct (message_ok_inv msg Hmsg) as (d & role & content & -> & Hrole & Hcontent & Hc).
    cbn [app convert_messages]. unfold bind at 1. unfold fresh_uuid at 1.
    unfold bind at 1. unfold lift at 1. cbn [getitem]. rewrite Hcontent.
    unfold bind at 1. unfold lift at 1. rewrite (flatten_content_spec content Hc).
    unfold bind at 1. unfold lift at 1.
    assert (Hparent :
              (if (0 <? i)%nat
               then match nth_error (ids ++ [lower (uuid4 W (uuids_drawn st))]) (i - 1) with
                    | Some p => Ok [JStr p]
                    | None => Raise (IndexError "list index out of range")
                    end
               else Ok []) = Ok (last_parent ids)).
    { destruct i as [|i].
      - destruct ids; [reflexivity | discriminate].
      - simpl Nat.ltb. cbv iota. replace (S i - 1)%nat with i by lia.
        rewrite (nth_error_snoc_last ids _ i Hlen).
        destruct ids; [discriminate | reflexivity]. }
    rewrite Hparent.
    unfold bind at 1. unfold lift at 1. rewrite Hrole.
    rewrite (IH Hrest) by (rewrite length_app; simpl; lia).
    unfold after_draws. cbn [uuids_drawn clock_reads outbound List.length].
    replace (S (uuids_drawn st) + S (List.length good))%nat
      with (uuids_drawn st + S (S (List.length good)))%nat by lia.
    reflexivity.
Qed.

(** A message without its [content], or without its [role], in a streaming
    request for a supported model: the messages before it being well-formed,
    the translator raises the [KeyError] of the missing key, no call is
    issued, and the client receives, under status 200, the error chunk
    [Error: '<key>'] and the terminator. *)
Theorem missing_message_key_is_reported (cfg : Config) (W : World) (d b : dict json)
    (m model_id : json) (good rest : list json) (key : pystr)
    (auth_context : dict pystr) (st : State) :
  dict_get d "model" = Some m ->
  get_model_id cfg m = Ok model_id ->
  existsb (eq_str model_id) (supported_models cfg) = true ->
  dict_get d "messages" = Some (JArr (good ++ JObj b :: rest)) ->
  forallb message_ok good = true ->
  (dict_get b "content" = None /\ key = py "content") \/
  (exists content, dict_get b "content" = Some content /\ content_ok content = true /\
                   dict_get b "role" = None /\ key = py "role") ->
  fst (_convert_to_arena_format cfg W (JObj d) "chat" st) = Raise (KeyError key) /\
  exists error_chunk st',
    stream_chat_completion cfg W (JObj d) auth_context st
    = ([SseData error_chunk; SseDone], st') /\
    delta_content error_chunk = Some (JStr ("Error: '" +++ key +++ "'")) /\
    finish_reason error_chunk = Some (JStr "stop") /\
    outbound st' = outbound st.
Proof.
  intros Hm Hid Hsup Hmsgs Hgood Hbad.
  assert (Hstep : match getitem (JObj b) "content" with
                  | Raise e' => e' = KeyError key
                  | Ok content =>
                      match flatten_content content with
                      | Raise e' => e' = KeyError key
                      | Ok _ => getitem (JObj b) "role" = Raise (KeyError key)
                      end
                  end).
  { cbn [getitem].
    destruct Hbad as [[Hc ->]|(content & Hc & Hok & Hr & ->)]; rewrite Hc.
    - reflexivity.
    - rewrite (flatten_content_spec content Hok), Hr. reflexivity. }
  assert (Hconv : exists st1,
             _convert_to_arena_format cfg W (JObj d) "chat" st = (Raise (KeyError key), st1)
             /\ outbound st1 = outbound st).
  { unfold _convert_to_arena_format, bind, lift, fresh_uuid. cbn [getitem get].
    rewrite Hm, Hmsgs. cbn beta iota. rewrite Hid. cbn beta iota. cbn [iterate].
    rewrite (convert_messages_first_failure W model_id _ good (JObj b) rest (KeyError key)
               Hgood Hstep 0%nat [] []) by reflexivity.
    eexists. split; reflexivity. }
  destruct Hconv as (st1 & Hconv & Hout).
  split; [now rewrite Hconv|].
  unfold stream_chat_completion, stream_chat_completion_try, bind, lift, raise.
  cbn [get]. rewrite Hm. unfold is_model_supported. rewrite Hid, Hsup. cbn [negb].
  rewrite Hconv. unfold _create_error_chunk, read_clock. cbn beta iota.
  do 2 eexists. split; [reflexivity|]. repeat split. exact Hout.
Qed.

Lemma missing_message_key_is_reported_witness :
  fst (_convert_to_arena_format default_config sample_world
         (chat_body "gpt-4"
            ([text_message "user" "hello"]
             ++ JObj [ (py "role", JStr "user") ] :: [text_message "user" "again"]) true)
         "chat" initial_state)
  = Raise (KeyError "content") /\
  exists error_chunk st',
    stream_chat_completion default_config sample_world
      (chat_body "gpt-4"
         ([text_message "user" "hello"]
          ++ JObj [ (py "role", JStr "user") ] :: [text_message "user" "again"]) true)
      sample_auth initial_state
    = ([SseData error_chunk; SseDone], st') /\
    delta_content error_chunk = Some (JStr ("Error: '" +++ "content" +++ "'")) /\
    finish_reason error_chunk = Some (JStr "stop") /\
    outbound st' = outbound initial_state.
Proof.
  apply (missing_message_key_is_reported default_config sample_world
           [ (py "model", JStr "gpt-4");
             (py "messages",
                JArr ([text_message "user" "hello"]
                      ++ JObj [ (py "role", JStr "user") ] :: [text_message "user" "again"]));
             (py "stream", JBool true) ]
           [ (py "role", JStr "user") ]
           (JStr "gpt-4") (JStr "gpt-4o-latest")
           [text_message "user" "hello"] [text_message "user" "again"] "content"
           sample_auth initial_state); try reflexivity.
  left. split; reflexivity.
Defined.

(** ** The model registry and the start-up validation *)

Lemma dict_get_In {V : Type} (d : dict V) (k : pystr) (v : V) :
  dict_get d k = Some v -> In k (map fst d).
Proof.
  induction d as [|[k' v'] d IH]; simpl; [discriminate|].
  destruct (str_eqb k' k) eqn:E.
  - apply str_eqb_eq in E. intros _. now left.
  - intros H. right. now apply IH.
Qed.

Lemma Ok_inj {A : Type} (a b : A) : Ok a = Ok b -> a = b.
Proof. now intros [= ->]. Qed.

(** With the tables of the default configuration, a model name is
    supported exactly when it is on the list of supported models or is one of
    the aliases: every alias leads to a supported model, and no alias hides a
    supported name. *)
Theorem default_models_supported_iff (name : pystr) :
  is_model_supported default_config (JStr name) = Ok true <->
  In name default_supported_models \/ In name (map fst default_model_mapping).
Proof.
  split.
  - unfold is_model_supported, get_model_id. cbn [model_mapping supported_models default_config].
    destruct (dict_get default_model_mapping name) as [mapped|] eqn:E.
    + intros _. right. exact (dict_get_In _ _ _ E).
    + intros H. apply Ok_inj in H. left.
      apply existsb_exists in H as (x & Hin & Hx). cbn [eq_str] in Hx.
      apply str_eqb_eq in Hx. now subst.
  - intros [H|H]; simpl in H;
      repeat (destruct H as [<-|H]; [reflexivity|]); contradiction.
Qed.

(** Only a string can be a supported model, whatever the configuration: a
    null, boolean or numeric model is unsupported, and a list or a dict
    raises the [TypeError] of an unhashable key. *)
Theorem only_strings_are_supported (cfg : Config) (model : json) :
  match model with
  | JStr _ => True
  | JArr _ | JObj _ =>
      is_model_supported cfg model
      = Raise (TypeError ("unhashable type: '" +++ type_name model +++ "'"))
  | _ => is_model_supported cfg model = Ok false
  end.
Proof.
  assert (H : forall v l, (forall s, v <> JStr s) -> existsb (eq_str v) l = false).
  { intros v l Hv. induction l as [|x l IH]; [reflexivity|]. simpl. rewrite IH.
    destruct v; try reflexivity. now destruct (Hv s). }
  destruct model; try exact I; try reflexivity;
    unfold is_model_supported; cbn [get_model_id]; rewrite H; try reflexivity;
    intros s; discriminate.
Qed.

(** The start-up validation accepts a configuration exactly when the port
    is between 1 and 65535 and the API timeout and the maximal request size
    are positive; a port out of range is reported before anything else; and
    on an accepted configuration the only warning is the one for required
    authentication without the two default cookies. *)
Theorem validate_config_bounds (c : Settings) :
  ((exists warnings, _validate_config c = Ok warnings) <->
   1 <= port c <= 65535 /\ 0 < arena_api_timeout c /\ 0 < max_request_size c) /\
  (port c < 1 \/ 65535 < port c ->
   _validate_config c = Raise (ValueError ("Invalid port number: " +++ str_of_int (port c)))) /\
  (forall warnings,
      _validate_config c = Ok warnings ->
      warnings = (if (require_auth c
                      && negb (truthy_opt (settings_la_cookie c)
                               && truthy_opt (settings_cf_clearance c)))%bool
                  then [py "Authentication required but no default cookies provided"]
                  else [])).
Proof.
  unfold _validate_config.
  destruct (Z.ltb_spec (port c) 1) as [Hp1|Hp1];
    destruct (Z.gtb_spec (port c) 65535) as [Hp2|Hp2]; cbn [orb];
    try (split; [split; [intros [w Hw]; discriminate | lia]
                | split; [reflexivity | discriminate]]).
  destruct (Z.leb_spec (arena_api_timeout c) 0) as [Ht|Ht];
    [split; [split; [intros [w Hw]; discriminate | lia] | split; [lia | discriminate]]|].
  destruct (Z.leb_spec (max_request_size c) 0) as [Hs|Hs];
    [split; [split; [intros [w Hw]; discriminate | lia] | split; [lia | discriminate]]|].
  split; [split; [intros _; lia | intros _]|split; [lia|]].
  - destruct (require_auth c && _)%bool; eexists; reflexivity.
  - intros warnings. destruct (require_auth c && _)%bool; now intros [= <-].
Qed.
